(* ===== verification/_CoqProject ===== *)
-Q . S2P
Prelude.v
Text.v
Safety.v
PyStr.v
PyInt.v
AsciiText.v
Utf8.v
UText.v
Stdin.v
Counter.v
Main.v
