(* ===== verification/Prelude.v ===== *)
(** * A verified model of the safe-report counter ([src/solution.py])

    The program reads lines of whitespace-separated integers ("reports")
    from standard input, decides for each non-blank line whether the report
    is safe, and prints how many are.  This development models all of it:
    the three functions of the file and the parts of CPython 3.11 they call,
    from the bytes of standard input to the line printed on standard output.

    ** Parts of the program and how they interact

    - [main] (lines 57-67) reads the whole input with
      [sys.stdin.readlines()]: the bytes are decoded as UTF-8 with the
      error handler of [sys.stdin] ([strict] in a UTF-8 locale,
      [surrogateescape] in the C locale or in UTF-8 mode) and cut into
      lines after each line feed.  It hands the lines to
      [count_safe_reports] and prints the result with [print], which calls
      [str] of the int and adds a line feed.
    - [count_safe_reports] (lines 32-54) is a loop whose only state is the
      accumulator [safe_count]; for each line it calls [str.strip], skips
      blank lines, calls [str.split] and [int] on every token
      ([list(map(int, ...))], which raises [ValueError] on the first bad
      token and ends the whole run), and increments the accumulator when
      [is_safe] accepts the report.
    - [is_safe] (lines 4-29) is a pure function on a list of Python ints:
      adjacent differences, the range test [abs(d) in (1, 2, 3)] and the
      two monotonicity tests.

    ** Files, modules and what they model

    - [Prelude] (this file): the exceptions the program can raise
      ([py_exc]: the two [ValueError]s of [int], the one of [str],
      [UnicodeDecodeError]), [codes] (the code points of an ASCII string),
      the result monad [result] with its notation [x <- m ;; k] in
      [py_scope], [list_map] ([list(map(f, xs))] with an [f] that raises:
      the first raising element ends it), the tactics [inv] and
      [result_inv], the hint databases [pyreport]/[pyreport_rw], and
      generic lemmas on lists and [Sorted] (with a [Proper] instance for
      rewriting the step relation up to pointwise equivalence).
    - [Text] (Module [Text]): the interface between the counter and
      [str]: the class [PyText] of the four operations the loop uses
      ([strip], [split], the truth value, [int]), the class [PyTextLaws]
      of what [str] promises about them, and [text_morphism], a map
      between two instances that commutes with the operations on a domain.
    - [Safety] (Module [Safety]): [diffs], [in_tuple] and [is_safe], the
      specification [safe_spec] (two [Sorted] step relations) and a
      [Decidable] instance of it whose witness is [is_safe].
    - [PyStr] (Module [PyStr]) and [PyInt] (Module [PyInt]): the ASCII
      model: [py_strip], [py_split], [readlines] on Stdlib strings, and
      [py_int], CPython's [PyLong_FromString] (C whitespace, sign, digits
      with single underscores, the [int_max_str_digits] limit [maxd]), and
      [py_str] ([str(n)]).  [AsciiText] makes them an instance of
      [Text.PyText] and proves its laws.
    - [Utf8] (Module [Utf8]): the decoding of standard input, CPython's
      [unicode_decode_utf8] and its inner loop [utf8_decode]: [decode_one]
      (one iteration at a lead byte), [decode_fuel] (the loop with the
      error handler [on_error]: raise, or [escape] the bytes of the error
      range as U+DC80..U+DCFF), [decode] on a [list byte]; the
      specification [encode] (RFC 3629) and [encode_se].
    - [Stdin] (Module [Stdin]): how [sys.stdin.readlines()] gets the
      bytes: the [TextIOWrapper] reads chunks and passes each to the
      incremental decoder, which keeps the bytes of a sequence the chunk
      cuts.  [decode_partial] is [codecs.utf_8_decode(data, errors,
      False)] (a cut sequence, and a cut [ED A0..BF]
      ([truncated_surrogate]), is kept, not an error), [reader] the state
      between two reads (the decoder's buffer and the text so far), [feed]
      one read, [finish_read] the final [decode(b"", True)], [read_chunks]
      all the reads of a list of chunks.
    - [UText] (Module [UText]): text as code points ([list Z]), as Python
      holds it after decoding: [isspace] ([Py_UNICODE_ISSPACE]), [strip],
      [split], [readlines], and [py_int], CPython's
      [PyLong_FromUnicodeObject] ([_PyUnicode_TransformDecimalAndSpaceToASCII]
      with the decimal digits [to_decimal] of every script, then
      [PyInt.py_int]); the instance [unicode_text] with its laws, and the
      morphism [codes_morphism] from the ASCII model on 7-bit strings.
    - [Counter] (Module [Counter], MathComp's [seq]), for any instance of
      [Text.PyText]: [count_step] (one loop iteration), [count_loop] (the
      loop, threading [safe_count] in the result monad),
      [count_safe_reports]; the specification [reports] (the parsed
      reports of the non-blank lines) and [blank].  The same loop is also a
      small-step machine: [loop_state] (the lines still to read and
      [safe_count]), [loop_step] (one iteration, or the exception as a
      final result), [reachable] and the big-step [loop_run].  The text
      type, its instance and [maxd] are the [Context] of its section.
    - [Main] (Module [Main]): [print], [finish] (count, then print),
      [main_bytes], the program from the bytes of standard input to an
      [outcome] ([Exit stdout] or [Raised e]), [main_chunks], the same
      with the input read by chunks through [Stdin.read_chunks], and
      [main], the same on an ASCII text.  The ASCII model stands for
      Python's text only on 7-bit strings (a Rocq [string] also holds
      characters 128-255, where Python's whitespace is wider: U+0085,
      U+00A0); the theorems on [main] are about that model, and
      [main_bytes_ascii] transports it to the bytes on 7-bit input.

    ** What the theorems show

    - Safety: [is_safe] decides [safe_spec] ([is_safe_spec]); the
      properties the specification lists: steps out of 1..3
      ([is_safe_step_out_of_range]), repeated levels ([is_safe_repeat]),
      short reports ([is_safe_short]); strict monotonicity, no repeated
      level, bounds on the span, closure under contiguous parts, invariance
      under reversal, negation and translation.
    - Counter, on every text instance: the loop refines the count of safe
      reports of [reports] ([count_safe_reports_spec]), and, with the laws
      of [str], the count of the reports of the lines that have a token
      ([count_safe_reports_tokens]); an exception is raised exactly when a
      non-blank line fails to parse, and it is the first such line's
      ([count_safe_reports_error]), the [ValueError] of one of its tokens;
      blank lines are ignored; counts add over concatenated inputs, do not
      depend on the order of the lines, and are bounded by the number of
      non-blank lines.  The step relation agrees with [count_loop]
      ([loop_run_iff]), and every reachable state satisfies [safe_count + lines left <=
      lines] ([loop_reachable_bound], by rule induction).  The count is
      transported along text morphisms ([count_safe_reports_morph]).
    - Decoding: [strict] succeeds exactly on the UTF-8 encodings of
      scalar values and returns them ([decode_strict_iff]), and otherwise
      raises [UnicodeDecodeError] ([decode_strict_error]);
      [surrogateescape] never raises, yields scalar values and escapes,
      and encodes back to the input bytes ([decode_surrogateescape_chars],
      [decode_surrogateescape_roundtrip]); both agree on UTF-8 input.
    - Reading by chunks: the reads of any list of chunks decode their
      concatenation, text and exception alike ([Stdin.read_chunks_decode],
      from [decode_partial_app]: decoding a prefix without [final] and
      resuming with what it kept decodes the whole); the decoder never
      keeps more than 3 bytes ([feed_pending_bound]) and a read that
      leaves it 4 bytes or more delivers a character ([feed_progress]);
      so the program prints the same whatever the chunks
      ([Main.main_chunks_bytes]).
    - Main: the scenarios of the specification end to end
      ([main_scenarios]) and, on bytes, those of Unicode input
      ([main_bytes_scenarios]: digits of other scripts and Unicode spaces
      are read), both runs of concrete inputs; for every input, a leading
      byte order mark makes the program raise, on the token it begins or
      on undecodable bytes ([main_bytes_bom]); on the
      bytes of an ASCII text the byte-level program is the ASCII model
      ([main_bytes_ascii]); on input that is not UTF-8 no count is ever
      printed, whatever the error handler ([main_bytes_not_utf8]); the
      output read back by [int] is the count, printing never hits the
      digit limit below [10 ^ maxd] lines, a bad token prints nothing.
    - Built-ins: [int] refines the grammar of integer literals
      ([py_int_spec]: sign, digits with single underscores, whitespace, the
      digit limit), inverts [str], reads decimal digits of any script
      ([UText.py_int_decimal]); a line is blank after [strip] iff [split]
      finds no token; [split] ignores the [strip], yields non-empty
      whitespace-free tokens and inverts [" ".join]; [strip] is
      idempotent; [UText.readlines] is characterised by its result
      ([readlines_spec]: the only partition of the input into non-empty
      lines with a line feed at the end of every line but the last, and
      nowhere else).

    ** Bounds, fuel and parameters

    - Python ints are unbounded: levels, differences and parsed values are
      [Z], the accumulator is [nat]; nothing wraps around.  Bytes are
      [Init.Byte.byte], read as [Z] in [0, 255]; code points are [Z].
    - [PyInt.to_digits] ([str] of an int) has fuel [log2 n + 1]
      divisions by 10, enough because [n < 2 ^ (log2 n + 1) <= 10 ^ (log2
      n + 1)] ([PyInt.decimal_digits_fuel]).  [Utf8.decode_fuel] has fuel
      the number of bytes, enough because every iteration consumes at
      least one byte; any larger fuel gives the same result
      ([Utf8.decode_fuel_enough]).  [Stdin.feed] runs
      [decode_partial] with fuel the length of the data, enough for the
      same reason ([decode_partial_app] holds for any larger fuel).
    - [maxd] is [sys.get_int_max_str_digits()] (4300 by default since
      Python 3.11; [0], no limit, models older versions).  CPython only
      allows [0] or values of at least 640 (and only checks runs longer
      than 640 digits), so [exceeds] is its test for every allowed value;
      the theorems hold for all.
    - The error handler of [sys.stdin] is the parameter [errors] of
      [main_bytes]; the Unicode tables ([UText.unicode_whitespace],
      [UText.decimal_zeros]) are those of Unicode 14.0.0, the database of
      CPython 3.11.

    ** Not modelled

    - The sizes of the chunks ([_CHUNK_SIZE], what [read1] returns from
      a pipe or a terminal) are not modelled: the theorems on
      [read_chunks] hold for every list of chunks.
    - The traceback, the exit status and the [if __name__ == "__main__"]
      guard are not modelled beyond the [outcome]; the encoding of
      standard output (the output is ASCII digits), output buffering and
      I/O errors ([BrokenPipeError], a closed descriptor) are not modelled.

    ** Plan for the next steps

    - The write of the printed line through the [TextIOWrapper] of
      standard output (encoding and buffering of the ASCII digits).
*)

From Stdlib Require Import String Ascii ZArith Bool Lia List Sorted Morphisms Permutation.
Import ListNotations.

(** ** Python exceptions raised by the program *)

(** The code points of an ASCII string, as Python's [str] holds them. *)
Definition codes (s : string) : list Z :=
  map (fun c => Z.of_nat (nat_of_ascii c)) (list_ascii_of_string s).

(** Why the UTF-8 decoder of standard input stops: the messages of
    CPython's [unicode_decode_utf8]. *)
Inductive decode_reason : Type :=
| InvalidStartByte
| InvalidContinuationByte
| UnexpectedEndOfData.

(** [int()] raises [ValueError("invalid literal for int() with base 10: tok")]
    on a malformed token (the message shows the token's code points), or
    [ValueError("Exceeds the limit (limit digits) for integer string
    conversion: value has digits digits")] when the token has too many
    digits; [str()] of an int raises the same kind of error when the result
    would have more than [limit] digits; reading standard input raises
    [UnicodeDecodeError] on bytes that are not UTF-8 when its error handler
    is [strict]. *)
Inductive py_exc : Type :=
| ValueErrorLiteral (tok : list Z)
| ValueErrorIntDigits (limit digits : nat)
| ValueErrorStrDigits (limit : nat)
| UnicodeDecodeError (reason : decode_reason).

Definition py_exc_eq_dec (x y : py_exc) : {x = y} + {x <> y}.
Proof.
  decide equality; first [apply (list_eq_dec Z.eq_dec) | apply Nat.eq_dec | decide equality].
Defined.

(** ** The result monad: a value, or the exception that propagates *)

Inductive result (A : Type) : Type :=
| Ok (a : A)
| Err (e : py_exc).
Arguments Ok {A} a.
Arguments Err {A} e.

Definition bind {A B} (m : result A) (k : A -> result B) : result B :=
  match m with
  | Ok a => k a
  | Err e => Err e
  end.

Definition fmap_result {A B} (f : A -> B) (m : result A) : result B :=
  bind m (fun a => Ok (f a)).

Declare Scope py_scope.
Delimit Scope py_scope with py.
Notation "x <- m ;; k" := (bind m (fun x => k))
  (at level 61, m at next level, right associativity) : py_scope.
Notation "f <$> m" := (fmap_result f m)
  (at level 40, left associativity) : py_scope.
Local Open Scope py_scope.

(** [list(map(f, xs))]: [map] is lazy, [list] forces it from left to
    right, so the first element on which [f] raises ends the evaluation. *)
Fixpoint list_map {A B} (f : A -> result B) (xs : list A) : result (list B) :=
  match xs with
  | [] => Ok []
  | x :: xs' =>
      y <- f x ;;
      ys <- list_map f xs' ;;
      Ok (y :: ys)
  end.

(** ** Tactics and the hint database *)

Create HintDb pyreport.
Create Rewrite HintDb pyreport_rw.

Ltac inv H := inversion H; subst; clear H.

(** ** Generic lemmas on results *)

Lemma bind_Ok {A B} (a : A) (k : A -> result B) : bind (Ok a) k = k a.
Proof. reflexivity. Qed.

Lemma bind_Err {A B} (e : py_exc) (k : A -> result B) : bind (Err e) k = Err e.
Proof. reflexivity. Qed.

Lemma bind_eq_Ok {A B} (m : result A) (k : A -> result B) (b : B) :
  bind m k = Ok b <-> exists a, m = Ok a /\ k a = Ok b.
Proof.
  destruct m as [a|e]; simpl; split.
  - eauto.
  - intros (a' & [= ->] & H); exact H.
  - discriminate.
  - intros (a' & H & _); discriminate.
Qed.

Lemma bind_eq_Err {A B} (m : result A) (k : A -> result B) (e : py_exc) :
  bind m k = Err e <-> m = Err e \/ exists a, m = Ok a /\ k a = Err e.
Proof.
  destruct m as [a|e']; simpl; split.
  - eauto.
  - intros [H | (a' & [= ->] & H)]; [discriminate | exact H].
  - intros [= ->]; auto.
  - intros [[= ->] | (a' & H & _)]; [reflexivity | discriminate].
Qed.

Lemma bind_assoc {A B C} (m : result A) (k : A -> result B) (h : B -> result C) :
  bind (bind m k) h = bind m (fun a => bind (k a) h).
Proof. destruct m; reflexivity. Qed.

Lemma bind_ret_r {A} (m : result A) : bind m Ok = m.
Proof. destruct m; reflexivity. Qed.

#[export] Hint Rewrite @bind_Ok @bind_Err @bind_assoc @bind_ret_r : pyreport_rw.

(** Destruct the [result]-valued hypotheses a proof is stuck on. *)
Ltac result_inv :=
  repeat match goal with
  | H : Ok _ = Ok _ |- _ => injection H as H
  | H : Err _ = Err _ |- _ => injection H as H
  | H : Ok _ = Err _ |- _ => discriminate H
  | H : Err _ = Ok _ |- _ => discriminate H
  | H : bind _ _ = Ok _ |- _ =>
      let a := fresh "a" in
      apply bind_eq_Ok in H; destruct H as (a & ? & H)
  end; subst.

(** ** [list_map]: success, failure, and the order of evaluation *)

Section ListMap.
Context {A B : Type} (f : A -> result B).

Lemma list_map_app (xs ys : list A) :
  list_map f (xs ++ ys) =
    (us <- list_map f xs ;; vs <- list_map f ys ;; Ok (us ++ vs)).
Proof.
  induction xs as [|x xs IH]; simpl.
  - destruct (list_map f ys); reflexivity.
  - destruct (f x); simpl; [|reflexivity].
    rewrite IH. destruct (list_map f xs); simpl; [|reflexivity].
    destruct (list_map f ys); reflexivity.
Qed.

(** Mapping before [list_map] is [list_map] of the composition. *)
Lemma list_map_map {C : Type} (g : C -> A) (xs : list C) :
  list_map f (map g xs) = list_map (fun x => f (g x)) xs.
Proof. induction xs as [|x xs IH]; simpl; [reflexivity|]. rewrite IH. reflexivity. Qed.

Lemma list_map_ext_in (f' : A -> result B) (xs : list A) :
  (forall x, In x xs -> f x = f' x) -> list_map f xs = list_map f' xs.
Proof.
  induction xs as [|x xs IH]; intros Hx; simpl; [reflexivity|].
  rewrite (Hx x (or_introl eq_refl)), IH; [reflexivity|].
  intros y Hy. apply Hx. right. exact Hy.
Qed.

Lemma list_map_Ok_iff (xs : list A) (ys : list B) :
  list_map f xs = Ok ys <-> Forall2 (fun x y => f x = Ok y) xs ys.
Proof.
  revert ys; induction xs as [|x xs IH]; intros ys; simpl.
  - split; [intros [= <-]; constructor | intros H; inv H; reflexivity].
  - split.
    + intros H; result_inv. constructor; [assumption | apply IH; assumption].
    + intros H; inv H. match goal with H : f x = _ |- _ => rewrite H end.
      simpl. rewrite (proj2 (IH _) ltac:(eassumption)). reflexivity.
Qed.

Lemma list_map_length (xs : list A) (ys : list B) :
  list_map f xs = Ok ys -> length ys = length xs.
Proof.
  intros H%list_map_Ok_iff. symmetry. eapply Forall2_length; exact H.
Qed.

(** The exception raised is the one of the first element that raises. *)
Lemma list_map_Err_iff (xs : list A) (e : py_exc) :
  list_map f xs = Err e <->
  exists pre x post, xs = pre ++ x :: post /\
    Forall (fun y => exists b, f y = Ok b) pre /\ f x = Err e.
Proof.
  induction xs as [|x xs IH]; simpl.
  - split; [discriminate | intros ([|] & ? & ? & H & _); discriminate H].
  - destruct (f x) as [b|e'] eqn:Hx; simpl.
    + rewrite bind_eq_Err, IH. split.
      * intros [H | (ys & _ & H)]; [|discriminate].
        destruct H as (pre & y & post & -> & Hpre & Hy).
        exists (x :: pre), y, post. split; [reflexivity|].
        split; [constructor; eauto | exact Hy].
      * intros ([|x' pre] & y & post & Heq & Hpre & Hy); simpl in Heq; inv Heq.
        -- congruence.
        -- left. inv Hpre. exists pre, y, post. auto.
    + split.
      * intros [= <-]. exists [], x, xs. auto.
      * intros ([|x' pre] & y & post & Heq & Hpre & Hy); simpl in Heq; inv Heq.
        -- congruence.
        -- inv Hpre. match goal with H : exists b, _ |- _ => destruct H end.
           congruence.
Qed.
Lemma list_map_cons_Ok (x : A) (xs : list A) (rs : list B) :
  list_map f (x :: xs) = Ok rs <->
  exists y ys, f x = Ok y /\ list_map f xs = Ok ys /\ rs = y :: ys.
Proof.
  simpl. split.
  - intros H. result_inv. eauto.
  - intros (y & ys & Hy & Hys & ->). rewrite Hy. simpl. rewrite Hys. reflexivity.
Qed.

(** Reordering the inputs of a successful [list_map] reorders its results. *)
Lemma list_map_Permutation (xs ys : list A) (rs : list B) :
  Permutation xs ys -> list_map f xs = Ok rs ->
  exists rs', list_map f ys = Ok rs' /\ Permutation rs rs'.
Proof.
  intros Hp. revert rs. induction Hp as [|x l l' Hp IH|y x l|l l' l'' H1 IH1 H2 IH2];
    intros rs H.
  - exists rs. split; [exact H | reflexivity].
  - apply list_map_cons_Ok in H as (r & rs0 & Hx & Hl & ->).
    destruct (IH _ Hl) as (rs' & Hl' & Hperm). exists (r :: rs'). split.
    + apply list_map_cons_Ok. eauto.
    + apply perm_skip, Hperm.
  - apply list_map_cons_Ok in H as (b & rs0 & Hy & H & ->).
    apply list_map_cons_Ok in H as (a & r & Hx & Hl & ->).
    exists (a :: b :: r). split.
    + apply list_map_cons_Ok. exists a, (b :: r). split; [exact Hx|].
      split; [apply list_map_cons_Ok; eauto | reflexivity].
    + apply perm_swap.
  - destruct (IH1 _ H) as (r1 & H1' & P1). destruct (IH2 _ H1') as (r2 & H2' & P2).
    exists r2. split; [exact H2' | eapply perm_trans; eassumption].
Qed.

(** An element that raises makes the whole [list_map] raise. *)
Lemma list_map_In_Err (xs : list A) (x : A) (e0 : py_exc) :
  In x xs -> f x = Err e0 -> exists e, list_map f xs = Err e.
Proof.
  intros Hin Hx. induction xs as [|y xs IH]; [destruct Hin|]. simpl.
  destruct Hin as [<- | Hin].
  - rewrite Hx. simpl. eauto.
  - destruct (f y); simpl; [|eauto]. destruct (IH Hin) as [e He]. rewrite He. simpl. eauto.
Qed.
End ListMap.

(** ** Generic lemmas on boolean list tests *)

Lemma existsb_negb {A} (p : A -> bool) (l : list A) :
  existsb (fun x => negb (p x)) l = negb (forallb p l).
Proof. induction l as [|x l IH]; simpl; [reflexivity|]. rewrite IH. now destruct (p x). Qed.

Lemma forallb_ext_in {A} (p q : A -> bool) (l : list A) :
  (forall x, In x l -> p x = q x) -> forallb p l = forallb q l.
Proof.
  induction l as [|x l IH]; intros H; simpl; [reflexivity|].
  rewrite H by (left; reflexivity). rewrite IH; [reflexivity|].
  intros y Hy; apply H; right; exact Hy.
Qed.

(** ** Relations between adjacent elements: [Sorted] *)

Section SortedAdjacent.
Context {A : Type}.

(** [Sorted R l] says [R a b] of every pair of adjacent elements. *)
Lemma Sorted_adjacent_iff (R : A -> A -> Prop) (l : list A) :
  Sorted R l <-> (forall pre a b post, l = pre ++ a :: b :: post -> R a b).
Proof.
  induction l as [|x l IH]; split.
  - intros _ [|] ? ? ? H; discriminate H.
  - intros _; constructor.
  - intros H%Sorted_inv [|y pre] a b post Heq; destruct H as [Hs Hd];
      simpl in Heq; inv Heq.
    + inv Hd. assumption.
    + exact (proj1 IH Hs pre a b post eq_refl).
  - intros H. constructor.
    + apply IH. intros pre a b post ->. exact (H (x :: pre) a b post eq_refl).
    + destruct l as [|y l]; constructor. exact (H [] x y l eq_refl).
Qed.

Lemma Sorted_rev_iff (R : A -> A -> Prop) (l : list A) :
  Sorted R (rev l) <-> Sorted (fun a b => R b a) l.
Proof.
  rewrite !Sorted_adjacent_iff. split.
  - intros H pre a b post ->. apply (H (rev post) b a (rev pre)).
    rewrite rev_app_distr. simpl. now rewrite <- !app_assoc.
  - intros H pre a b post Heq. apply (H (rev post) b a (rev pre)).
    rewrite <- (rev_involutive l), Heq, rev_app_distr. simpl.
    now rewrite <- !app_assoc.
Qed.

Lemma Sorted_map_iff {B} (R : B -> B -> Prop) (f : A -> B) (l : list A) :
  Sorted R (map f l) <-> Sorted (fun a b => R (f a) (f b)) l.
Proof.
  induction l as [|x l IH]; simpl; split; intros H; try constructor;
    apply Sorted_inv in H; destruct H as [Hs Hd].
  - apply IH, Hs.
  - destruct l; constructor. inv Hd. assumption.
  - apply IH, Hs.
  - destruct l; constructor. inv Hd. assumption.
Qed.

#[export] Instance Sorted_proper :
  Proper (pointwise_relation A (pointwise_relation A iff) ==> eq ==> iff) (@Sorted A).
Proof.
  intros R R' HR l ? <-. rewrite !Sorted_adjacent_iff.
  split; intros H pre a b post Heq; apply HR; eapply H; exact Heq.
Qed.

Lemma Sorted_infix (R : A -> A -> Prop) (pre mid post : list A) :
  Sorted R (pre ++ mid ++ post) -> Sorted R mid.
Proof.
  rewrite !Sorted_adjacent_iff. intros H p a b s ->.
  apply (H (pre ++ p) a b (s ++ post)). now rewrite <- !app_assoc.
Qed.

(** A sorted list for a transitive irreflexive relation has no duplicate. *)
Lemma Sorted_NoDup (R : A -> A -> Prop) (l : list A) :
  Transitive R -> (forall x, ~ R x x) -> Sorted R l -> NoDup l.
Proof.
  intros Htr Hirr Hs%Sorted_StronglySorted; [|exact Htr].
  induction Hs as [|x l _ IH Hall]; constructor; [|exact IH].
  intros Hin. rewrite Forall_forall in Hall. exact (Hirr x (Hall x Hin)).
Qed.
End SortedAdjacent.

Lemma Forall_skipn {A : Type} (P : A -> Prop) (n : nat) (l : list A) :
  Forall P l -> Forall P (skipn n l).
Proof. intros H. revert n. induction H; intros [|n]; simpl; auto. Qed.

Lemma Forall_firstn {A : Type} (P : A -> Prop) (n : nat) (l : list A) :
  Forall P l -> Forall P (firstn n l).
Proof. intros H. revert n. induction H; intros [|n]; simpl; auto. Qed.

Lemma forallb_false_exists {A : Type} (p : A -> bool) (l : list A) :
  forallb p l = false -> exists x, In x l /\ p x = false.
Proof.
  induction l as [|x l IH]; [discriminate|]. simpl. intros H.
  destruct (p x) eqn:Hx; [destruct (IH H) as [y [Hy Hpy]]; exists y; auto | exists x; auto].
Qed.

Lemma forallb_Forall {A} (p : A -> bool) (l : list A) :
  forallb p l = true <-> Forall (fun x => p x = true) l.
Proof. rewrite forallb_forall, Forall_forall. reflexivity. Qed.

Lemma forallb_impl {A} (p q : A -> bool) (l : list A) :
  (forall x, p x = true -> q x = true) -> forallb p l = true -> forallb q l = true.
Proof. rewrite !forallb_Forall. intros H. apply Forall_impl, H. Qed.

Lemma Permutation_filter_bool {A} (p : A -> bool) (l1 l2 : list A) :
  Permutation l1 l2 -> Permutation (filter p l1) (filter p l2).
Proof.
  induction 1 as [|x l l' _ IH|y x l|l l' l'' _ IH1 _ IH2]; simpl.
  - constructor.
  - destruct (p x); [apply perm_skip|]; exact IH.
  - destruct (p x), (p y); try apply perm_swap; reflexivity.
  - eapply perm_trans; eassumption.
Qed.

Lemma last_cons_default {A} (y d : A) (l : list A) : last (y :: l) d = last l y.
Proof.
  revert y d; induction l as [|z l IH]; intros y d; [reflexivity|].
  change (last (z :: l) d = last (z :: l) y). rewrite !IH. reflexivity.
Qed.
