(* ===== verification/Text.v ===== *)
(** * The interface between the counter and Python's [str]

    [count_safe_reports] (src/solution.py, lines 46-54) uses four things of
    the text it reads: [line.strip()] (line 48), the truth value of the
    stripped line ([if not stripped], line 49), [stripped.split()] and
    [int] of each token (line 51).  [PyText] collects them as a class over
    the type of the text, so that the counter is written and proved once
    and runs both on the ASCII strings of [AsciiText] and on the code
    points of [UText], which is what CPython holds after decoding standard
    input.  [PyTextLaws] states what [str] promises the counter about
    [strip] and [split]; [text_morphism] is a map between two instances
    that commutes with the operations on a domain of texts, along which the counter's results
    are transported. *)

From Stdlib Require Import List ZArith.
From S2P Require Import Prelude.
Import ListNotations.

Module Text.

Class PyText (text : Type) := {
  strip : text -> text;
  split : text -> list text;
  is_empty : text -> bool;
  to_int : nat -> text -> result Z
}.

(** Stripping removes no token, and a line is blank after stripping
    exactly when it has no token. *)
Class PyTextLaws (text : Type) `{PyText text} := {
  split_strip (s : text) : split (strip s) = split s;
  empty_strip_iff (s : text) : is_empty (strip s) = true <-> split s = []
}.

(** A morphism of text instances on the texts that satisfy [P]: a map
    that commutes with the operations there, [P] being kept by [strip] and
    [split] (for instance the code points of a 7-bit ASCII string). *)
Record text_morphism {A B : Type} `{PyText A} `{PyText B} (P : A -> Prop) (f : A -> B) : Prop := {
  morph_strip (s : A) : P s -> f (strip s) = strip (f s);
  morph_strip_dom (s : A) : P s -> P (strip s);
  morph_split (s : A) : P s -> split (f s) = map f (split s);
  morph_split_dom (s : A) : P s -> Forall P (split s);
  morph_empty (s : A) : P s -> is_empty (f s) = is_empty s;
  morph_int (maxd : nat) (s : A) : P s -> to_int maxd (f s) = to_int maxd s
}.

End Text.
