(* ===== verification/Safety.v ===== *)
(** * The safety checker: [is_safe] (src/solution.py, lines 4-29)

    [Safety.is_safe] translates the Python function line by line: the
    length guard, the list [diffs] built with [zip(levels, levels[1:])],
    the range test [abs(d) not in (1, 2, 3)] and the two monotonicity tests
    [all_pos] and [all_neg].  Python ints are unbounded, so levels and
    differences are [Z] and no subtraction wraps around.

    The abstract specification [safe_spec] says that every adjacent step
    goes up by 1 to 3, or every adjacent step goes down by 1 to 3, as two
    [Sorted] step relations; [is_safe_spec] shows that the checker decides
    exactly this predicate, and the other theorems are consequences stated
    about the checker itself. *)

From Stdlib Require Import ZArith List Bool Lia Sorted Morphisms Setoid.
From Stdlib Require Import DecidableClass.
From S2P Require Import Prelude.
Import ListNotations.
Local Open Scope Z_scope.

Module Safety.

(** [diffs = [b - a for a, b in zip(levels, levels[1:])]]: [zip] stops at
    the shorter list and the slice [levels[1:]] of an empty list is empty. *)
Definition diffs (levels : list Z) : list Z :=
  map (fun '(a, b) => b - a) (combine levels (skipn 1 levels)).

(** [x in (1, 2, 3)]: membership in a tuple compares with [==]. *)
Definition in_tuple (x : Z) (t : list Z) : bool :=
  existsb (fun y => x =? y) t.

Definition is_safe (levels : list Z) : bool :=
  if (length levels <=? 1)%nat then true
  else
    let diffs := diffs levels in
    if existsb (fun d => negb (in_tuple (Z.abs d) [1; 2; 3])) diffs then false
    else
      let all_pos := forallb (fun d => d >? 0) diffs in
      let all_neg := forallb (fun d => d <? 0) diffs in
      all_pos || all_neg.

(** ** Abstract specification *)

Definition inc_step (a b : Z) : Prop := 1 <= b - a <= 3.
Definition dec_step (a b : Z) : Prop := 1 <= a - b <= 3.

Definition safe_spec (levels : list Z) : Prop :=
  Sorted inc_step levels \/ Sorted dec_step levels.

(** The boolean step tests the checker amounts to. *)
Definition inc_b (d : Z) : bool := (1 <=? d) && (d <=? 3).
Definition dec_b (d : Z) : bool := (1 <=? - d) && (- d <=? 3).

(** ** Lemmas on [diffs] and the step tests *)

Lemma diffs_cons_cons (a b : Z) (l : list Z) :
  diffs (a :: b :: l) = (b - a) :: diffs (b :: l).
Proof. reflexivity. Qed.

Lemma diffs_short (l : list Z) : (length l <= 1)%nat -> diffs l = [].
Proof. destruct l as [|a [|b l]]; simpl; [reflexivity | reflexivity | lia]. Qed.

Lemma length_diffs (l : list Z) : length (diffs l) = (length l - 1)%nat.
Proof.
  induction l as [|a [|b l] IH]; [reflexivity | reflexivity |].
  rewrite diffs_cons_cons. simpl in *. rewrite IH. lia.
Qed.

Lemma in_tuple_123 (x : Z) : in_tuple x [1; 2; 3] = true <-> 1 <= x <= 3.
Proof.
  unfold in_tuple. simpl. rewrite !orb_true_iff, !Z.eqb_eq. lia.
Qed.

(** On a difference that passed the range test, [d > 0] is the increasing
    step test and [d < 0] the decreasing one. *)
Lemma step_tests (d : Z) :
  in_tuple (Z.abs d) [1; 2; 3] = true ->
  (d >? 0) = inc_b d /\ (d <? 0) = dec_b d.
Proof.
  rewrite in_tuple_123. intros H. unfold inc_b, dec_b.
  destruct (Z.abs_spec d) as [[Hd Ha] | [Hd Ha]]; rewrite Ha in H;
  split; apply eq_true_iff_eq; rewrite ?andb_true_iff, ?Z.gtb_lt, ?Z.ltb_lt, ?Z.leb_le; lia.
Qed.

Lemma step_b_range (d : Z) :
  inc_b d = true \/ dec_b d = true -> in_tuple (Z.abs d) [1; 2; 3] = true.
Proof.
  rewrite in_tuple_123. unfold inc_b, dec_b.
  rewrite !andb_true_iff, !Z.leb_le. lia.
Qed.

(** The checker is the disjunction of two tests on the differences. *)
Lemma is_safe_diffs (l : list Z) :
  is_safe l = forallb inc_b (diffs l) || forallb dec_b (diffs l).
Proof.
  unfold is_safe. destruct (Nat.leb_spec (length l) 1) as [Hl | Hl].
  - rewrite diffs_short by exact Hl. reflexivity.
  - rewrite existsb_negb.
    destruct (forallb (fun d => in_tuple (Z.abs d) [1; 2; 3]) (diffs l)) eqn:Hok; simpl.
    + rewrite forallb_forall in Hok.
      f_equal; apply forallb_ext_in; intros d Hd; apply step_tests, Hok, Hd.
    + apply not_true_iff_false in Hok. symmetry. apply orb_false_iff.
      split; apply not_true_iff_false; intros H; apply Hok; revert H;
        apply forallb_impl; intros d Hd; apply step_b_range; auto.
Qed.

(** [Sorted] of a relation on the difference is [Forall] on [diffs]. *)
Lemma Sorted_diffs (P : Z -> Prop) (l : list Z) :
  Sorted (fun a b => P (b - a)) l <-> Forall P (diffs l).
Proof.
  induction l as [|a [|b l] IH].
  - split; constructor.
  - split; constructor; constructor.
  - rewrite diffs_cons_cons. split.
    + intros [Hs Hd]%Sorted_inv. inv Hd. constructor; [assumption | apply IH, Hs].
    + intros H; inv H. constructor; [apply IH; assumption | constructor; assumption].
Qed.

Lemma dec_step_diff :
  pointwise_relation Z (pointwise_relation Z iff) dec_step (fun a b => 1 <= - (b - a) <= 3).
Proof. intros a b. unfold dec_step. lia. Qed.

Lemma inc_step_diff :
  pointwise_relation Z (pointwise_relation Z iff) inc_step (fun a b => 1 <= b - a <= 3).
Proof. intros a b. reflexivity. Qed.

(** ** The checker decides the specification *)

Lemma is_safe_iff (levels : list Z) : is_safe levels = true <-> safe_spec levels.
Proof.
  rewrite is_safe_diffs, orb_true_iff, !forallb_Forall.
  unfold safe_spec. rewrite inc_step_diff, dec_step_diff.
  rewrite (Sorted_diffs (fun d => 1 <= d <= 3)), (Sorted_diffs (fun d => 1 <= - d <= 3)).
  unfold inc_b, dec_b.
  split; intros [H | H]; [left | right | left | right]; revert H;
    apply Forall_impl; intros d; rewrite andb_true_iff, !Z.leb_le; tauto.
Qed.

#[export] Instance safe_spec_Decidable (levels : list Z) : Decidable (safe_spec levels) :=
  {| Decidable_witness := is_safe levels; Decidable_spec := is_safe_iff levels |}.

Lemma is_safe_false_iff (levels : list Z) : is_safe levels = false <-> ~ safe_spec levels.
Proof. rewrite <- is_safe_iff, not_true_iff_false. reflexivity. Qed.

(** A step of a safe report is in range, whichever the direction. *)
Lemma safe_spec_step (pre post : list Z) (a b : Z) :
  safe_spec (pre ++ a :: b :: post) -> 1 <= Z.abs (b - a) <= 3.
Proof.
  unfold safe_spec. rewrite !Sorted_adjacent_iff.
  intros [H | H]; specialize (H pre a b post eq_refl); unfold inc_step, dec_step in H; lia.
Qed.

(** A safe report is strictly monotone. *)
Lemma safe_spec_strict (levels : list Z) :
  safe_spec levels -> Sorted Z.lt levels \/ Sorted Z.gt levels.
Proof.
  unfold safe_spec. rewrite !Sorted_adjacent_iff.
  intros [H | H]; [left | right]; intros pre a b post Heq;
    specialize (H pre a b post Heq); unfold inc_step, dec_step in H; lia.
Qed.

(** Bounds on the span of [Sorted] steps in [[lo, hi]]. *)
Lemma Sorted_step_span (lo hi x : Z) (l : list Z) :
  Sorted (fun a b => lo <= b - a <= hi) (x :: l) ->
  x + lo * Z.of_nat (length l) <= last l x <= x + hi * Z.of_nat (length l).
Proof.
  revert x; induction l as [|y l IH]; intros x Hs; simpl length.
  - simpl. lia.
  - apply Sorted_inv in Hs as [Hs Hd]. inv Hd.
    specialize (IH y Hs). rewrite last_cons_default.
    lia.
Qed.

Lemma safe_spec_span (x : Z) (l : list Z) :
  safe_spec (x :: l) ->
  Z.of_nat (length l) <= Z.abs (last l x - x) <= 3 * Z.of_nat (length l).
Proof.
  unfold safe_spec.
  assert (Hdec : pointwise_relation Z (pointwise_relation Z iff) dec_step
                   (fun a b => -3 <= b - a <= -1)) by (intros a b; unfold dec_step; lia).
  rewrite inc_step_diff, Hdec.
  intros [H | H]; apply Sorted_step_span in H; lia.
Qed.

(** ** Properties of the checker *)

(** C1 (refinement): [is_safe] returns [True] exactly on the reports whose
    adjacent steps all increase by 1 to 3 or all decrease by 1 to 3. *)
Theorem is_safe_spec (levels : list Z) :
  is_safe levels = true <-> Sorted inc_step levels \/ Sorted dec_step levels.
Proof. exact (is_safe_iff levels). Qed.

(** C5 (functional): a report of length 0 or 1 is safe. *)
Theorem is_safe_short (levels : list Z) :
  (length levels <= 1)%nat -> is_safe levels = true.
Proof. intros H. unfold is_safe. apply Nat.leb_le in H. rewrite H. reflexivity. Qed.

(** A report with two equal adjacent levels (a zero
    difference) is unsafe, wherever the repetition occurs. *)
Theorem is_safe_repeat (pre post : list Z) (x : Z) :
  is_safe (pre ++ x :: x :: post) = false.
Proof.
  apply is_safe_false_iff. intros H%safe_spec_step. lia.
Qed.

(** C4 (functional): a report with an adjacent step whose absolute value is
    0 or at least 4 is unsafe, in either direction. *)
Theorem is_safe_step_out_of_range (pre post : list Z) (a b : Z) :
  ~ (1 <= Z.abs (b - a) <= 3) -> is_safe (pre ++ a :: b :: post) = false.
Proof. intros Hout. apply is_safe_false_iff. intros H%safe_spec_step. exact (Hout H). Qed.

(** C33 (invariant): the levels of a safe report are strictly increasing or
    strictly decreasing as a whole, not only between neighbours. *)
Theorem is_safe_monotone (levels : list Z) :
  is_safe levels = true -> StronglySorted Z.lt levels \/ StronglySorted Z.gt levels.
Proof.
  intros H%is_safe_iff%safe_spec_strict.
  destruct H as [H | H]; [left | right]; apply Sorted_StronglySorted; auto;
    intros x y z; lia.
Qed.

(** A report is safe exactly when its reversal is. *)
Theorem is_safe_rev (levels : list Z) : is_safe (rev levels) = is_safe levels.
Proof.
  apply eq_true_iff_eq. rewrite !is_safe_iff. unfold safe_spec.
  rewrite !Sorted_rev_iff. unfold inc_step, dec_step. tauto.
Qed.

(** Negating every level does not change the verdict. *)
Theorem is_safe_opp (levels : list Z) : is_safe (map Z.opp levels) = is_safe levels.
Proof.
  apply eq_true_iff_eq. rewrite !is_safe_iff. unfold safe_spec.
  rewrite !Sorted_map_iff.
  assert (H1 : pointwise_relation Z (pointwise_relation Z iff)
                 (fun a b => inc_step (- a) (- b)) dec_step)
    by (intros a b; unfold inc_step, dec_step; lia).
  assert (H2 : pointwise_relation Z (pointwise_relation Z iff)
                 (fun a b => dec_step (- a) (- b)) inc_step)
    by (intros a b; unfold inc_step, dec_step; lia).
  rewrite H1, H2. tauto.
Qed.

(** Adding the same constant to every level does not
    change the verdict. *)
Theorem is_safe_translate (c : Z) (levels : list Z) :
  is_safe (map (Z.add c) levels) = is_safe levels.
Proof.
  apply eq_true_iff_eq. rewrite !is_safe_iff. unfold safe_spec.
  rewrite !Sorted_map_iff.
  assert (H1 : pointwise_relation Z (pointwise_relation Z iff)
                 (fun a b => inc_step (c + a) (c + b)) inc_step)
    by (intros a b; unfold inc_step; lia).
  assert (H2 : pointwise_relation Z (pointwise_relation Z iff)
                 (fun a b => dec_step (c + a) (c + b)) dec_step)
    by (intros a b; unfold dec_step; lia).
  rewrite H1, H2. reflexivity.
Qed.

(** Every contiguous part of a safe report is safe. *)
Theorem is_safe_infix (pre mid post : list Z) :
  is_safe (pre ++ mid ++ post) = true -> is_safe mid = true.
Proof.
  rewrite !is_safe_iff. unfold safe_spec.
  intros [H | H]; [left | right]; eapply Sorted_infix; exact H.
Qed.

(** A safe report never repeats a level. *)
Theorem is_safe_NoDup (levels : list Z) : is_safe levels = true -> NoDup levels.
Proof.
  intros H%is_safe_iff%safe_spec_strict.
  destruct H as [H | H]; eapply Sorted_NoDup; try exact H;
    first [intros x y z; lia | intros x; lia].
Qed.

(** C34 (bounds): in a safe report of [n + 1] levels, the first and last
    levels are at least [n] and at most [3 n] apart. *)
Theorem is_safe_span (x : Z) (rest : list Z) :
  is_safe (x :: rest) = true ->
  Z.of_nat (length rest) <= Z.abs (last rest x - x) <= 3 * Z.of_nat (length rest).
Proof. intros H%is_safe_iff. apply safe_spec_span, H. Qed.

(** ** The scenarios of the specification, and witnesses *)

Example is_safe_1234 : is_safe [1; 2; 3; 4] = true.
Proof. reflexivity. Qed.

Example is_safe_1278 : is_safe [1; 2; 7; 8] = false.
Proof. reflexivity. Qed.

Example is_safe_9762 : is_safe [9; 7; 6; 2] = false.
Proof. reflexivity. Qed.

Example is_safe_mixed : is_safe [1; 3; 2; 4] = false.
Proof. reflexivity. Qed.

Lemma is_safe_short_witness : (length [7] <= 1)%nat /\ is_safe [7] = true.
Proof. split; [simpl; lia | apply (is_safe_short [7]); simpl; lia]. Defined.

(** The step from 2 to 7 of the report [1 2 7 8]. *)
Lemma is_safe_step_out_of_range_witness :
  ~ (1 <= Z.abs (7 - 2) <= 3) /\ is_safe ([1] ++ 2 :: 7 :: [8]) = false.
Proof.
  split; [simpl; lia | apply (is_safe_step_out_of_range [1] [8] 2 7); simpl; lia].
Defined.

Lemma is_safe_monotone_witness :
  is_safe [7; 6; 4; 2; 1] = true /\
  (StronglySorted Z.lt [7; 6; 4; 2; 1] \/ StronglySorted Z.gt [7; 6; 4; 2; 1]).
Proof. split; [reflexivity | apply is_safe_monotone; reflexivity]. Defined.

Lemma is_safe_infix_witness :
  is_safe ([1; 3] ++ [6; 7] ++ [9]) = true /\ is_safe [6; 7] = true.
Proof. split; [reflexivity | apply (is_safe_infix [1; 3] [6; 7] [9]); reflexivity]. Defined.

Lemma is_safe_NoDup_witness : is_safe [1; 3; 6; 7; 9] = true /\ NoDup [1; 3; 6; 7; 9].
Proof. split; [reflexivity | apply is_safe_NoDup; reflexivity]. Defined.

Lemma is_safe_span_witness :
  is_safe (1 :: [3; 6; 7; 9]) = true /\
  Z.of_nat (length [3; 6; 7; 9]) <= Z.abs (last [3; 6; 7; 9] 1 - 1)
    <= 3 * Z.of_nat (length [3; 6; 7; 9]).
Proof. split; [reflexivity | apply is_safe_span; reflexivity]. Defined.

End Safety.
