(* ===== verification/PyStr.v ===== *)
(** * Python's string built-ins called by the program

    [count_safe_reports] calls [line.strip()] and [stripped.split()]
    (src/solution.py, lines 48 and 51) and [main] calls
    [sys.stdin.readlines()] (line 61).  Their behaviour decides which lines
    are blank and what the tokens are, so they are modelled here on ASCII
    text, after CPython:
    - [is_space] is [Py_UNICODE_ISSPACE] on ASCII: the characters 9 to 13,
      the separators 28 to 31 and the space 32;
    - [py_strip] is [str.strip()] with no argument ([do_strip]): leading
      and trailing whitespace removed;
    - [py_split] is [str.split()] with no argument ([split_whitespace]):
      maximal runs of non-whitespace characters, no empty token;
    - [readlines] is [readlines()] of [sys.stdin] on POSIX, where the text
      layer is opened with [newline="\n"]: the input is cut after each
      line feed, which stays at the end of its line, and a carriage return
      is an ordinary character. *)

From Stdlib Require Import String Ascii List Bool Arith Lia.
From S2P Require Import Prelude.
Import ListNotations.
Local Open Scope string_scope.

Module PyStr.

(** ** Characters *)

Definition is_space (c : ascii) : bool :=
  let n := nat_of_ascii c in
  (((9 <=? n) && (n <=? 13)) || ((28 <=? n) && (n <=? 31)) || (n =? 32))%nat.

Definition is_empty (s : string) : bool :=
  match s with
  | EmptyString => true
  | String _ _ => false
  end.

(** Every character of [s] satisfies [p]. *)
Fixpoint all_chars (p : ascii -> bool) (s : string) : bool :=
  match s with
  | EmptyString => true
  | String c s' => p c && all_chars p s'
  end.

(** ** [str.strip()] *)

(** The left loop of [do_strip]: skip whitespace from the start. *)
Fixpoint lstrip (s : string) : string :=
  match s with
  | EmptyString => EmptyString
  | String c s' => if is_space c then lstrip s' else s
  end.

(** The right loop of [do_strip]: cut the longest all-whitespace suffix. *)
Fixpoint rstrip (s : string) : string :=
  match s with
  | EmptyString => EmptyString
  | String c s' =>
      let r := rstrip s' in
      if is_space c && is_empty r then EmptyString else String c r
  end.

Definition py_strip (s : string) : string := rstrip (lstrip s).

(** ** [str.split()] *)

(** A token is added only when it is not empty ([SPLIT_ADD] runs after at
    least one non-whitespace character). *)
Definition cons_word (w : string) (ws : list string) : list string :=
  if is_empty w then ws else w :: ws.

(** [split_aux s] is the (possibly empty) run of non-whitespace characters
    that starts [s], and the tokens of the rest of [s] after it. *)
Fixpoint split_aux (s : string) : string * list string :=
  match s with
  | EmptyString => (EmptyString, [])
  | String c s' =>
      let '(w, ws) := split_aux s' in
      if is_space c then (EmptyString, cons_word w ws) else (String c w, ws)
  end.

Definition py_split (s : string) : list string :=
  let '(w, ws) := split_aux s in cons_word w ws.

(** [" ".join(tokens)], the inverse of [py_split] on well-formed tokens. *)
Fixpoint join_space (toks : list string) : string :=
  match toks with
  | [] => EmptyString
  | [t] => t
  | t :: ts => t ++ String " " (join_space ts)
  end.

(** ** [readlines()] *)

Definition newline : ascii := "010".

(** A line ends when a line feed is read; the text after the last line
    feed, when there is any, is a last line without one. *)
Fixpoint readlines_aux (s : string) : string * list string :=
  match s with
  | EmptyString => (EmptyString, [])
  | String c s' =>
      let '(l, ls) := readlines_aux s' in
      if Ascii.eqb c newline then (String c EmptyString, cons_word l ls)
      else (String c l, ls)
  end.

Definition readlines (s : string) : list string :=
  let '(l, ls) := readlines_aux s in cons_word l ls.

(** ** Well-formed tokens *)

Definition word_ok (w : string) : Prop :=
  w <> EmptyString /\ all_chars (fun c => negb (is_space c)) w = true.

(** ** The shape of the lines [readlines] returns *)

Definition newline_free (s : string) : bool :=
  all_chars (fun c => negb (Ascii.eqb c newline)) s.

(** A line is a newline-free body followed by a line feed, or a non-empty
    newline-free body (the last line of an input without a final line
    feed). *)
Definition line_ok (l : string) : Prop :=
  exists body, newline_free body = true /\
    (l = body ++ String newline EmptyString \/ (l = body /\ body <> EmptyString)).

Definition ends_nl (l : string) : Prop :=
  exists body, l = body ++ String newline EmptyString.

(** ** Lemmas *)

Lemma is_empty_true (s : string) : is_empty s = true <-> s = EmptyString.
Proof. destruct s; simpl; split; congruence. Qed.

Lemma all_chars_app (p : ascii -> bool) (s t : string) :
  all_chars p (s ++ t) = all_chars p s && all_chars p t.
Proof. induction s as [|c s IH]; simpl; [reflexivity|]. rewrite IH, andb_assoc. reflexivity. Qed.

Lemma py_split_cons_space (c : ascii) (s : string) :
  is_space c = true -> py_split (String c s) = py_split s.
Proof.
  intros Hc. unfold py_split. simpl. destruct (split_aux s) as [w ws].
  rewrite Hc. reflexivity.
Qed.

Lemma split_aux_cons_space (c : ascii) (s : string) :
  is_space c = true -> split_aux (String c s) = (EmptyString, py_split s).
Proof.
  intros Hc. unfold py_split. simpl. destruct (split_aux s). rewrite Hc. reflexivity.
Qed.

Lemma split_aux_lstrip (s : string) : py_split (lstrip s) = py_split s.
Proof.
  induction s as [|c s IH]; simpl; [reflexivity|].
  destruct (is_space c) eqn:Hc; [|reflexivity].
  rewrite IH, py_split_cons_space by exact Hc. reflexivity.
Qed.

Lemma split_aux_rstrip (s : string) : split_aux (rstrip s) = split_aux s.
Proof.
  induction s as [|c s IH]; simpl; [reflexivity|].
  destruct (is_space c && is_empty (rstrip s)) eqn:H.
  - apply andb_true_iff in H as [Hc He%is_empty_true].
    rewrite He in IH. simpl in IH. rewrite <- IH, Hc. reflexivity.
  - simpl. rewrite IH. reflexivity.
Qed.

(** Tokens of [split_aux]: the leading run has no whitespace and every
    token is well formed. *)
Lemma split_aux_wf (s : string) :
  all_chars (fun c => negb (is_space c)) (fst (split_aux s)) = true /\
  Forall word_ok (snd (split_aux s)).
Proof.
  induction s as [|c s IH]; simpl; [split; [reflexivity | constructor]|].
  destruct (split_aux s) as [w ws]; simpl in *. destruct IH as [Hw Hws].
  destruct (is_space c) eqn:Hc; simpl.
  - split; [reflexivity|]. unfold cons_word.
    destruct (is_empty w) eqn:He; [exact Hws|].
    constructor; [|exact Hws]. split; [|exact Hw].
    intros ->. discriminate He.
  - rewrite Hc. split; [exact Hw | exact Hws].
Qed.

Lemma cons_word_wf (w : string) (ws : list string) :
  all_chars (fun c => negb (is_space c)) w = true -> Forall word_ok ws ->
  Forall word_ok (cons_word w ws).
Proof.
  intros Hw Hws. unfold cons_word. destruct (is_empty w) eqn:He; [exact Hws|].
  constructor; [split; [intros ->; discriminate He | exact Hw] | exact Hws].
Qed.

(** Splitting a word followed by the rest of a string. *)
Lemma split_aux_app_word (w s : string) :
  all_chars (fun c => negb (is_space c)) w = true ->
  split_aux (w ++ s) = (w ++ fst (split_aux s), snd (split_aux s)).
Proof.
  induction w as [|c w IH]; simpl; intros H.
  - destruct (split_aux s); reflexivity.
  - apply andb_true_iff in H as [Hc Hw]. rewrite IH by exact Hw.
    apply negb_true_iff in Hc. rewrite Hc. reflexivity.
Qed.

Lemma append_empty_r (s : string) : s ++ EmptyString = s.
Proof. induction s as [|c s IH]; simpl; [reflexivity | rewrite IH; reflexivity]. Qed.

Lemma py_split_nil_iff (s : string) : py_split s = [] <-> all_chars is_space s = true.
Proof.
  induction s as [|c s IH]; [split; reflexivity|].
  destruct (is_space c) eqn:Hc.
  - rewrite py_split_cons_space by exact Hc. simpl. rewrite Hc. exact IH.
  - unfold py_split. simpl. destruct (split_aux s) as [w ws]. rewrite Hc.
    simpl. split; discriminate.
Qed.

Lemma rstrip_empty_iff (s : string) : rstrip s = EmptyString <-> all_chars is_space s = true.
Proof.
  induction s as [|c s IH]; [split; reflexivity|]. simpl.
  destruct (is_space c && is_empty (rstrip s)) eqn:H.
  - apply andb_true_iff in H as [Hc He%is_empty_true].
    rewrite Hc, (proj1 IH He). split; reflexivity.
  - split; [discriminate|]. intros H'. apply andb_true_iff in H' as [Hc Hs].
    apply IH in Hs. rewrite Hc, Hs in H. discriminate H.
Qed.

Lemma all_space_lstrip (s : string) : all_chars is_space (lstrip s) = all_chars is_space s.
Proof.
  induction s as [|c s IH]; simpl; [reflexivity|].
  destruct (is_space c) eqn:Hc; simpl; [exact IH | rewrite Hc; reflexivity].
Qed.

Lemma py_strip_empty_iff_spaces (s : string) :
  py_strip s = EmptyString <-> all_chars is_space s = true.
Proof. unfold py_strip. rewrite rstrip_empty_iff, all_space_lstrip. reflexivity. Qed.

Lemma lstrip_head (s : string) :
  lstrip s = EmptyString \/ exists c t, lstrip s = String c t /\ is_space c = false.
Proof.
  induction s as [|c s IH]; simpl; [left; reflexivity|].
  destruct (is_space c) eqn:Hc; [exact IH | right; eauto].
Qed.

Lemma rstrip_idem (s : string) : rstrip (rstrip s) = rstrip s.
Proof.
  induction s as [|c s IH]; simpl; [reflexivity|].
  destruct (is_space c && is_empty (rstrip s)) eqn:H; [reflexivity|].
  simpl. rewrite IH, H. reflexivity.
Qed.

Lemma rstrip_lstrip_head (s : string) : lstrip (rstrip (lstrip s)) = rstrip (lstrip s).
Proof.
  destruct (lstrip_head s) as [-> | (c & t & -> & Hc)]; [reflexivity|].
  simpl. rewrite Hc. simpl. rewrite Hc. reflexivity.
Qed.

Lemma concat_cons_word (l : string) (ls : list string) :
  String.concat EmptyString (cons_word l ls) = l ++ String.concat EmptyString ls.
Proof.
  unfold cons_word. destruct (is_empty l) eqn:He.
  - apply is_empty_true in He as ->. reflexivity.
  - destruct ls; simpl; [rewrite append_empty_r|]; reflexivity.
Qed.

Lemma readlines_aux_concat (s : string) :
  fst (readlines_aux s) ++ String.concat EmptyString (snd (readlines_aux s)) = s.
Proof.
  induction s as [|c s IH]; [reflexivity|]. simpl.
  destruct (readlines_aux s) as [l ls]; simpl in *.
  destruct (Ascii.eqb c newline); simpl; rewrite ?concat_cons_word, IH; reflexivity.
Qed.

(** The invariant of [readlines_aux]: the first component is the first
    line, which ends with the only line feed it has, or has none and is
    all of the input. *)
Definition readlines_inv (l : string) (ls : list string) : Prop :=
  Forall line_ok ls /\ Forall ends_nl (removelast ls) /\
  ((exists body, newline_free body = true /\ l = body ++ String newline EmptyString) \/
   (newline_free l = true /\ ls = [])).

Lemma readlines_inv_cons_word (l : string) (ls : list string) :
  readlines_inv l ls ->
  Forall line_ok (cons_word l ls) /\ Forall ends_nl (removelast (cons_word l ls)).
Proof.
  intros (Hls & Hlast & Hl). unfold cons_word. destruct (is_empty l) eqn:He.
  - apply is_empty_true in He as ->.
    destruct Hl as [(body & _ & Hb) | (_ & ->)]; [|split; constructor].
    destruct body; discriminate Hb.
  - split.
    + constructor; [|exact Hls].
      destruct Hl as [(body & Hb & ->) | (Hb & _)].
      * exists body. split; [exact Hb | left; reflexivity].
      * exists l. split; [exact Hb | right; split; [reflexivity | intros ->; discriminate He]].
    + destruct ls as [|l' ls']; [constructor|].
      change (removelast (l :: l' :: ls')) with (l :: removelast (l' :: ls')).
      constructor; [|exact Hlast].
      destruct Hl as [(body & _ & ->) | (_ & H)]; [exists body; reflexivity | discriminate H].
Qed.

Lemma readlines_aux_inv (s : string) :
  readlines_inv (fst (readlines_aux s)) (snd (readlines_aux s)).
Proof.
  induction s as [|c s IH]; simpl.
  - split; [constructor | split; [constructor | right; split; reflexivity]].
  - destruct (readlines_aux s) as [l ls]; simpl in *.
    destruct (Ascii.eqb c newline) eqn:Hc; simpl.
    + apply readlines_inv_cons_word in IH as [H1 H2].
      split; [exact H1 | split; [exact H2|]].
      left. exists EmptyString. apply Ascii.eqb_eq in Hc as ->. split; reflexivity.
    + destruct IH as (H1 & H2 & H3). split; [exact H1 | split; [exact H2|]].
      destruct H3 as [(body & Hb & ->) | (Hb & ->)].
      * left. exists (String c body). simpl. unfold newline_free in *. simpl.
        rewrite Hc, Hb. split; reflexivity.
      * right. unfold newline_free in *. simpl. rewrite Hc, Hb. split; reflexivity.
Qed.

(** ** Properties of the string built-ins *)

(** Every token [str.split()] returns is non-empty and
    contains no whitespace character. *)
Theorem py_split_tokens_ok (s : string) : Forall word_ok (py_split s).
Proof.
  unfold py_split. pose proof (split_aux_wf s) as [Hw Hws].
  destruct (split_aux s) as [w ws]. apply cons_word_wf; assumption.
Qed.

(** Splitting the stripped line gives the same tokens as
    splitting the line, so the [strip] before [split] changes nothing. *)
Theorem py_split_strip (s : string) : py_split (py_strip s) = py_split s.
Proof.
  unfold py_strip. rewrite <- (split_aux_lstrip s). unfold py_split.
  rewrite split_aux_rstrip. reflexivity.
Qed.

(** C6 (functional): a line is blank after [strip] exactly when it has no
    token: the blank-line test of the loop and an empty report coincide. *)
Theorem py_strip_empty_iff (s : string) : py_strip s = EmptyString <-> py_split s = [].
Proof. rewrite py_strip_empty_iff_spaces, py_split_nil_iff. reflexivity. Qed.

(** [str.strip()] is idempotent. *)
Theorem py_strip_idem (s : string) : py_strip (py_strip s) = py_strip s.
Proof. unfold py_strip at 1 2. rewrite rstrip_lstrip_head, rstrip_idem. reflexivity. Qed.

(** Splitting the space-joined list of well-formed tokens
    gives back the tokens. *)
Theorem py_split_join (toks : list string) :
  Forall word_ok toks -> py_split (join_space toks) = toks.
Proof.
  induction toks as [|t ts IH]; intros Hall; [reflexivity|].
  inv Hall. match goal with H : word_ok t |- _ => destruct H as [Hne Ht] end.
  assert (Hcw : forall l, cons_word t l = t :: l)
    by (intros l; unfold cons_word; destruct t; [congruence | reflexivity]).
  destruct ts as [|t' ts'].
  - unfold py_split. simpl. rewrite <- (append_empty_r t) at 1.
    rewrite split_aux_app_word by exact Ht. simpl. rewrite append_empty_r. apply Hcw.
  - change (join_space (t :: t' :: ts')) with (t ++ String " " (join_space (t' :: ts'))).
    unfold py_split at 1. rewrite split_aux_app_word by exact Ht.
    rewrite split_aux_cons_space by reflexivity. cbn [fst snd].
    rewrite append_empty_r, Hcw, IH by assumption. reflexivity.
Qed.

(** Concatenating the lines [readlines()] returns gives
    back the whole input: no character is lost or added. *)
Theorem readlines_concat (s : string) : String.concat EmptyString (readlines s) = s.
Proof.
  unfold readlines. pose proof (readlines_aux_concat s) as H.
  destruct (readlines_aux s) as [l ls]. rewrite concat_cons_word. exact H.
Qed.

(** Every line [readlines()] returns is non-empty and has
    no line feed but possibly its last character, and every line but the
    last ends with a line feed. *)
Theorem readlines_lines (s : string) :
  Forall line_ok (readlines s) /\ Forall ends_nl (removelast (readlines s)).
Proof.
  unfold readlines. pose proof (readlines_aux_inv s) as H.
  destruct (readlines_aux s) as [l ls]. apply readlines_inv_cons_word, H.
Qed.

(** ** Witnesses *)

Lemma py_split_join_witness :
  Forall word_ok ["1"; "22"; "-3"] /\
  py_split (join_space ["1"; "22"; "-3"]) = ["1"; "22"; "-3"].
Proof.
  assert (H : Forall word_ok ["1"; "22"; "-3"])
    by (repeat constructor; first [discriminate | reflexivity]).
  split; [exact H | apply py_split_join; exact H].
Defined.

End PyStr.
