(* ===== verification/PyInt.v ===== *)
(** * Python's [int(token)] and [str(n)] in base 10

    [count_safe_reports] converts every token with [int] (src/solution.py,
    line 51: [list(map(int, stripped.split()))]) and [main] prints the count
    with [print(result)] (line 63), which calls [str] of an int.  Both are
    modelled after CPython's [PyLong_FromString] and
    [long_to_decimal_string] on ASCII text:
    - leading and trailing whitespace of the C layer ([Py_ISSPACE]: space
      and the characters 9 to 13) is skipped;
    - one optional sign, [+] or [-];
    - decimal digits, with single underscores allowed between digits (not
      first, not last, never two in a row);
    - since Python 3.11 (and the security releases 3.10.7, 3.9.14, ...),
      a token with more than [sys.get_int_max_str_digits()] digits (4300 by
      default) raises [ValueError] before its value is computed, and so
      does [str] of an int with more digits than that.  The limit is the
      parameter [maxd]; [maxd = 0] means no limit, which is also how older
      versions behave.
    Anything else raises [ValueError: invalid literal for int() with base
    10], the exception [ValueErrorLiteral tok] of the model.  Python ints
    are unbounded: the value is a [Z]. *)

From Stdlib Require Import String Ascii List Bool ZArith Lia.
From S2P Require Import Prelude PyStr.
Import ListNotations.
Local Open Scope Z_scope.

Module PyInt.

(** ** Characters of the C layer *)

Definition c_isspace (c : ascii) : bool :=
  let n := nat_of_ascii c in ((n =? 32) || ((9 <=? n) && (n <=? 13)))%nat.

Fixpoint skip_c_space (s : string) : string :=
  match s with
  | EmptyString => EmptyString
  | String c s' => if c_isspace c then skip_c_space s' else s
  end.

(** [_PyLong_DigitValue[c] < 10] *)
Definition digit_value (c : ascii) : option Z :=
  let n := nat_of_ascii c in
  if ((48 <=? n) && (n <=? 57))%nat then Some (Z.of_nat n - 48) else None.

Definition is_underscore (c : ascii) : bool := Ascii.eqb c "_".

Definition starts_underscore (s : string) : bool :=
  match s with
  | String c _ => is_underscore c
  | EmptyString => false
  end.

(** The scanning loop of [long_from_string_base]: it reads digits and
    underscores; [prev_us] says that the previous character was an
    underscore.  It fails on a second underscore in a row, and on an
    underscore at the end of the run.  It returns the digits read, most
    significant first, and the text after the run. *)
Fixpoint scan_digits (prev_us : bool) (s : string) : option (list Z * string) :=
  match s with
  | EmptyString => if prev_us then None else Some ([], EmptyString)
  | String c s' =>
      match digit_value c with
      | Some d =>
          match scan_digits false s' with
          | Some (ds, rest) => Some (d :: ds, rest)
          | None => None
          end
      | None =>
          if is_underscore c then (if prev_us then None else scan_digits true s')
          else if prev_us then None else Some ([], s)
      end
  end.

(** The value of a list of digits, most significant first. *)
Definition digits_from (acc : Z) (ds : list Z) : Z :=
  fold_left (fun a d => a * 10 + d) ds acc.

Definition digits_value (ds : list Z) : Z := digits_from 0 ds.

Definition int_max_str_digits_default : nat := 4300.

Definition exceeds (maxd n : nat) : bool := ((0 <? maxd) && (maxd <? n))%nat.

(** [sign] and the text after it. *)
Definition read_sign (s : string) : Z * string :=
  match s with
  | String c r =>
      if Ascii.eqb c "+" then (1, r) else if Ascii.eqb c "-" then (-1, r) else (1, s)
  | EmptyString => (1, s)
  end.

(** [int(tok)] *)
Definition py_int (maxd : nat) (tok : string) : result Z :=
  let invalid := Err (ValueErrorLiteral (codes tok)) in
  let '(sign, s) := read_sign (skip_c_space tok) in
  if starts_underscore s then invalid
  else
    match scan_digits false s with
    | None => invalid
    | Some (ds, rest) =>
        if exceeds maxd (length ds) then Err (ValueErrorIntDigits maxd (length ds))
        else
          match ds with
          | [] => invalid
          | _ :: _ =>
              if PyStr.is_empty (skip_c_space rest) then Ok (sign * digits_value ds)
              else invalid
          end
    end.

(** ** [str(n)] *)

(** Decimal digits of [n >= 0], most significant first, pushed in front of
    [acc]; at most [fuel] divisions by 10. *)
Fixpoint to_digits (fuel : nat) (n : Z) (acc : list Z) : list Z :=
  match fuel with
  | O => acc
  | S f => if n <? 10 then n :: acc else to_digits f (n / 10) (n mod 10 :: acc)
  end.

(** [log2 n + 1] divisions suffice, since [n < 2 ^ (log2 n + 1)]. *)
Definition decimal_digits (n : Z) : list Z := to_digits (S (Z.to_nat (Z.log2 n))) n [].

Definition digit_char (d : Z) : ascii := ascii_of_nat (48 + Z.to_nat d).

Arguments digit_char : simpl never.

Fixpoint string_of_digits (ds : list Z) : string :=
  match ds with
  | [] => EmptyString
  | d :: ds' => String (digit_char d) (string_of_digits ds')
  end.

Definition py_str (maxd : nat) (z : Z) : result string :=
  let ds := decimal_digits (Z.abs z) in
  if exceeds maxd (length ds) then Err (ValueErrorStrDigits maxd)
  else Ok (String.append (if z <? 0 then "-"%string else EmptyString) (string_of_digits ds)).

(** ** Well-formed digits and the accepted characters *)

Definition is_digit (d : Z) : Prop := 0 <= d <= 9.

(** The characters [int] accepts: whitespace, signs, underscores, digits. *)
Definition int_char (c : ascii) : bool :=
  c_isspace c || Ascii.eqb c "+" || Ascii.eqb c "-" || is_underscore c ||
  match digit_value c with Some _ => true | None => false end.

(** ** Specification: the integer literals [int] accepts

    After the Python documentation of [int]: an optional sign, decimal
    digits with single underscores between them, surrounded by
    whitespace. *)

(** [(["_"] digit)*], with the digits it spells. *)
Inductive us_digits : string -> list Z -> Prop :=
| usd_nil : us_digits EmptyString []
| usd_digit (c : ascii) (d : Z) (s : string) (ds : list Z) :
    digit_value c = Some d -> us_digits s ds -> us_digits (String c s) (d :: ds)
| usd_us (c : ascii) (d : Z) (s : string) (ds : list Z) :
    digit_value c = Some d -> us_digits s ds ->
    us_digits (String "_" (String c s)) (d :: ds).

Inductive sign_prefix : string -> Z -> Prop :=
| sp_none : sign_prefix EmptyString 1
| sp_plus : sign_prefix "+" 1
| sp_minus : sign_prefix "-" (-1).

(** [tok] spells the digits [ds] and the value [z]: whitespace, a sign,
    [digit (["_"] digit)*], whitespace. *)
Definition int_literal (tok : string) (ds : list Z) (z : Z) : Prop :=
  exists ws1 sg sign p ws2,
    tok = (ws1 ++ sg ++ p ++ ws2)%string /\
    PyStr.all_chars c_isspace ws1 = true /\ PyStr.all_chars c_isspace ws2 = true /\
    sign_prefix sg sign /\ us_digits p ds /\ ds <> [] /\ starts_underscore p = false /\
    z = sign * digits_value ds.

(** What may follow the digit run: the end, or a character that is
    neither a digit nor an underscore. *)
Definition rest_ok (r : string) : Prop :=
  match r with
  | EmptyString => True
  | String c _ => digit_value c = None /\ is_underscore c = false
  end.

(** ** Lemmas *)

Lemma digit_char_spec (d : Z) :
  is_digit d ->
  digit_value (digit_char d) = Some d /\ c_isspace (digit_char d) = false /\
  is_underscore (digit_char d) = false /\
  Ascii.eqb (digit_char d) "+" = false /\ Ascii.eqb (digit_char d) "-" = false.
Proof.
  unfold is_digit. intros H.
  assert (d = 0 \/ d = 1 \/ d = 2 \/ d = 3 \/ d = 4 \/ d = 5 \/ d = 6 \/ d = 7 \/
          d = 8 \/ d = 9) as Hd by lia.
  repeat destruct Hd as [-> | Hd]; [..| subst d]; vm_compute; repeat split.
Qed.

Lemma digits_from_cons (a d : Z) (ds : list Z) :
  digits_from a (d :: ds) = digits_from (a * 10 + d) ds.
Proof. reflexivity. Qed.

Lemma to_digits_range (fuel : nat) (n : Z) (acc : list Z) :
  0 <= n -> Forall is_digit acc -> Forall is_digit (to_digits fuel n acc).
Proof.
  revert n acc; induction fuel as [|f IH]; intros n acc Hn Hacc; simpl; [exact Hacc|].
  destruct (Z.ltb_spec n 10).
  - constructor; [unfold is_digit; lia | exact Hacc].
  - apply IH; [apply Z.div_pos; lia|].
    constructor; [unfold is_digit; pose proof (Z.mod_pos_bound n 10); lia | exact Hacc].
Qed.

Lemma to_digits_value (fuel : nat) (n : Z) (acc : list Z) :
  0 <= n < 10 ^ Z.of_nat fuel ->
  digits_from 0 (to_digits fuel n acc) = digits_from n acc.
Proof.
  revert n acc; induction fuel as [|f IH]; intros n acc Hn; simpl.
  - simpl in Hn. replace n with 0 by lia. reflexivity.
  - destruct (Z.ltb_spec n 10).
    + rewrite digits_from_cons. reflexivity.
    + rewrite IH, digits_from_cons.
      * f_equal. pose proof (Z.div_mod n 10). lia.
      * rewrite Nat2Z.inj_succ, Z.pow_succ_r in Hn by lia.
        split; [apply Z.div_pos; lia | apply Z.div_lt_upper_bound; lia].
Qed.

Lemma to_digits_nonempty (fuel : nat) (n : Z) (acc : list Z) :
  to_digits (S fuel) n acc <> [].
Proof.
  revert n acc; induction fuel as [|f IH]; intros n acc; simpl.
  - destruct (n <? 10); discriminate.
  - destruct (n <? 10); [discriminate | apply IH].
Qed.

Lemma decimal_digits_fuel (n : Z) :
  0 <= n -> n < 10 ^ Z.of_nat (S (Z.to_nat (Z.log2 n))).
Proof.
  intros Hn. rewrite Nat2Z.inj_succ, Z2Nat.id by apply Z.log2_nonneg.
  apply Z.lt_le_trans with (2 ^ Z.succ (Z.log2 n)).
  - destruct (Z.eq_dec n 0) as [-> | Hn0]; [reflexivity|].
    apply Z.log2_spec. lia.
  - apply Z.pow_le_mono_l. split; [lia | lia].
Qed.

Lemma decimal_digits_spec (n : Z) :
  0 <= n ->
  decimal_digits n <> [] /\ Forall is_digit (decimal_digits n) /\
  digits_value (decimal_digits n) = n.
Proof.
  intros Hn. unfold decimal_digits, digits_value. split; [apply to_digits_nonempty|].
  split; [apply to_digits_range; [exact Hn | constructor]|].
  rewrite to_digits_value; [reflexivity|]. split; [exact Hn | apply decimal_digits_fuel, Hn].
Qed.

(** Scanning a run of digits that is followed by [rest]. *)
Lemma scan_digits_app (ds : list Z) (rest : string) :
  Forall is_digit ds ->
  scan_digits false (string_of_digits ds ++ rest) =
    match scan_digits false rest with
    | Some (es, r) => Some (ds ++ es, r)
    | None => None
    end.
Proof.
  induction ds as [|d ds IH]; intros Hds.
  - cbn [string_of_digits String.append app].
    destruct (scan_digits false rest) as [[]|]; reflexivity.
  - inv Hds. destruct (digit_char_spec d) as (Hv & _); [assumption|].
    cbn [string_of_digits String.append scan_digits]. rewrite Hv, IH by assumption.
    destruct (scan_digits false rest) as [[]|]; reflexivity.
Qed.

Lemma scan_string_of_digits (ds : list Z) :
  Forall is_digit ds -> scan_digits false (string_of_digits ds) = Some (ds, EmptyString).
Proof.
  intros H. rewrite <- (PyStr.append_empty_r (string_of_digits ds)), scan_digits_app by exact H.
  cbn [scan_digits]. rewrite app_nil_r. reflexivity.
Qed.

(** [int] of a token whose sign is read and whose digits are followed by
    whitespace only. *)
Lemma py_int_scan (maxd : nat) (tok s rest : string) (sign : Z) (ds : list Z) :
  read_sign (skip_c_space tok) = (sign, s) -> starts_underscore s = false ->
  scan_digits false s = Some (ds, rest) -> PyStr.is_empty (skip_c_space rest) = true ->
  ds <> [] ->
  py_int maxd tok =
    if exceeds maxd (length ds) then Err (ValueErrorIntDigits maxd (length ds))
    else Ok (sign * digits_value ds).
Proof.
  intros Hsign Hu Hscan Hrest Hne. unfold py_int. rewrite Hsign, Hu, Hscan.
  destruct (exceeds maxd (length ds)); [reflexivity|].
  destruct ds; [congruence|]. rewrite Hrest. reflexivity.
Qed.

Lemma starts_underscore_digits (ds : list Z) :
  Forall is_digit ds -> starts_underscore (string_of_digits ds) = false.
Proof.
  intros Hds. destruct ds as [|d ds']; [reflexivity|]. inv Hds.
  destruct (digit_char_spec d) as (_ & _ & Hu & _); [assumption|]. exact Hu.
Qed.

Lemma read_sign_digits (ds : list Z) :
  Forall is_digit ds -> ds <> [] ->
  read_sign (skip_c_space (string_of_digits ds)) = (1, string_of_digits ds).
Proof.
  intros Hds Hne. destruct ds as [|d ds']; [congruence|]. inv Hds.
  destruct (digit_char_spec d) as (_ & Hs & _ & Hp & Hm); [assumption|].
  cbn [string_of_digits skip_c_space]. rewrite Hs. cbn [read_sign].
  rewrite Hp, Hm. reflexivity.
Qed.

(** After an underscore, a run that starts with a digit scans as usual. *)
Lemma scan_digits_after_underscore (ds : list Z) :
  Forall is_digit ds -> ds <> [] ->
  scan_digits true (string_of_digits ds) = scan_digits false (string_of_digits ds).
Proof.
  intros Hds Hne. destruct ds as [|d ds']; [congruence|]. inv Hds.
  destruct (digit_char_spec d) as (Hv & _); [assumption|].
  cbn [string_of_digits scan_digits]. rewrite Hv. reflexivity.
Qed.

Lemma skip_c_space_split (s : string) :
  exists p, s = (p ++ skip_c_space s)%string /\ PyStr.all_chars int_char p = true.
Proof.
  induction s as [|c s IH]; [exists EmptyString; split; reflexivity|]. cbn [skip_c_space].
  destruct (c_isspace c) eqn:Hc.
  - destruct IH as (p & Hp & Hall). exists (String c p). cbn [String.append PyStr.all_chars]. rewrite <- Hp.
    split; [reflexivity|]. rewrite Hall, andb_true_r. unfold int_char. rewrite Hc. reflexivity.
  - exists EmptyString. split; reflexivity.
Qed.

Lemma read_sign_split (s r : string) (sign : Z) :
  read_sign s = (sign, r) -> exists p, s = (p ++ r)%string /\ PyStr.all_chars int_char p = true.
Proof.
  destruct s as [|c s']; cbn [read_sign]; intros H.
  - inv H. exists EmptyString. split; reflexivity.
  - destruct (Ascii.eqb c "+") eqn:Hp; [|destruct (Ascii.eqb c "-") eqn:Hm]; inv H;
      [exists (String c EmptyString) | exists (String c EmptyString) | exists EmptyString];
      split; try reflexivity; unfold int_char; simpl; rewrite ?Hp, ?Hm, ?orb_true_r; reflexivity.
Qed.

Lemma scan_digits_split (b : bool) (s rest : string) (ds : list Z) :
  scan_digits b s = Some (ds, rest) ->
  exists p, s = (p ++ rest)%string /\ PyStr.all_chars int_char p = true.
Proof.
  revert b ds; induction s as [|c s IH]; intros b ds H; cbn [scan_digits] in H.
  - destruct b; inv H. exists EmptyString. split; reflexivity.
  - assert (Hstep : forall b' ds', scan_digits b' s = Some (ds', rest) ->
              int_char c = true ->
              exists p, String c s = (p ++ rest)%string /\ PyStr.all_chars int_char p = true).
    { intros b' ds' Hs Hc. destruct (IH b' ds' Hs) as (p & -> & Hall).
      exists (String c p). split; [reflexivity|]. simpl. rewrite Hc, Hall. reflexivity. }
    destruct (digit_value c) as [d|] eqn:Hd.
    + destruct (scan_digits false s) as [[ds' r]|] eqn:Hs; inv H.
      apply (Hstep false ds' Hs). unfold int_char. rewrite Hd, !orb_true_r. reflexivity.
    + destruct (is_underscore c) eqn:Hu; destruct b; try discriminate H.
      * apply (Hstep true ds H). unfold int_char. rewrite Hu, !orb_true_r. reflexivity.
      * inv H. exists EmptyString. split; reflexivity.
Qed.

Lemma skip_c_space_empty (s : string) :
  PyStr.is_empty (skip_c_space s) = true -> PyStr.all_chars int_char s = true.
Proof.
  induction s as [|c s IH]; [reflexivity|]. cbn [skip_c_space].
  destruct (c_isspace c) eqn:Hc; [|discriminate].
  intros H. simpl. rewrite (IH H). unfold int_char. rewrite Hc. reflexivity.
Qed.

Lemma to_digits_length (fuel k : nat) (n : Z) (acc : list Z) :
  (1 <= k)%nat -> 0 <= n < 10 ^ Z.of_nat k ->
  (length (to_digits fuel n acc) <= k + length acc)%nat.
Proof.
  revert k n acc; induction fuel as [|f IH]; intros k n acc Hk Hn; simpl; [lia|].
  destruct (Z.ltb_spec n 10); simpl; [lia|].
  destruct k as [|[|k']]; [lia | simpl in Hn; lia|].
  specialize (IH (S k') (n / 10) (n mod 10 :: acc)). simpl length in IH.
  enough (0 <= n / 10 < 10 ^ Z.of_nat (S k')) by (specialize (IH ltac:(lia) H0); lia).
  rewrite Nat2Z.inj_succ in Hn |- *. rewrite Z.pow_succ_r in Hn by lia.
  split; [apply Z.div_pos; lia | apply Z.div_lt_upper_bound; lia].
Qed.

(** A number below [10 ^ k] has at most [k] digits. *)
Lemma decimal_digits_length (k : nat) (n : Z) :
  (1 <= k)%nat -> 0 <= n < 10 ^ Z.of_nat k -> (length (decimal_digits n) <= k)%nat.
Proof.
  intros Hk Hn. unfold decimal_digits.
  pose proof (to_digits_length (S (Z.to_nat (Z.log2 n))) k n [] Hk Hn). cbn [length] in H. lia.
Qed.

Lemma c_isspace_not_digit (c : ascii) :
  c_isspace c = true -> digit_value c = None /\ is_underscore c = false.
Proof.
  intros H. split.
  - unfold c_isspace, digit_value in *.
    destruct ((48 <=? nat_of_ascii c) && (nat_of_ascii c <=? 57))%nat eqn:E; [|reflexivity].
    apply andb_true_iff in E as [E1%Nat.leb_le E2%Nat.leb_le].
    apply orb_true_iff in H as [H%Nat.eqb_eq | H%andb_true_iff]; [lia|].
    destruct H as [H1%Nat.leb_le H2%Nat.leb_le]; lia.
  - unfold is_underscore. destruct (Ascii.eqb_spec c "_") as [->|]; [discriminate H | reflexivity].
Qed.

Lemma scan_digits_spaces (ws : string) :
  PyStr.all_chars c_isspace ws = true -> scan_digits false ws = Some ([], ws).
Proof.
  destruct ws as [|c ws']; [reflexivity|]. cbn [PyStr.all_chars]. intros H.
  apply andb_true_iff in H as [Hc _]. destruct (c_isspace_not_digit c Hc) as [Hd Hu].
  cbn [scan_digits]. rewrite Hd, Hu. reflexivity.
Qed.

Lemma skip_c_space_spaces (ws : string) :
  PyStr.all_chars c_isspace ws = true -> skip_c_space ws = EmptyString.
Proof.
  induction ws as [|c ws IH]; [reflexivity|]. cbn [PyStr.all_chars skip_c_space].
  intros H. apply andb_true_iff in H as [-> H]. exact (IH H).
Qed.

(** Reading back what [str] printed, followed by any whitespace. *)
Lemma py_str_roundtrip (maxd : nat) (z : Z) (s ws : string) :
  py_str maxd z = Ok s -> PyStr.all_chars c_isspace ws = true ->
  py_int maxd (s ++ ws) = Ok z.
Proof.
  unfold py_str. destruct (decimal_digits_spec (Z.abs z)) as (Hne & Hds & Hv); [lia|].
  set (ds := decimal_digits (Z.abs z)) in *.
  destruct (exceeds maxd (length ds)) eqn:Hx; [discriminate|]. intros [= <-] Hws.
  assert (Hscan : scan_digits false (string_of_digits ds ++ ws) = Some (ds, ws))
    by (rewrite scan_digits_app, scan_digits_spaces by assumption; rewrite app_nil_r; reflexivity).
  assert (Hrest : PyStr.is_empty (skip_c_space ws) = true)
    by (rewrite skip_c_space_spaces by exact Hws; reflexivity).
  destruct (Z.ltb_spec z 0).
  - rewrite (py_int_scan maxd _ (string_of_digits ds ++ ws) ws (-1) ds); try assumption.
    + rewrite Hx, Hv. f_equal. lia.
    + reflexivity.
    + destruct ds as [|d ds']; [congruence|]. apply (starts_underscore_digits (d :: ds')), Hds.
  - rewrite (py_int_scan maxd _ (string_of_digits ds ++ ws) ws 1 ds); try assumption.
    + rewrite Hx, Hv. f_equal. lia.
    + destruct ds as [|d ds']; [congruence|]. inv Hds.
      destruct (digit_char_spec d) as (_ & Hs & _ & Hp & Hm); [assumption|].
      cbn [string_of_digits String.append skip_c_space]. rewrite Hs. cbn [read_sign].
      rewrite Hp, Hm. reflexivity.
    + destruct ds as [|d ds']; [congruence|]. apply (starts_underscore_digits (d :: ds')), Hds.
Qed.

(** The digit loop reads exactly a [us_digits] run (after an underscore,
    [prev_us], the run must go on with a digit). *)
Lemma scan_digits_sound (prev : bool) (s rest : string) (ds : list Z) :
  scan_digits prev s = Some (ds, rest) ->
  exists body, s = (body ++ rest)%string /\
    us_digits ((if prev then "_" else "") ++ body)%string ds /\ rest_ok rest.
Proof.
  revert prev ds; induction s as [|c s IH]; intros prev ds H; cbn [scan_digits] in H.
  - destruct prev; inv H. exists EmptyString. split; [reflexivity | split; [constructor | exact I]].
  - destruct (digit_value c) as [d|] eqn:Hd.
    + destruct (scan_digits false s) as [[ds' r]|] eqn:Hs; inv H.
      destruct (IH false ds' Hs) as (body & -> & Hb & Hr). exists (String c body).
      split; [reflexivity|]. split; [|exact Hr].
      destruct prev; simpl in *; constructor; assumption.
    + destruct (is_underscore c) eqn:Hu; destruct prev; try discriminate H.
      * destruct (IH true ds H) as (body & -> & Hb & Hr). exists (String c body).
        unfold is_underscore in Hu. apply Ascii.eqb_eq in Hu as ->.
        split; [reflexivity | split; [exact Hb | exact Hr]].
      * inv H. exists EmptyString. split; [reflexivity|]. split; [constructor|]. simpl. auto.
Qed.

Lemma scan_digits_complete (body rest : string) (ds : list Z) :
  us_digits body ds -> rest_ok rest -> scan_digits false (body ++ rest) = Some (ds, rest).
Proof.
  intros Hb Hr. induction Hb as [|c d s ds Hd _ IH|c d s ds Hd _ IH]; simpl.
  - destruct rest as [|c r]; [reflexivity|]. destruct Hr as [Hd Hu].
    cbn [scan_digits]. rewrite Hd, Hu. reflexivity.
  - cbn [scan_digits]. rewrite Hd, IH. reflexivity.
  - cbn [scan_digits]. change (digit_value "_") with (@None Z).
    change (is_underscore "_") with true. cbn [scan_digits]. rewrite Hd, IH. reflexivity.
Qed.

Lemma us_digits_head (p : string) (ds : list Z) :
  us_digits p ds -> ds <> [] -> starts_underscore p = false ->
  exists c d p', p = String c p' /\ digit_value c = Some d.
Proof.
  intros H Hne Hu. destruct H as [|c d s ds' Hd _|c d s ds' Hd _].
  - congruence.
  - eauto.
  - discriminate Hu.
Qed.

Lemma digit_not_space_sign (c : ascii) (d : Z) :
  digit_value c = Some d ->
  c_isspace c = false /\ Ascii.eqb c "+" = false /\ Ascii.eqb c "-" = false.
Proof.
  intros Hd. unfold digit_value in Hd.
  destruct ((48 <=? nat_of_ascii c) && (nat_of_ascii c <=? 57))%nat eqn:E; [|discriminate].
  apply andb_true_iff in E as [E1%Nat.leb_le E2%Nat.leb_le].
  split; [|split].
  - unfold c_isspace. apply orb_false_iff. split.
    + apply Nat.eqb_neq. lia.
    + apply andb_false_iff. right. apply Nat.leb_gt. lia.
  - destruct (Ascii.eqb_spec c "+") as [->|]; [change (nat_of_ascii "+") with 43%nat in E1; lia | reflexivity].
  - destruct (Ascii.eqb_spec c "-") as [->|]; [change (nat_of_ascii "-") with 45%nat in E1; lia | reflexivity].
Qed.

Lemma skip_c_space_decomp (s : string) :
  exists ws, s = (ws ++ skip_c_space s)%string /\ PyStr.all_chars c_isspace ws = true.
Proof.
  induction s as [|c s IH]; [exists EmptyString; split; reflexivity|]. cbn [skip_c_space].
  destruct (c_isspace c) eqn:Hc; [|exists EmptyString; split; reflexivity].
  destruct IH as (ws & Hws & Hall). exists (String c ws).
  cbn [String.append PyStr.all_chars]. rewrite <- Hws, Hc, Hall. split; reflexivity.
Qed.

Lemma skip_c_space_empty_spaces (s : string) :
  PyStr.is_empty (skip_c_space s) = true -> PyStr.all_chars c_isspace s = true.
Proof.
  induction s as [|c s IH]; [reflexivity|]. cbn [skip_c_space].
  destruct (c_isspace c) eqn:Hc; [|discriminate].
  intros H. cbn [PyStr.all_chars]. rewrite Hc, (IH H). reflexivity.
Qed.

Lemma skip_c_space_app (ws s : string) :
  PyStr.all_chars c_isspace ws = true ->
  (forall c s', s = String c s' -> c_isspace c = false) ->
  skip_c_space (ws ++ s) = s.
Proof.
  intros Hws Hs. induction ws as [|c ws IH]; simpl.
  - destruct s as [|c s']; [reflexivity|]. cbn [skip_c_space]. rewrite (Hs c s' eq_refl). reflexivity.
  - apply andb_true_iff in Hws as [-> Hws]. exact (IH Hws).
Qed.

Lemma read_sign_decomp (t s : string) (sign : Z) :
  read_sign t = (sign, s) -> exists sg, t = (sg ++ s)%string /\ sign_prefix sg sign.
Proof.
  destruct t as [|c t']; cbn [read_sign]; intros H.
  - inv H. exists EmptyString. split; [reflexivity | constructor].
  - destruct (Ascii.eqb_spec c "+") as [->|Hp]; [inv H; exists "+"%string; split; [reflexivity | constructor]|].
    destruct (Ascii.eqb_spec c "-") as [->|Hm]; [inv H; exists "-"%string; split; [reflexivity | constructor]|].
    inv H. exists EmptyString. split; [reflexivity | constructor].
Qed.

Lemma spaces_rest_ok (ws : string) : PyStr.all_chars c_isspace ws = true -> rest_ok ws.
Proof.
  destruct ws as [|c ws']; [exact (fun _ => I)|]. cbn [PyStr.all_chars].
  intros H. apply andb_true_iff in H as [Hc _]. exact (c_isspace_not_digit c Hc).
Qed.

(** [int] accepts only tokens made of whitespace, signs, underscores and
    decimal digits. *)
Lemma py_int_Ok_chars (maxd : nat) (tok : string) (z : Z) :
  py_int maxd tok = Ok z -> PyStr.all_chars int_char tok = true.
Proof.
  unfold py_int. destruct (skip_c_space_split tok) as (p1 & E1 & A1).
  destruct (read_sign (skip_c_space tok)) as [sign s] eqn:Hs.
  destruct (read_sign_split _ _ _ Hs) as (p2 & E2 & A2).
  destruct (starts_underscore s); [discriminate|].
  destruct (scan_digits false s) as [[ds rest]|] eqn:Hscan; [|discriminate].
  destruct (scan_digits_split _ _ _ _ Hscan) as (p3 & E3 & A3).
  destruct (exceeds maxd (length ds)); [discriminate|].
  destruct ds; [discriminate|].
  destruct (PyStr.is_empty (skip_c_space rest)) eqn:He; [|discriminate]. intros _.
  rewrite E1, E2, E3, !PyStr.all_chars_app, A1, A2, A3, skip_c_space_empty by exact He.
  reflexivity.
Qed.

(** [int] of a non-empty run of decimal digits. *)
Lemma py_int_digit_string (maxd : nat) (ds : list Z) :
  Forall is_digit ds -> ds <> [] ->
  py_int maxd (string_of_digits ds) =
    if exceeds maxd (length ds) then Err (ValueErrorIntDigits maxd (length ds))
    else Ok (digits_value ds).
Proof.
  intros Hds Hne. rewrite (py_int_scan maxd _ (string_of_digits ds) EmptyString 1 ds).
  - destruct (exceeds maxd (length ds)); [reflexivity|]. rewrite Z.mul_1_l. reflexivity.
  - apply read_sign_digits; assumption.
  - apply starts_underscore_digits, Hds.
  - apply scan_string_of_digits, Hds.
  - reflexivity.
  - exact Hne.
Qed.

(** A malformed literal raises with the token itself. *)
Lemma py_int_literal_payload (maxd : nat) (tok : string) (u : list Z) :
  py_int maxd tok = Err (ValueErrorLiteral u) -> u = codes tok.
Proof.
  unfold py_int. destruct (read_sign (skip_c_space tok)) as [sign s].
  destruct (starts_underscore s); [congruence|].
  destruct (scan_digits false s) as [[ds rest]|]; [|congruence].
  destruct (exceeds maxd (length ds)); [discriminate|].
  destruct ds; [congruence|]. destruct (PyStr.is_empty _); congruence.
Qed.

(** ** Properties of [int] and [str] *)

(** C30 (roundtrip): whatever [str(z)] prints, [int] reads back [z], with
    the same digit limit. *)
Theorem py_int_py_str (maxd : nat) (z : Z) (s : string) :
  py_str maxd z = Ok s -> py_int maxd s = Ok z.
Proof.
  intros H. rewrite <- (PyStr.append_empty_r s). apply (py_str_roundtrip maxd z s); [exact H | reflexivity].
Qed.

(** C31 (bounds): a run of more than [maxd] digits, for a limit
    [maxd > 0], raises the digit-limit [ValueError] (which names the
    limit and the number of digits), whatever its value. *)
Theorem py_int_exceeds (maxd : nat) (ds : list Z) :
  Forall is_digit ds -> (0 < maxd)%nat -> (maxd < length ds)%nat ->
  py_int maxd (string_of_digits ds) = Err (ValueErrorIntDigits maxd (length ds)).
Proof.
  intros Hds H0 Hlt. assert (Hne : ds <> []) by (intros ->; cbn in Hlt; lia).
  assert (Hx : exceeds maxd (length ds) = true)
    by (unfold exceeds; apply andb_true_iff; split; apply Nat.ltb_lt; lia).
  rewrite py_int_digit_string, Hx by assumption. reflexivity.
Qed.

(** C32 (functional): an underscore between two digits is ignored:
    [int("12_345")] is [int("12345")], digit limit included. *)
Theorem py_int_underscore (maxd : nat) (ds1 ds2 : list Z) :
  Forall is_digit ds1 -> Forall is_digit ds2 -> ds1 <> [] -> ds2 <> [] ->
  py_int maxd (string_of_digits ds1 ++ String "_" (string_of_digits ds2)) =
  py_int maxd (string_of_digits (ds1 ++ ds2)).
Proof.
  intros H1 H2 Hn1 Hn2.
  assert (H12 : Forall is_digit (ds1 ++ ds2)) by (apply Forall_app; split; assumption).
  assert (Hn12 : ds1 ++ ds2 <> []) by (destruct ds1; [congruence | discriminate]).
  rewrite (py_int_scan maxd (string_of_digits (ds1 ++ ds2)) (string_of_digits (ds1 ++ ds2))
             EmptyString 1 (ds1 ++ ds2));
    [| apply read_sign_digits | apply starts_underscore_digits | apply scan_string_of_digits
     | reflexivity | ]; try assumption.
  destruct ds1 as [|d1 ds1']; [congruence|].
  assert (Hd1 : is_digit d1) by (inv H1; assumption).
  destruct (digit_char_spec d1) as (_ & Hs & Hu & Hp & Hm); [exact Hd1|].
  apply (py_int_scan maxd _
           (string_of_digits (d1 :: ds1') ++ String "_" (string_of_digits ds2)) EmptyString 1
           ((d1 :: ds1') ++ ds2)); [| exact Hu | | reflexivity | exact Hn12].
  - cbn [string_of_digits String.append skip_c_space]. rewrite Hs. cbn [read_sign].
    rewrite Hp, Hm. reflexivity.
  - rewrite scan_digits_app by exact H1.
    cbn [scan_digits]. change (is_underscore "_") with true. cbn.
    rewrite scan_digits_after_underscore, scan_string_of_digits by assumption.
    reflexivity.
Qed.

(** C7 (refinement): [int] returns [z] exactly on the integer literals of
    value [z] (whitespace, a sign, digits with single underscores between
    them, whitespace) whose digit count is within the limit. *)
Theorem py_int_spec (maxd : nat) (tok : string) (z : Z) :
  py_int maxd tok = Ok z <-> exists ds, int_literal tok ds z /\ exceeds maxd (length ds) = false.
Proof.
  split.
  - unfold py_int. destruct (skip_c_space_decomp tok) as (ws1 & E1 & A1).
    destruct (read_sign (skip_c_space tok)) as [sign s] eqn:Hs.
    destruct (read_sign_decomp _ _ _ Hs) as (sg & E2 & Hsg).
    destruct (starts_underscore s) eqn:Hu; [discriminate|].
    destruct (scan_digits false s) as [[ds rest]|] eqn:Hscan; [|discriminate].
    destruct (scan_digits_sound _ _ _ _ Hscan) as (p & E3 & Hp & _).
    destruct (exceeds maxd (length ds)) eqn:Hx; [discriminate|].
    destruct ds as [|d ds'] eqn:Hds; [discriminate|].
    destruct (PyStr.is_empty (skip_c_space rest)) eqn:He; [|discriminate].
    intros [= <-]. exists ds. rewrite <- Hds in *. split; [|exact Hx].
    exists ws1, sg, sign, p, rest. repeat split.
    + rewrite E1, E2, E3. reflexivity.
    + exact A1.
    + apply skip_c_space_empty_spaces, He.
    + exact Hsg.
    + exact Hp.
    + subst ds. discriminate.
    + subst s. destruct p as [|c p']; [inv Hp; discriminate | exact Hu].
  - intros (ds & (ws1 & sg & sign & p & ws2 & -> & A1 & A2 & Hsg & Hp & Hne & Hu & ->) & Hx).
    destruct (us_digits_head _ _ Hp Hne Hu) as (c & d & p' & -> & Hd).
    destruct (digit_not_space_sign c d Hd) as (Hsp & Hplus & Hminus).
    assert (Hscan : scan_digits false (String c p' ++ ws2) = Some (ds, ws2))
      by (apply scan_digits_complete; [exact Hp | apply spaces_rest_ok, A2]).
    assert (Hsign : read_sign (skip_c_space (ws1 ++ sg ++ String c p' ++ ws2)) =
                    (sign, (String c p' ++ ws2)%string)).
    { rewrite skip_c_space_app by (exact A1 || (inv Hsg; intros c' s' [= <- _]; try reflexivity; exact Hsp)).
      inv Hsg; cbn [String.append read_sign]; try reflexivity.
      rewrite Hplus, Hminus. reflexivity. }
    assert (Hrest : PyStr.is_empty (skip_c_space ws2) = true)
      by (rewrite skip_c_space_spaces by exact A2; reflexivity).
    rewrite (py_int_scan maxd _ _ _ sign ds Hsign Hu Hscan Hrest Hne), Hx. reflexivity.
Qed.

(** ** Concrete runs and witnesses *)

Example py_int_runs :
  (py_int 4300 "-1_000", py_int 4300 " 42 ", py_int 4300 "007",
   py_int 4300 "1__0", py_int 4300 "_1", py_int 4300 "1_", py_int 4300 "+",
   py_int 4300 "1.5")%string =
  (Ok (-1000), Ok 42, Ok 7,
   Err (ValueErrorLiteral (codes "1__0")), Err (ValueErrorLiteral (codes "_1")),
   Err (ValueErrorLiteral (codes "1_")), Err (ValueErrorLiteral (codes "+")),
   Err (ValueErrorLiteral (codes "1.5")))%string.
Proof. vm_compute. reflexivity. Qed.

Lemma py_int_py_str_witness :
  py_str 4300 (-120) = Ok "-120"%string /\ py_int 4300 "-120"%string = Ok (-120).
Proof. split; [vm_compute; reflexivity | apply py_int_py_str; vm_compute; reflexivity]. Defined.

(** 641 digits against the smallest limit CPython accepts, 640. *)
Lemma py_int_exceeds_witness :
  Forall is_digit (repeat 7 641) /\ (0 < 640)%nat /\ (640 < length (repeat 7 641))%nat /\
  py_int 640 (string_of_digits (repeat 7 641)) = Err (ValueErrorIntDigits 640 641).
Proof.
  assert (Hd : Forall is_digit (repeat 7 641))
    by (apply Forall_forall; intros x Hx%repeat_spec; unfold is_digit; lia).
  split; [exact Hd | split; [lia | split; [rewrite repeat_length; lia|]]].
  apply (py_int_exceeds 640 (repeat 7 641)); [exact Hd | lia | rewrite repeat_length; lia].
Defined.

Lemma py_int_underscore_witness :
  py_int 4300 (string_of_digits [1; 2] ++ String "_" (string_of_digits [3; 4; 5])) =
  py_int 4300 (string_of_digits ([1; 2] ++ [3; 4; 5])).
Proof.
  apply py_int_underscore;
    first [ repeat constructor; unfold is_digit; lia | discriminate ].
Defined.

End PyInt.
