(* ===== verification/AsciiText.v ===== *)
(** * The ASCII instance of the text interface

    [Text.PyText string]: Stdlib strings with [PyStr.py_strip],
    [PyStr.py_split], [PyStr.is_empty] and [PyInt.py_int], and the proof
    that they satisfy [Text.PyTextLaws]. *)

From Stdlib Require Import String List ZArith.
From S2P Require Import Prelude Text PyStr PyInt.

Module AsciiText.

#[global] Instance ascii_text : Text.PyText string := {|
  Text.strip := PyStr.py_strip;
  Text.split := PyStr.py_split;
  Text.is_empty := PyStr.is_empty;
  Text.to_int := PyInt.py_int
|}.

#[global] Instance ascii_text_laws : Text.PyTextLaws string.
Proof.
  split; cbn.
  - intros s. unfold PyStr.py_strip. rewrite <- (PyStr.split_aux_lstrip s).
    unfold PyStr.py_split. rewrite PyStr.split_aux_rstrip. reflexivity.
  - intros s. rewrite PyStr.is_empty_true, PyStr.py_strip_empty_iff_spaces, PyStr.py_split_nil_iff.
    reflexivity.
Qed.

End AsciiText.
