(* ===== verification/Utf8.v ===== *)
(** * Decoding standard input: CPython's UTF-8 decoder

    [sys.stdin.readlines()] (src/solution.py, line 61) reads the bytes of
    standard input through a [TextIOWrapper] that decodes them as UTF-8
    (the encoding of a UTF-8 locale) with the error handler of [stdin]:
    [strict] in a UTF-8 locale, [surrogateescape] in the C/POSIX locale or
    in UTF-8 mode.  The decoder is [unicode_decode_utf8] of CPython's
    [Objects/unicodeobject.c] with its inner loop [utf8_decode] of
    [Objects/stringlib/codecs.h]:
    - [decode_one] is one iteration of [utf8_decode]: the sequence that
      starts at a lead byte, decoded to a code point, or the reason it is
      not UTF-8 with the number of bytes of the error range ([ch - 1] bytes
      for [InvalidContinuation1..3], one for an invalid start byte, the
      rest of the input for a sequence cut by the end of the data);
    - [decode_fuel] is the loop of [unicode_decode_utf8]: a code point is
      appended, an error range is either raised as [UnicodeDecodeError]
      ([strict]) or written as the lone surrogates [U+DC00 + b] of its
      bytes [b] ([surrogateescape]), and decoding resumes after the range.
    The incremental decoder of the [TextIOWrapper] keeps an incomplete
    sequence at the end of a chunk for the next one, so the result does not
    depend on the chunk size; the model decodes the whole input at once.
    The fuel of [decode_fuel] is the number of bytes: every iteration
    consumes at least one. *)

From Stdlib Require Import List ZArith Lia Bool Strings.Byte.
From S2P Require Import Prelude.
Import ListNotations.
Local Open Scope Z_scope.
Local Open Scope py_scope.

Module Utf8.

(** The error handler of [sys.stdin]. *)
Inductive errors_mode : Type :=
| Strict
| SurrogateEscape.

Definition byte_value (b : byte) : Z := Z.of_N (Byte.to_N b).

(** [IS_CONTINUATION_BYTE(ch)] *)
Definition is_cont (b : Z) : bool := (0x80 <=? b) && (b <? 0xC0).

(** The outcome of one iteration of [utf8_decode] at a lead byte: a code
    point and the number of bytes it takes, or an error of the decoder. *)
Inductive dstep : Type :=
| DChar (cp : Z) (len : nat)
| DEnd
| DInvalidStart
| DInvalidCont (len : nat).

(** One iteration of [utf8_decode] at the lead byte [ch] followed by
    [rest], branch by branch. *)
Definition decode_one (ch : Z) (rest : list Z) : dstep :=
  if ch <? 0x80 then DChar ch 1
  else if ch <? 0xE0 then
    if ch <? 0xC2 then DInvalidStart
    else
      match rest with
      | [] => DEnd
      | ch2 :: _ =>
          if negb (is_cont ch2) then DInvalidCont 1
          else DChar (Z.shiftl ch 6 + ch2 - (Z.shiftl 0xC0 6 + 0x80)) 2
      end
  else if ch <? 0xF0 then
    match rest with
    | [] => DEnd
    | [ch2] =>
        if negb (is_cont ch2) || (if ch2 <? 0xA0 then ch =? 0xE0 else ch =? 0xED)
        then DInvalidCont 1 else DEnd
    | ch2 :: ch3 :: _ =>
        if negb (is_cont ch2) then DInvalidCont 1
        else if (ch =? 0xE0) && (ch2 <? 0xA0) then DInvalidCont 1
        else if (ch =? 0xED) && (0xA0 <=? ch2) then DInvalidCont 1
        else if negb (is_cont ch3) then DInvalidCont 2
        else DChar (Z.shiftl ch 12 + Z.shiftl ch2 6 + ch3 -
                    (Z.shiftl 0xE0 12 + Z.shiftl 0x80 6 + 0x80)) 3
    end
  else if ch <? 0xF5 then
    match rest with
    | [] => DEnd
    | [ch2] =>
        if negb (is_cont ch2) || (if ch2 <? 0x90 then ch =? 0xF0 else ch =? 0xF4)
        then DInvalidCont 1 else DEnd
    | [ch2; ch3] =>
        if negb (is_cont ch2) || (if ch2 <? 0x90 then ch =? 0xF0 else ch =? 0xF4)
        then DInvalidCont 1
        else if negb (is_cont ch3) then DInvalidCont 2 else DEnd
    | ch2 :: ch3 :: ch4 :: _ =>
        if negb (is_cont ch2) then DInvalidCont 1
        else if (ch =? 0xF0) && (ch2 <? 0x90) then DInvalidCont 1
        else if (ch =? 0xF4) && (0x90 <=? ch2) then DInvalidCont 1
        else if negb (is_cont ch3) then DInvalidCont 2
        else if negb (is_cont ch4) then DInvalidCont 3
        else DChar (Z.shiftl ch 18 + Z.shiftl ch2 12 + Z.shiftl ch3 6 + ch4 -
                    (Z.shiftl 0xF0 18 + Z.shiftl 0x80 12 + Z.shiftl 0x80 6 + 0x80)) 4
    end
  else DInvalidStart.

(** [surrogateescape]: a byte [b] of an error range becomes [U+DC00 + b]. *)
Definition escape (bad : list Z) : list Z := map (fun b => 0xDC00 + b) bad.

(** The error handler at an error range [bad]; [k] decodes what follows. *)
Definition on_error (errors : errors_mode) (reason : decode_reason) (bad : list Z)
    (k : result (list Z)) : result (list Z) :=
  match errors with
  | Strict => Err (UnicodeDecodeError reason)
  | SurrogateEscape => (fun cps => escape bad ++ cps) <$> k
  end.

(** The loop of [unicode_decode_utf8]; after a step that takes [n] bytes
    from [ch :: rest] it resumes at [skipn (pred n) rest]. *)
Fixpoint decode_fuel (errors : errors_mode) (fuel : nat) (bs : list Z) : result (list Z) :=
  match fuel, bs with
  | _, [] => Ok []
  | O, _ :: _ => Ok []
  | S f, ch :: rest =>
      match decode_one ch rest with
      | DChar cp n => (fun cps => cp :: cps) <$> decode_fuel errors f (skipn (pred n) rest)
      | DEnd => on_error errors UnexpectedEndOfData bs (Ok [])
      | DInvalidStart => on_error errors InvalidStartByte [ch] (decode_fuel errors f rest)
      | DInvalidCont n =>
          on_error errors InvalidContinuationByte (firstn n bs)
            (decode_fuel errors f (skipn (pred n) rest))
      end
  end.

Definition decode_z (errors : errors_mode) (bs : list Z) : result (list Z) :=
  decode_fuel errors (length bs) bs.

(** [bytes.decode("utf-8", errors)] of the bytes of standard input. *)
Definition decode (errors : errors_mode) (bs : list byte) : result (list Z) :=
  decode_z errors (map byte_value bs).

(** ** Specification: UTF-8 (RFC 3629) *)

(** Unicode scalar values: code points that are not surrogates. *)
Definition scalar (c : Z) : Prop := 0 <= c < 0x110000 /\ ~ (0xD800 <= c < 0xE000).

(** The UTF-8 encoding of a code point. *)
Definition encode_cp (c : Z) : list Z :=
  if c <? 0x80 then [c]
  else if c <? 0x800 then [0xC0 + c / 64; 0x80 + c mod 64]
  else if c <? 0x10000 then [0xE0 + c / 4096; 0x80 + (c / 64) mod 64; 0x80 + c mod 64]
  else [0xF0 + c / 262144; 0x80 + (c / 4096) mod 64; 0x80 + (c / 64) mod 64; 0x80 + c mod 64].

Definition encode (cps : list Z) : list Z := flat_map encode_cp cps.

(** The lone surrogates [surrogateescape] produces. *)
Definition is_escape (c : Z) : bool := (0xDC80 <=? c) && (c <=? 0xDCFF).

(** [str.encode("utf-8", "surrogateescape")]: an escape gives back its
    byte, any other code point its UTF-8 encoding. *)
Definition encode_se (cps : list Z) : list Z :=
  flat_map (fun c => if is_escape c then [c - 0xDC00] else encode_cp c) cps.

Definition is_byte (b : Z) : Prop := 0 <= b < 256.

(** ** Tactics *)

Ltac zlia := Z.div_mod_to_equations; lia.

(** Turn the boolean tests of the decoder in the hypotheses into
    arithmetic facts. *)
Ltac zbool :=
  repeat match goal with
  | H : (_ && _) = true |- _ => apply andb_true_iff in H as [? ?]
  | H : (_ || _) = false |- _ => apply orb_false_iff in H as [? ?]
  | H : (_ || _) = true |- _ => apply orb_true_iff in H as [?|?]
  | H : (_ && _) = false |- _ => apply andb_false_iff in H as [?|?]
  | H : negb _ = true |- _ => apply negb_true_iff in H
  | H : negb _ = false |- _ => apply negb_false_iff in H
  | H : is_cont _ = _ |- _ => unfold is_cont in H
  | H : (_ <? _) = true |- _ => apply Z.ltb_lt in H
  | H : (_ <? _) = false |- _ => apply Z.ltb_ge in H
  | H : (_ <=? _) = true |- _ => apply Z.leb_le in H
  | H : (_ <=? _) = false |- _ => apply Z.leb_gt in H
  | H : (_ =? _) = true |- _ => apply Z.eqb_eq in H
  | H : (_ =? _) = false |- _ => apply Z.eqb_neq in H
  end.

(** Case analysis on every test of the decoder in the goal. *)
Ltac split_goal_tests :=
  repeat (match goal with
          | |- context [if ?b then _ else _] => let E := fresh "E" in destruct b eqn:E
          end; zbool).

(** Case analysis on every test of the decoder in the goal and in the
    hypotheses. *)
Ltac split_all_tests :=
  repeat (first
    [ match goal with |- context [if ?b then _ else _] => let E := fresh "E" in destruct b eqn:E end
    | match goal with H : context [if ?b then _ else _] |- _ =>
        let E := fresh "E" in destruct b eqn:E; cbv beta iota in H end ]; zbool).

(** Case analysis on every test of the decoder in [H]. *)
Ltac split_tests H :=
  repeat (match type of H with
          | context [if ?b then _ else _] => let E := fresh "E" in destruct b eqn:E
          end; zbool).

(** Decide the comparisons of the goal by arithmetic. *)
Ltac decide_tests_with tac :=
  cbv beta iota;
  repeat (first
    [ rewrite (proj2 (Z.ltb_lt _ _)) by tac | rewrite (proj2 (Z.ltb_ge _ _)) by tac
    | rewrite (proj2 (Z.leb_le _ _)) by tac | rewrite (proj2 (Z.leb_gt _ _)) by tac
    | rewrite (proj2 (Z.eqb_eq _ _)) by tac | rewrite (proj2 (Z.eqb_neq _ _)) by tac ];
    cbn [negb andb orb]; cbv beta iota).

Ltac decide_tests := decide_tests_with zlia.

(** ** Lemmas on one iteration *)

Lemma shiftl_mul (x : Z) (n : Z) : 0 <= n -> Z.shiftl x n = x * 2 ^ n.
Proof. intros Hn. apply Z.shiftl_mul_pow2. exact Hn. Qed.

Lemma shiftl_6 (x : Z) : Z.shiftl x 6 = x * 64.
Proof. apply shiftl_mul. lia. Qed.

Lemma shiftl_12 (x : Z) : Z.shiftl x 12 = x * 4096.
Proof. apply shiftl_mul. lia. Qed.

Lemma shiftl_18 (x : Z) : Z.shiftl x 18 = x * 262144.
Proof. apply shiftl_mul. lia. Qed.

(** A code point decoded at [ch] is a scalar value, and the bytes it
    takes are its encoding. *)
Lemma decode_one_char (ch : Z) (rest : list Z) (cp : Z) (n : nat) :
  0 <= ch -> decode_one ch rest = DChar cp n ->
  scalar cp /\ (1 <= n)%nat /\ firstn n (ch :: rest) = encode_cp cp.
Proof.
  intros Hch H. unfold decode_one in H.
  destruct rest as [|ch2 [|ch3 [|ch4 rest]]]; split_tests H; try discriminate H;
    rewrite ?shiftl_6, ?shiftl_12, ?shiftl_18 in H; injection H as <- <-; cbn [firstn];
    (split; [unfold scalar; zlia | split; [lia |]]);
    unfold encode_cp; decide_tests; repeat f_equal; zlia.
Qed.

(** The base-64 digits of a code point, as its encoding writes them. *)
Lemma digits2 (c : Z) : 0 <= c -> c = 64 * (c / 64) + c mod 64 /\ 0 <= c mod 64 < 64.
Proof. intros. zlia. Qed.

Lemma digits3 (c : Z) : 0 <= c ->
  c = 4096 * (c / 4096) + 64 * ((c / 64) mod 64) + c mod 64 /\
  0 <= (c / 64) mod 64 < 64 /\ 0 <= c mod 64 < 64.
Proof. intros. zlia. Qed.

Lemma digits4 (c : Z) : 0 <= c ->
  c = 262144 * (c / 262144) + 4096 * ((c / 4096) mod 64) + 64 * ((c / 64) mod 64) + c mod 64 /\
  0 <= (c / 4096) mod 64 < 64 /\ 0 <= (c / 64) mod 64 < 64 /\ 0 <= c mod 64 < 64.
Proof. intros. zlia. Qed.

(** Encoding a scalar value and decoding it again gives it back. *)
Lemma decode_one_encode (c : Z) :
  scalar c -> exists ch t, encode_cp c = ch :: t /\
    forall rest, decode_one ch (t ++ rest) = DChar c (S (length t)).
Proof.
  intros Hc. unfold scalar in Hc. unfold encode_cp.
  split_goal_tests;
    [ | pose proof (digits2 c ltac:(lia)) as [? ?]; set (e := c mod 64) in *; set (a := c / 64) in *; clearbody e a
      | pose proof (digits3 c ltac:(lia)) as [? [? ?]]; set (e := c mod 64) in *;
        set (d := (c / 64) mod 64) in *; set (a := c / 4096) in *; clearbody e d a
      | pose proof (digits4 c ltac:(lia)) as [? [? [? ?]]]; set (e := c mod 64) in *;
        set (d := (c / 64) mod 64) in *; set (b := (c / 4096) mod 64) in *;
        set (a := c / 262144) in *; clearbody e d b a ];
    do 2 eexists; (split; [reflexivity|]); intros rest;
    unfold decode_one, is_cont; cbn [app length].
  all: decide_tests_with lia.
  all: split_goal_tests.
  all: try (exfalso; lia).
  all: rewrite ?shiftl_6, ?shiftl_12, ?shiftl_18; f_equal; lia.
Qed.

(** A byte of an error range: [surrogateescape] maps it to U+DC80..U+DCFF. *)
Definition high_byte (b : Z) : Prop := 0x80 <= b < 256.

(** What an error of [decode_one] says of the bytes it covers. *)
Definition error_range (ch : Z) (rest : list Z) (d : dstep) : Prop :=
  match d with
  | DChar _ _ => True
  | DEnd => Forall high_byte (ch :: rest)
  | DInvalidStart => high_byte ch
  | DInvalidCont n => (1 <= n <= length (ch :: rest))%nat /\ Forall high_byte (firstn n (ch :: rest))
  end.

Lemma decode_one_error_range (ch : Z) (rest : list Z) :
  is_byte ch -> error_range ch rest (decode_one ch rest).
Proof.
  intros Hch. unfold is_byte in Hch. unfold decode_one.
  destruct rest as [|ch2 [|ch3 [|ch4 rest]]]; split_goal_tests; cbn [error_range firstn length];
    unfold high_byte; repeat (apply Forall_cons || apply Forall_nil || split); lia.
Qed.

(** ** Lemmas on the loop *)

Lemma byte_value_range (b : byte) : is_byte (byte_value b).
Proof.
  unfold is_byte, byte_value. pose proof (Byte.to_N_bounded b). lia.
Qed.

Lemma bytes_in_range (bs : list byte) : Forall is_byte (map byte_value bs).
Proof. apply Forall_forall. intros x Hx. apply in_map_iff in Hx as [b [<- _]]. apply byte_value_range. Qed.

Lemma skipn_pred_cons {A : Type} (n : nat) (x : A) (l : list A) :
  (1 <= n)%nat -> skipn n (x :: l) = skipn (pred n) l.
Proof. destruct n as [|n]; [lia | reflexivity]. Qed.

Lemma skipn_length_app {A : Type} (t l : list A) : skipn (length t) (t ++ l) = l.
Proof. induction t as [|x t IH]; [reflexivity | exact IH]. Qed.

Lemma encode_se_app (c1 c2 : list Z) : encode_se (c1 ++ c2) = encode_se c1 ++ encode_se c2.
Proof. unfold encode_se. apply flat_map_app. Qed.

(** [surrogateescape] gives back the bytes of an error range. *)
Lemma encode_se_escape (bad : list Z) : Forall high_byte bad -> encode_se (escape bad) = bad.
Proof.
  induction 1 as [|b bad Hb _ IH]; [reflexivity|].
  unfold high_byte in Hb. unfold encode_se, escape in *. cbn [map flat_map].
  rewrite IH. unfold is_escape.
  rewrite (proj2 (Z.leb_le _ _)), (proj2 (Z.leb_le _ _)) by lia. cbn [andb app]. f_equal. lia.
Qed.

(** A scalar value is encoded as UTF-8, not as an escape. *)
Lemma encode_se_scalar (c : Z) : scalar c -> encode_se [c] = encode_cp c.
Proof.
  unfold scalar, encode_se, is_escape. intros Hc. cbn [flat_map].
  rewrite (proj2 (andb_false_iff _ _)) by (destruct (Z.le_gt_cases 0xDC80 c);
    [right; apply Z.leb_gt | left; apply Z.leb_gt]; lia).
  apply app_nil_r.
Qed.

(** Enough fuel: the loop gives the same result for any fuel that is at
    least the number of bytes. *)
Lemma decode_fuel_stable (errors : errors_mode) (f1 f2 : nat) (bs : list Z) :
  (length bs <= f1)%nat -> (length bs <= f2)%nat ->
  decode_fuel errors f1 bs = decode_fuel errors f2 bs.
Proof.
  revert f2 bs. induction f1 as [|f1 IH]; intros [|f2] [|ch rest] H1 H2; cbn in *; try lia; auto.
  assert (Hs : forall k, (length (skipn k rest) <= f1)%nat /\ (length (skipn k rest) <= f2)%nat)
    by (intros k; rewrite length_skipn; lia).
  destruct (decode_one ch rest) as [cp n| | |n]; try reflexivity;
    rewrite ?(IH f2 rest) by lia; rewrite ?(IH f2 (skipn _ rest)) by apply Hs; reflexivity.
Qed.

Lemma decode_fuel_nil (errors : errors_mode) (fuel : nat) : decode_fuel errors fuel [] = Ok [].
Proof. destruct fuel; reflexivity. Qed.

Lemma decode_fuel_enough (errors : errors_mode) (fuel : nat) (bs : list Z) :
  (length bs <= fuel)%nat -> decode_fuel errors fuel bs = decode_z errors bs.
Proof. intros H. apply decode_fuel_stable; lia. Qed.

(** What [strict] decodes is a list of scalar values whose encoding is
    the input. *)
Lemma decode_fuel_strict_sound (fuel : nat) (bs cps : list Z) :
  Forall is_byte bs -> (length bs <= fuel)%nat ->
  decode_fuel Strict fuel bs = Ok cps -> Forall scalar cps /\ encode cps = bs.
Proof.
  revert bs cps. induction fuel as [|fuel IH]; intros [|ch rest] cps Hb Hl H;
    cbn in *; try lia; try (injection H as <-; split; [constructor | reflexivity]).
  apply Forall_cons_iff in Hb as [Hch Hrest].
  destruct (decode_one ch rest) as [cp n| | |n] eqn:Hd; try discriminate H.
  destruct (decode_one_char ch rest cp n) as [Hcp [Hn Henc]]; [unfold is_byte in Hch; lia | exact Hd |].
  destruct (decode_fuel Strict fuel (skipn (pred n) rest)) as [cps'|e] eqn:Hr; try discriminate H.
  injection H as <-.
  destruct (IH _ _ (Forall_skipn _ _ _ Hrest) ltac:(rewrite length_skipn; lia) Hr) as [Hs He].
  split; [constructor; assumption|].
  cbn [encode flat_map]. fold (encode cps'). rewrite He, <- Henc, <- (skipn_pred_cons n ch rest Hn).
  apply firstn_skipn.
Qed.

(** Decoding the encoding of scalar values gives them back, whatever the
    error handler. *)
Lemma decode_fuel_encode (errors : errors_mode) (cps : list Z) (fuel : nat) :
  Forall scalar cps -> (length (encode cps) <= fuel)%nat ->
  decode_fuel errors fuel (encode cps) = Ok cps.
Proof.
  revert fuel. induction cps as [|c cps IH]; intros fuel Hs Hl.
  - destruct fuel; reflexivity.
  - inversion Hs as [|? ? Hc Hcps]; subst.
    destruct (decode_one_encode c Hc) as [ch [t [Henc Hd]]].
    cbn [encode flat_map] in *. fold (encode cps) in *. rewrite Henc in *.
    cbn [length app] in Hl. rewrite length_app in Hl.
    destruct fuel as [|fuel]; [lia|]. cbn [app decode_fuel]. rewrite Hd.
    cbn [pred]. rewrite skipn_length_app, IH by (assumption || lia). reflexivity.
Qed.

(** What [surrogateescape] may produce: scalar values and escapes. *)
Definition se_char (c : Z) : Prop := scalar c \/ is_escape c = true.

Lemma escape_se_char (bad : list Z) : Forall high_byte bad -> Forall se_char (escape bad).
Proof.
  induction 1 as [|b bad Hb _ IH]; constructor; [|exact IH].
  right. unfold high_byte in Hb. unfold is_escape. apply andb_true_iff. split; apply Z.leb_le; lia.
Qed.

(** One error range followed by the rest of the decoding. *)
Lemma se_error_step (bad cps : list Z) (r : list Z) :
  Forall high_byte bad -> encode_se cps = r -> Forall se_char cps ->
  encode_se (escape bad ++ cps) = bad ++ r /\ Forall se_char (escape bad ++ cps).
Proof.
  intros Hbad Hr Hcps. rewrite encode_se_app, encode_se_escape, Hr by exact Hbad.
  split; [reflexivity|]. apply Forall_app. split; [apply escape_se_char|]; assumption.
Qed.

(** [surrogateescape] never raises, yields scalar values and escapes, and
    encoding the result back gives the bytes. *)
Lemma decode_fuel_se (fuel : nat) (bs : list Z) :
  Forall is_byte bs -> (length bs <= fuel)%nat ->
  exists cps, decode_fuel SurrogateEscape fuel bs = Ok cps /\ encode_se cps = bs /\
    Forall se_char cps.
Proof.
  revert bs. induction fuel as [|fuel IH]; intros [|ch rest] Hb Hl;
    try (exists []; rewrite decode_fuel_nil; repeat constructor; fail); cbn [length] in Hl; try lia.
  apply Forall_cons_iff in Hb as [Hch Hrest]. cbn [decode_fuel].
  pose proof (decode_one_error_range ch rest Hch) as Herr.
  destruct (decode_one ch rest) as [cp n| | |n] eqn:Hd; cbn [error_range] in Herr.
  - destruct (decode_one_char ch rest cp n) as [Hcp [Hn Henc]]; [unfold is_byte in Hch; lia | exact Hd |].
    destruct (IH (skipn (pred n) rest)) as [cps [Hr [He Hs]]];
      [apply Forall_skipn; exact Hrest | rewrite length_skipn; lia |].
    exists (cp :: cps). rewrite Hr. split; [reflexivity|]. split; [|constructor; [left|]; assumption].
    change (cp :: cps) with ([cp] ++ cps).
    rewrite encode_se_app, encode_se_scalar, He, <- Henc, <- (skipn_pred_cons n ch rest Hn) by exact Hcp.
    apply firstn_skipn.
  - exists (escape (ch :: rest) ++ []). split; [reflexivity|].
    destruct (se_error_step (ch :: rest) [] [] Herr eq_refl (Forall_nil _)) as [H1 H2].
    split; [rewrite H1; apply app_nil_r | exact H2].
  - destruct (IH rest Hrest ltac:(lia)) as [cps [Hr [He Hs]]].
    exists (escape [ch] ++ cps). cbn [on_error]. rewrite Hr. split; [reflexivity|].
    apply (se_error_step [ch]); [constructor; [exact Herr | constructor] | exact He | exact Hs].
  - destruct Herr as [Hn Hhigh].
    destruct (IH (skipn (pred n) rest)) as [cps [Hr [He Hs]]];
      [apply Forall_skipn; exact Hrest | rewrite length_skipn; lia |].
    exists (escape (firstn n (ch :: rest)) ++ cps). cbn [on_error]. rewrite Hr. split; [reflexivity|].
    destruct (se_error_step _ _ _ Hhigh He Hs) as [H1 H2]. split; [|exact H2].
    rewrite H1, <- (skipn_pred_cons n ch rest) by lia. apply firstn_skipn.
Qed.

(** The only exception of the decoder is [UnicodeDecodeError]. *)
Lemma decode_fuel_Err (errors : errors_mode) (fuel : nat) (bs : list Z) (e : py_exc) :
  decode_fuel errors fuel bs = Err e -> exists reason, e = UnicodeDecodeError reason.
Proof.
  revert bs. induction fuel as [|fuel IH]; intros [|ch rest] H; try discriminate H.
  cbn [decode_fuel] in H.
  destruct (decode_one ch rest) as [cp n| | |n]; destruct errors; cbn [on_error] in H;
    unfold fmap_result in H; cbn [bind] in H; try discriminate H;
    try (injection H as <-; eexists; reflexivity);
    apply bind_eq_Err in H as [H | [a [_ H]]]; solve [exact (IH _ H) | discriminate H].
Qed.

(** Without escapes, what [surrogateescape] decodes is scalar values and
    [encode_se] is [encode]. *)
Lemma se_no_escape (cps : list Z) :
  Forall se_char cps -> forallb (fun c => negb (is_escape c)) cps = true ->
  Forall scalar cps /\ encode_se cps = encode cps.
Proof.
  induction 1 as [|c cps Hc _ IH]; [split; [constructor | reflexivity]|].
  cbn [forallb]. intros H. apply andb_true_iff in H as [Hn Hr]. apply negb_true_iff in Hn.
  destruct (IH Hr) as [Hs He]. destruct Hc as [Hc|Hc]; [|congruence].
  split; [constructor; assumption|].
  unfold encode_se, encode in *. cbn [flat_map]. rewrite Hn, He. reflexivity.
Qed.

(** ** Properties of the decoder *)

(** C11 (refinement): decoding with [strict] succeeds exactly on the
    UTF-8 encodings of lists of Unicode scalar values, and returns them. *)
Theorem decode_strict_iff (bs : list byte) (cps : list Z) :
  decode Strict bs = Ok cps <-> Forall scalar cps /\ encode cps = map byte_value bs.
Proof.
  unfold decode, decode_z. split.
  - apply decode_fuel_strict_sound; [apply bytes_in_range | lia].
  - intros [Hs He]. rewrite <- He. apply decode_fuel_encode; [exact Hs | lia].
Qed.

(** C15 (error): decoding with [strict] raises [UnicodeDecodeError], and
    nothing else, exactly when the input is not the UTF-8 encoding of
    scalar values. *)
Theorem decode_strict_error (bs : list byte) :
  (exists reason, decode Strict bs = Err (UnicodeDecodeError reason)) <->
  ~ exists cps, Forall scalar cps /\ encode cps = map byte_value bs.
Proof.
  split.
  - intros [reason Hr] [cps Hcps]. apply decode_strict_iff in Hcps. congruence.
  - intros Hn. destruct (decode Strict bs) as [cps|e] eqn:Hd.
    + exfalso. apply Hn. exists cps. apply decode_strict_iff. exact Hd.
    + destruct (decode_fuel_Err _ _ _ _ Hd) as [reason ->]. exists reason. reflexivity.
Qed.

(** C12 (roundtrip): [surrogateescape] never raises, and encoding its
    result with [surrogateescape] gives back the bytes of the input
    (PEP 383). *)
Theorem decode_surrogateescape_roundtrip (bs : list byte) :
  exists cps, decode SurrogateEscape bs = Ok cps /\ encode_se cps = map byte_value bs.
Proof.
  destruct (decode_fuel_se (length (map byte_value bs)) (map byte_value bs)) as [cps [H1 [H2 _]]];
    [apply bytes_in_range | lia |].
  exists cps. split; assumption.
Qed.

(** C28 (type): what [surrogateescape] decodes is made of Unicode scalar
    values and of the lone surrogates U+DC80..U+DCFF of the bytes it
    could not decode. *)
Theorem decode_surrogateescape_chars (bs : list byte) (cps : list Z) :
  decode SurrogateEscape bs = Ok cps -> Forall se_char cps.
Proof.
  destruct (decode_fuel_se (length (map byte_value bs)) (map byte_value bs)) as [cps' [H1 [_ H3]]];
    [apply bytes_in_range | lia |].
  unfold decode, decode_z. rewrite H1. intros [= <-]. exact H3.
Qed.


(** ** Concrete runs *)

(** [b"1\xe2\x80\x832"] is [1], EM SPACE, [2]; [b"\xef\xbb\xbf7"] keeps
    its byte order mark U+FEFF; an overlong [b"\xc0\xaf"], an encoded
    surrogate [b"\xed\xa0\x80"] and a cut [b"\xe2\x82"] are not UTF-8:
    [strict] raises, [surrogateescape] escapes the bytes of each error
    range, as CPython 3.11 does. *)
Example decode_runs :
  decode Strict [x31; xe2; x80; x83; x32] = Ok [49; 8195; 50] /\
  decode Strict [xef; xbb; xbf; x37] = Ok [65279; 55] /\
  decode Strict [x31; xc0; xaf] = Err (UnicodeDecodeError InvalidStartByte) /\
  decode Strict [xed; xa0; x80] = Err (UnicodeDecodeError InvalidContinuationByte) /\
  decode Strict [x31; xe2; x82] = Err (UnicodeDecodeError UnexpectedEndOfData) /\
  decode SurrogateEscape [x31; xc0; xaf] = Ok [49; 56512; 56495] /\
  decode SurrogateEscape [xed; xa0; x80; x41] = Ok [56557; 56480; 56448; 65] /\
  decode SurrogateEscape [x31; xe2; x82] = Ok [49; 56546; 56450].
Proof. vm_compute. repeat split. Qed.

Lemma decode_surrogateescape_chars_witness :
  decode SurrogateEscape [x31; xc0; xaf] = Ok [49; 56512; 56495] /\
  Forall se_char [49; 56512; 56495].
Proof.
  split; [vm_compute; reflexivity|].
  apply (decode_surrogateescape_chars [x31; xc0; xaf]). vm_compute. reflexivity.
Defined.


End Utf8.
