(* ===== verification/UText.v ===== *)
(** * Text as CPython holds it: code points

    After decoding, the lines of standard input are Python [str] objects,
    sequences of code points.  This file models, on [list Z] of code
    points, the three [str] operations of [count_safe_reports]
    (src/solution.py, lines 48-51) and the split into lines of
    [readlines] (line 61), after CPython 3.11 (Unicode 14.0.0):
    - [isspace] is [Py_UNICODE_ISSPACE]: the table [_Py_ascii_whitespace]
      below 128, [_PyUnicode_IsWhitespace] (bidirectional type WS, B or S,
      or category Zs) above;
    - [strip] is [do_strip] with both sides, [split] is [split_whitespace]
      of [Objects/stringlib/split.h], [readlines] cuts after each U+000A;
    - [py_int] is [PyLong_FromUnicodeObject]: the token goes through
      [_PyUnicode_TransformDecimalAndSpaceToASCII] (an ASCII string is kept
      as it is; otherwise Unicode whitespace becomes a space, a decimal
      digit of any script ([Py_UNICODE_TODECIMAL], category Nd) its ASCII
      digit, and the first other character above U+007E a [?] that ends
      the string), then through [PyLong_FromString], which is
      [PyInt.py_int]; a malformed literal raises with the original token.
    [unicode_text] is the instance of [Text.PyText] the counter runs on
    for the real program; [codes] maps the ASCII model onto it. *)

From Stdlib Require Import List ZArith Lia Bool String Ascii.
From S2P Require Import Prelude Text PyStr PyInt AsciiText Utf8.
Import ListNotations.
Local Open Scope Z_scope.
Local Open Scope py_scope.

Module UText.

(** ** Characters *)

(** [_Py_ascii_whitespace] *)
Definition ascii_whitespace (ch : Z) : bool :=
  ((9 <=? ch) && (ch <=? 13)) || ((28 <=? ch) && (ch <=? 32)).

(** [_PyUnicode_IsWhitespace] *)
Definition unicode_whitespace (ch : Z) : bool :=
  existsb (Z.eqb ch)
    [0x9; 0xA; 0xB; 0xC; 0xD; 0x1C; 0x1D; 0x1E; 0x1F; 0x20; 0x85; 0xA0; 0x1680;
     0x2000; 0x2001; 0x2002; 0x2003; 0x2004; 0x2005; 0x2006; 0x2007; 0x2008;
     0x2009; 0x200A; 0x2028; 0x2029; 0x202F; 0x205F; 0x3000].

(** [Py_UNICODE_ISSPACE(ch)] *)
Definition isspace (ch : Z) : bool :=
  if ch <? 128 then ascii_whitespace ch else unicode_whitespace ch.

(** The code points of digit zero of the 66 runs of decimal digits
    (category Nd) of Unicode 14.0.0; each run is [0] to [9] in order. *)
Definition decimal_zeros : list Z :=
  [0x30; 0x660; 0x6F0; 0x7C0; 0x966; 0x9E6; 0xA66; 0xAE6;
   0xB66; 0xBE6; 0xC66; 0xCE6; 0xD66; 0xDE6; 0xE50; 0xED0;
   0xF20; 0x1040; 0x1090; 0x17E0; 0x1810; 0x1946; 0x19D0; 0x1A80;
   0x1A90; 0x1B50; 0x1BB0; 0x1C40; 0x1C50; 0xA620; 0xA8D0; 0xA900;
   0xA9D0; 0xA9F0; 0xAA50; 0xABF0; 0xFF10; 0x104A0; 0x10D30; 0x11066;
   0x110F0; 0x11136; 0x111D0; 0x112F0; 0x11450; 0x114D0; 0x11650; 0x116C0;
   0x11730; 0x118E0; 0x11950; 0x11C50; 0x11D50; 0x11DA0; 0x16A60; 0x16AC0;
   0x16B50; 0x1D7CE; 0x1D7D8; 0x1D7E2; 0x1D7EC; 0x1D7F6; 0x1E140; 0x1E2F0;
   0x1E950; 0x1FBF0].

(** [Py_UNICODE_TODECIMAL(ch)]: the digit value, or [-1]. *)
Definition to_decimal (ch : Z) : Z :=
  match find (fun z => (z <=? ch) && (ch <? z + 10)) decimal_zeros with
  | Some z => ch - z
  | None => -1
  end.

(** ** [str.strip()], [str.split()] and [readlines()] on code points *)

Definition is_nil (s : list Z) : bool :=
  match s with
  | [] => true
  | _ :: _ => false
  end.

Fixpoint lstrip (s : list Z) : list Z :=
  match s with
  | [] => []
  | c :: s' => if isspace c then lstrip s' else s
  end.

Fixpoint rstrip (s : list Z) : list Z :=
  match s with
  | [] => []
  | c :: s' => let r := rstrip s' in if isspace c && is_nil r then [] else c :: r
  end.

Definition strip (s : list Z) : list Z := rstrip (lstrip s).

Definition cons_word (w : list Z) (ws : list (list Z)) : list (list Z) :=
  if is_nil w then ws else w :: ws.

Fixpoint split_aux (s : list Z) : list Z * list (list Z) :=
  match s with
  | [] => ([], [])
  | c :: s' =>
      let '(w, ws) := split_aux s' in
      if isspace c then ([], cons_word w ws) else (c :: w, ws)
  end.

Definition split (s : list Z) : list (list Z) :=
  let '(w, ws) := split_aux s in cons_word w ws.

Fixpoint readlines_aux (s : list Z) : list Z * list (list Z) :=
  match s with
  | [] => ([], [])
  | c :: s' =>
      let '(l, ls) := readlines_aux s' in
      if c =? 10 then ([c], cons_word l ls) else (c :: l, ls)
  end.

Definition readlines (s : list Z) : list (list Z) :=
  let '(l, ls) := readlines_aux s in cons_word l ls.

(** Specification of the lines: a line feed only as the last code point
    of a line, every line but the last ending with one, and no empty
    line. *)
Definition no_lf (l : list Z) : bool := forallb (fun c => negb (c =? 10)) l.

Definition ends_lf (l : list Z) : bool := last l 0 =? 10.

Fixpoint lines_ok (ls : list (list Z)) : bool :=
  match ls with
  | [] => true
  | [l] => negb (is_nil l) && no_lf (removelast l)
  | l :: ls' => ends_lf l && no_lf (removelast l) && lines_ok ls'
  end.

(** ** [int(token)] *)

Definition is_ascii (s : list Z) : bool := forallb (fun c => c <? 128) s.

(** The loop of [_PyUnicode_TransformDecimalAndSpaceToASCII]. *)
Fixpoint transform_loop (s : list Z) : list Z :=
  match s with
  | [] => []
  | ch :: s' =>
      if ch <? 127 then ch :: transform_loop s'
      else if isspace ch then 32 :: transform_loop s'
      else
        let decimal := to_decimal ch in
        if decimal <? 0 then [63]
        else (48 + decimal) :: transform_loop s'
  end.

Definition transform_decimal_and_space (s : list Z) : list Z :=
  if is_ascii s then s else transform_loop s.

(** The ASCII buffer [PyUnicode_AsUTF8AndSize] hands to [PyLong_FromString]. *)
Definition string_of_codes (s : list Z) : string :=
  fold_right (fun c acc => String (ascii_of_nat (Z.to_nat c)) acc) EmptyString s.

(** [PyLong_FromUnicodeObject(u, 10)] *)
Definition py_int (maxd : nat) (u : list Z) : result Z :=
  match PyInt.py_int maxd (string_of_codes (transform_decimal_and_space u)) with
  | Err (ValueErrorLiteral _) => Err (ValueErrorLiteral u)
  | r => r
  end.

#[global] Instance unicode_text : Text.PyText (list Z) := {|
  Text.strip := strip;
  Text.split := split;
  Text.is_empty := is_nil;
  Text.to_int := py_int
|}.

(** ** Lemmas on [strip] and [split] *)

Lemma is_nil_true (s : list Z) : is_nil s = true <-> s = [].
Proof. destruct s; simpl; split; congruence. Qed.

Lemma split_cons_space (c : Z) (s : list Z) : isspace c = true -> split (c :: s) = split s.
Proof. intros Hc. unfold split. simpl. destruct (split_aux s) as [w ws]. rewrite Hc. reflexivity. Qed.

Lemma split_lstrip (s : list Z) : split (lstrip s) = split s.
Proof.
  induction s as [|c s IH]; simpl; [reflexivity|].
  destruct (isspace c) eqn:Hc; [rewrite IH, split_cons_space by exact Hc|]; reflexivity.
Qed.

Lemma split_aux_rstrip_u (s : list Z) : split_aux (rstrip s) = split_aux s.
Proof.
  induction s as [|c s IH]; simpl; [reflexivity|].
  destruct (isspace c && is_nil (rstrip s)) eqn:H.
  - apply andb_true_iff in H as [Hc He%is_nil_true].
    rewrite He in IH. simpl in IH. rewrite <- IH, Hc. reflexivity.
  - simpl. rewrite IH. reflexivity.
Qed.

Lemma split_strip (s : list Z) : split (strip s) = split s.
Proof. unfold strip. rewrite <- (split_lstrip s). unfold split. rewrite split_aux_rstrip_u. reflexivity. Qed.

Lemma split_nil_iff (s : list Z) : split s = [] <-> forallb isspace s = true.
Proof.
  induction s as [|c s IH]; [split; reflexivity|].
  destruct (isspace c) eqn:Hc.
  - rewrite split_cons_space by exact Hc. simpl. rewrite Hc. exact IH.
  - unfold split. simpl. destruct (split_aux s) as [w ws]. rewrite Hc. simpl. split; discriminate.
Qed.

Lemma rstrip_nil_iff (s : list Z) : rstrip s = [] <-> forallb isspace s = true.
Proof.
  induction s as [|c s IH]; [split; reflexivity|]. simpl.
  destruct (isspace c && is_nil (rstrip s)) eqn:H.
  - apply andb_true_iff in H as [Hc He%is_nil_true]. rewrite Hc, (proj1 IH He). split; reflexivity.
  - split; [discriminate|]. intros H'. apply andb_true_iff in H' as [Hc Hs].
    apply IH in Hs. rewrite Hc, Hs in H. discriminate H.
Qed.

Lemma forallb_lstrip (s : list Z) : forallb isspace (lstrip s) = forallb isspace s.
Proof.
  induction s as [|c s IH]; simpl; [reflexivity|].
  destruct (isspace c) eqn:Hc; simpl; [exact IH | rewrite Hc; reflexivity].
Qed.

Lemma strip_nil_iff (s : list Z) : strip s = [] <-> forallb isspace s = true.
Proof. unfold strip. rewrite rstrip_nil_iff, forallb_lstrip. reflexivity. Qed.

#[global] Instance unicode_text_laws : Text.PyTextLaws (list Z).
Proof.
  split; cbn.
  - exact split_strip.
  - intros s. rewrite is_nil_true, strip_nil_iff, split_nil_iff. reflexivity.
Qed.

(** ** The ASCII model as a restriction of the code points

    A string of the ASCII model whose characters are all below 128 is the
    text of its [codes]; on such strings the operations of [PyStr] and
    [PyInt] are the ones above. *)

Definition ascii7 (s : string) : Prop :=
  PyStr.all_chars (fun a => (nat_of_ascii a <? 128)%nat) s = true.

Lemma codes_cons (a : ascii) (s : string) :
  codes (String a s) = Z.of_nat (nat_of_ascii a) :: codes s.
Proof. reflexivity. Qed.

Lemma ascii7_cons (a : ascii) (s : string) :
  ascii7 (String a s) <-> (nat_of_ascii a < 128)%nat /\ ascii7 s.
Proof. unfold ascii7. cbn [PyStr.all_chars]. rewrite andb_true_iff, Nat.ltb_lt. reflexivity. Qed.

Lemma isspace_code (a : ascii) :
  (nat_of_ascii a < 128)%nat -> isspace (Z.of_nat (nat_of_ascii a)) = PyStr.is_space a.
Proof.
  unfold isspace, ascii_whitespace, PyStr.is_space. set (n := nat_of_ascii a). intros Hn.
  rewrite (proj2 (Z.ltb_lt _ _)) by lia. apply eq_true_iff_eq.
  rewrite !orb_true_iff, !andb_true_iff, !Z.leb_le, !Nat.leb_le, Nat.eqb_eq. lia.
Qed.

Lemma codes_nil_iff (s : string) : is_nil (codes s) = PyStr.is_empty s.
Proof. destruct s; reflexivity. Qed.

Lemma codes_lstrip (s : string) : ascii7 s ->
  codes (PyStr.lstrip s) = lstrip (codes s) /\ ascii7 (PyStr.lstrip s).
Proof.
  induction s as [|a s IH]; [split; reflexivity|]. rewrite ascii7_cons. intros [Ha Hs].
  cbn [PyStr.lstrip]. rewrite codes_cons. cbn [lstrip]. rewrite isspace_code by exact Ha.
  destruct (PyStr.is_space a); [exact (IH Hs) | split; [reflexivity | apply ascii7_cons; auto]].
Qed.

Lemma codes_rstrip (s : string) : ascii7 s ->
  codes (PyStr.rstrip s) = rstrip (codes s) /\ ascii7 (PyStr.rstrip s).
Proof.
  induction s as [|a s IH]; [split; reflexivity|]. rewrite ascii7_cons. intros [Ha Hs].
  destruct (IH Hs) as [IH1 IH2].
  cbn [PyStr.rstrip]. rewrite codes_cons. cbn [rstrip]. rewrite isspace_code, <- IH1, codes_nil_iff by exact Ha.
  destruct (PyStr.is_space a && PyStr.is_empty (PyStr.rstrip s)); [split; reflexivity|].
  rewrite codes_cons, IH1. split; [reflexivity | apply ascii7_cons; auto].
Qed.

Lemma codes_strip (s : string) : ascii7 s ->
  codes (PyStr.py_strip s) = strip (codes s) /\ ascii7 (PyStr.py_strip s).
Proof.
  intros Hs. destruct (codes_lstrip s Hs) as [H1 H2]. destruct (codes_rstrip _ H2) as [H3 H4].
  unfold PyStr.py_strip, strip. rewrite H3, H1. split; [reflexivity | exact H4].
Qed.

Lemma codes_cons_word (w : string) (ws : list string) :
  cons_word (codes w) (map codes ws) = map codes (PyStr.cons_word w ws).
Proof. unfold cons_word, PyStr.cons_word. rewrite codes_nil_iff. destruct (PyStr.is_empty w); reflexivity. Qed.

Lemma Forall_cons_word (P : string -> Prop) (w : string) (ws : list string) :
  P w -> Forall P ws -> Forall P (PyStr.cons_word w ws).
Proof. intros Hw Hws. unfold PyStr.cons_word. destruct (PyStr.is_empty w); auto. Qed.

Lemma codes_split_aux (s : string) : ascii7 s ->
  split_aux (codes s) = (codes (fst (PyStr.split_aux s)), map codes (snd (PyStr.split_aux s))) /\
  ascii7 (fst (PyStr.split_aux s)) /\ Forall ascii7 (snd (PyStr.split_aux s)).
Proof.
  induction s as [|a s IH]; [repeat constructor|]. rewrite ascii7_cons. intros [Ha Hs].
  destruct (IH Hs) as (IH1 & IH2 & IH3). rewrite codes_cons. cbn [split_aux PyStr.split_aux].
  rewrite IH1. destruct (PyStr.split_aux s) as [w ws]. cbn [fst snd] in *.
  rewrite isspace_code by exact Ha. destruct (PyStr.is_space a); cbn [fst snd].
  - rewrite codes_cons_word. split; [reflexivity | split; [reflexivity | apply Forall_cons_word; assumption]].
  - rewrite codes_cons. split; [reflexivity | split; [apply ascii7_cons; auto | exact IH3]].
Qed.

Lemma codes_split (s : string) : ascii7 s ->
  split (codes s) = map codes (PyStr.py_split s) /\ Forall ascii7 (PyStr.py_split s).
Proof.
  intros Hs. destruct (codes_split_aux s Hs) as (H1 & H2 & H3).
  unfold split, PyStr.py_split. rewrite H1. destruct (PyStr.split_aux s) as [w ws].
  split; [apply codes_cons_word | apply Forall_cons_word; assumption].
Qed.

Lemma string_of_codes_codes (s : string) : string_of_codes (codes s) = s.
Proof.
  induction s as [|a s IH]; [reflexivity|]. rewrite codes_cons. cbn [string_of_codes fold_right].
  fold (string_of_codes (codes s)). rewrite IH, Nat2Z.id, ascii_nat_embedding. reflexivity.
Qed.

Lemma is_ascii_codes (s : string) : ascii7 s -> is_ascii (codes s) = true.
Proof.
  induction s as [|a s IH]; [reflexivity|]. rewrite ascii7_cons. intros [Ha Hs].
  rewrite codes_cons. cbn [is_ascii forallb]. fold (is_ascii (codes s)).
  rewrite IH, (proj2 (Z.ltb_lt _ _)) by (exact Hs || lia). reflexivity.
Qed.

Lemma codes_py_int (maxd : nat) (s : string) : ascii7 s -> py_int maxd (codes s) = PyInt.py_int maxd s.
Proof.
  intros Hs. unfold py_int, transform_decimal_and_space. rewrite is_ascii_codes, string_of_codes_codes by exact Hs.
  destruct (PyInt.py_int maxd s) as [z|[u| | |]] eqn:Hi; try reflexivity.
  rewrite (PyInt.py_int_literal_payload _ _ _ Hi). reflexivity.
Qed.

(** [codes] is a morphism from the ASCII instance to the code points, on
    7-bit strings. *)
Lemma codes_morphism : Text.text_morphism ascii7 codes.
Proof.
  split; cbn.
  - intros s Hs. exact (proj1 (codes_strip s Hs)).
  - intros s Hs. exact (proj2 (codes_strip s Hs)).
  - intros s Hs. exact (proj1 (codes_split s Hs)).
  - intros s Hs. exact (proj2 (codes_split s Hs)).
  - intros s _. apply codes_nil_iff.
  - intros maxd s Hs. apply codes_py_int. exact Hs.
Qed.

(** ** Lemmas on [int] of code points *)

(** The runs of decimal digits do not meet [lo, hi). *)
Lemma find_decimal_none (c : Z) (zs : list Z) :
  Forall (fun z => c < z \/ z + 10 <= c) zs ->
  find (fun z => (z <=? c) && (c <? z + 10)) zs = None.
Proof.
  induction 1 as [|z zs Hz _ IH]; [reflexivity|]. cbn [find].
  rewrite (proj2 (andb_false_iff _ _)); [exact IH|].
  destruct Hz; [left; apply Z.leb_gt | right; apply Z.ltb_ge]; lia.
Qed.

Lemma find_cons_eq {A : Type} (f : A -> bool) (x : A) (l : list A) :
  find f (x :: l) = if f x then Some x else find f l.
Proof. reflexivity. Qed.

Lemma to_decimal_ascii (c : Z) :
  c < 128 -> to_decimal c = if (48 <=? c) && (c <? 58) then c - 48 else -1.
Proof.
  intros Hc. unfold to_decimal, decimal_zeros. rewrite find_cons_eq. cbv beta. change (48 + 10) with 58.
  destruct ((48 <=? c) && (c <? 58)) eqn:E; [reflexivity|].
  rewrite find_decimal_none; [reflexivity|]. repeat (apply Forall_cons; [lia|]). apply Forall_nil.
Qed.

Lemma to_decimal_range (c : Z) : 0 <= to_decimal c -> to_decimal c <= 9.
Proof.
  unfold to_decimal. destruct (find _ _) as [z|] eqn:Hf; [|lia].
  apply find_some in Hf as [_ Hz]. apply andb_true_iff in Hz as [H1 H2].
  apply Z.leb_le in H1. apply Z.ltb_lt in H2. lia.
Qed.

(** No whitespace character is a decimal digit. *)
Lemma isspace_not_decimal (c : Z) : isspace c = true -> to_decimal c = -1.
Proof.
  unfold isspace. destruct (c <? 128) eqn:Hc.
  - apply Z.ltb_lt in Hc. rewrite to_decimal_ascii by exact Hc. unfold ascii_whitespace.
    intros H. rewrite (proj2 (andb_false_iff _ _)); [reflexivity|].
    apply orb_true_iff in H as [H|H]; apply andb_true_iff in H as [H1 H2];
      apply Z.leb_le in H1; apply Z.leb_le in H2; left; apply Z.leb_gt; lia.
  - unfold unicode_whitespace. intros H. apply existsb_exists in H as [z [Hz Hcz]].
    apply Z.eqb_eq in Hcz as ->. cbn in Hz.
    repeat (destruct Hz as [<-|Hz]; [vm_compute; reflexivity|]). destruct Hz.
Qed.

(** The digit of a decimal character, as an ASCII code. *)
Lemma decimal_ascii_code (c : Z) :
  0 <= to_decimal c -> c < 127 -> c = 48 + to_decimal c.
Proof.
  intros Hd Hc. rewrite to_decimal_ascii in * by lia.
  destruct ((48 <=? c) && (c <? 58)) eqn:E; [lia | lia].
Qed.

Definition decimal (c : Z) : Prop := 0 <= to_decimal c.

Lemma transform_loop_decimal (tok : list Z) :
  Forall decimal tok -> transform_loop tok = map (fun c => 48 + to_decimal c) tok.
Proof.
  induction 1 as [|c tok Hc _ IH]; [reflexivity|]. unfold decimal in Hc. cbn [transform_loop map].
  destruct (c <? 127) eqn:E1.
  - apply Z.ltb_lt in E1. rewrite IH, <- decimal_ascii_code by assumption. reflexivity.
  - destruct (isspace c) eqn:E2; [rewrite isspace_not_decimal in Hc by exact E2; lia|].
    rewrite (proj2 (Z.ltb_ge _ _)) by exact Hc. rewrite IH. reflexivity.
Qed.

Lemma is_ascii_decimal (tok : list Z) :
  Forall decimal tok -> is_ascii tok = true -> tok = map (fun c => 48 + to_decimal c) tok.
Proof.
  induction 1 as [|c tok Hc _ IH]; [reflexivity|]. unfold is_ascii. cbn [forallb map].
  intros H. apply andb_true_iff in H as [H1 H2]. apply Z.ltb_lt in H1.
  rewrite <- IH by exact H2. f_equal. apply to_decimal_ascii in H1. unfold decimal in Hc.
  rewrite H1 in *. destruct ((48 <=? c) && (c <? 58)) eqn:E; [lia | lia].
Qed.

Lemma string_of_codes_digits (ds : list Z) :
  Forall PyInt.is_digit ds -> string_of_codes (map (fun d => 48 + d) ds) = PyInt.string_of_digits ds.
Proof.
  induction 1 as [|d ds Hd _ IH]; [reflexivity|]. unfold PyInt.is_digit in Hd.
  cbn [map string_of_codes fold_right PyInt.string_of_digits]. fold (string_of_codes (map (fun d => 48 + d) ds)).
  rewrite IH. unfold PyInt.digit_char. f_equal. f_equal. lia.
Qed.

(** The ASCII buffer of a token of decimal digits is its digits. *)
Lemma transform_decimal (tok : list Z) :
  Forall decimal tok ->
  string_of_codes (transform_decimal_and_space tok) = PyInt.string_of_digits (map to_decimal tok).
Proof.
  intros H. assert (Hd : Forall PyInt.is_digit (map to_decimal tok)).
  { apply Forall_map. apply (Forall_impl _ (fun c Hc => conj Hc (to_decimal_range c Hc)) H). }
  rewrite <- string_of_codes_digits, map_map by exact Hd. f_equal.
  unfold transform_decimal_and_space. destruct (is_ascii tok) eqn:E.
  - apply is_ascii_decimal; assumption.
  - apply transform_loop_decimal. exact H.
Qed.

(** A character above U+007F that is neither whitespace nor a decimal
    digit makes the ASCII buffer contain [?]. *)
Lemma transform_bad (tok : list Z) (c : Z) :
  In c tok -> 128 <= c -> isspace c = false -> to_decimal c < 0 ->
  In 63 (transform_decimal_and_space tok).
Proof.
  intros Hin Hc Hs Hd. unfold transform_decimal_and_space.
  replace (is_ascii tok) with false.
  2:{ symmetry. apply not_true_iff_false. unfold is_ascii. rewrite forallb_forall.
      intros H. specialize (H c Hin). apply Z.ltb_lt in H. lia. }
  induction tok as [|ch tok IH]; [destruct Hin|]. cbn [transform_loop].
  destruct Hin as [<-|Hin].
  - rewrite (proj2 (Z.ltb_ge _ _)), Hs, (proj2 (Z.ltb_lt _ _)) by lia. left. reflexivity.
  - destruct (ch <? 127); [right; exact (IH Hin)|].
    destruct (isspace ch); [right; exact (IH Hin)|].
    destruct (to_decimal ch <? 0); [left; reflexivity | right; exact (IH Hin)].
Qed.

Lemma string_of_codes_question (l : list Z) (p : ascii -> bool) :
  In 63 l -> PyStr.all_chars p (string_of_codes l) = true -> p "?"%char = true.
Proof.
  induction l as [|c l IH]; [intros []|]. cbn [string_of_codes fold_right PyStr.all_chars].
  fold (string_of_codes l). intros [->|Hin] H; apply andb_true_iff in H as [H1 H2];
    [exact H1 | exact (IH Hin H2)].
Qed.

(** ** Lemmas on lines and tokens *)

Lemma concat_cons_word_u (l : list Z) (ls : list (list Z)) : List.concat (cons_word l ls) = l ++ List.concat ls.
Proof. unfold cons_word. destruct l; reflexivity. Qed.

Lemma readlines_aux_concat_u (s : list Z) :
  fst (readlines_aux s) ++ List.concat (snd (readlines_aux s)) = s.
Proof.
  induction s as [|c s IH]; [reflexivity|]. cbn [readlines_aux].
  destruct (readlines_aux s) as [l ls]; cbn [fst snd] in *.
  destruct (c =? 10); cbn [fst snd app]; rewrite ?concat_cons_word_u, IH; reflexivity.
Qed.

Lemma readlines_concat_u (s : list Z) : List.concat (readlines s) = s.
Proof.
  pose proof (readlines_aux_concat_u s) as H. unfold readlines.
  destruct (readlines_aux s) as [l ls]. rewrite concat_cons_word_u. exact H.
Qed.

Lemma readlines_aux_fst_nil (s : list Z) : fst (readlines_aux s) = [] -> s = [].
Proof.
  destruct s as [|c s]; [reflexivity|]. cbn [readlines_aux].
  destruct (readlines_aux s), (c =? 10); discriminate.
Qed.

(** [readlines] one code point at a time: a line feed closes a line of
    its own, any other code point starts the first line. *)
Lemma readlines_cons (c : Z) (s : list Z) :
  readlines (c :: s) =
    if c =? 10 then [c] :: readlines s
    else match readlines s with [] => [[c]] | l :: ls => (c :: l) :: ls end.
Proof.
  unfold readlines. cbn [readlines_aux].
  destruct (readlines_aux s) as [l ls] eqn:E. destruct (c =? 10); [reflexivity|].
  destruct l as [|x l]; [|reflexivity].
  assert (s = []) as -> by (apply readlines_aux_fst_nil; rewrite E; reflexivity).
  injection E as <-. reflexivity.
Qed.

Lemma lines_ok_cons_cons (l l2 : list Z) (ls : list (list Z)) :
  lines_ok (l :: l2 :: ls) = ends_lf l && no_lf (removelast l) && lines_ok (l2 :: ls).
Proof. reflexivity. Qed.

Lemma no_lf_removelast_cons (c x : Z) (l : list Z) :
  no_lf (removelast (c :: x :: l)) = negb (c =? 10) && no_lf (removelast (x :: l)).
Proof. reflexivity. Qed.

Lemma readlines_lines_ok (s : list Z) : lines_ok (readlines s) = true.
Proof.
  induction s as [|c s IH]; [reflexivity|]. rewrite readlines_cons.
  destruct (c =? 10) eqn:Hc.
  - destruct (readlines s) as [|r rs]; [reflexivity|]. rewrite lines_ok_cons_cons, IH.
    unfold ends_lf. cbn [last removelast no_lf forallb]. rewrite Hc. reflexivity.
  - destruct (readlines s) as [|[|x l] rs]; [reflexivity | destruct rs; cbv in IH; discriminate IH |].
    destruct rs as [|r rs].
    + cbn [lines_ok is_nil negb andb] in *. rewrite no_lf_removelast_cons, Hc. exact IH.
    + rewrite lines_ok_cons_cons in *. change (ends_lf (c :: x :: l)) with (ends_lf (x :: l)).
      rewrite no_lf_removelast_cons, Hc. exact IH.
Qed.

(** A line without a line feed, or with one at its end, followed by
    more text. *)
Lemma readlines_line_app (l rest : list Z) :
  ends_lf l = true -> no_lf (removelast l) = true -> readlines (l ++ rest) = l :: readlines rest.
Proof.
  induction l as [|c [|x l] IH]; [discriminate|..]; intros He Hn.
  - cbv [ends_lf last] in He. apply Z.eqb_eq in He as ->. cbn [app]. rewrite readlines_cons. reflexivity.
  - cbn [no_lf forallb removelast] in Hn. apply andb_true_iff in Hn as [Hc Hn].
    apply negb_true_iff in Hc. change ((c :: x :: l) ++ rest) with (c :: ((x :: l) ++ rest)). rewrite readlines_cons, Hc, (IH He Hn). reflexivity.
Qed.

Lemma readlines_last_line (l : list Z) :
  is_nil l = false -> no_lf (removelast l) = true -> readlines l = [l].
Proof.
  induction l as [|c [|x l] IH]; [discriminate|..]; intros _ Hn.
  - rewrite readlines_cons. destruct (c =? 10); reflexivity.
  - cbn [no_lf forallb removelast] in Hn. apply andb_true_iff in Hn as [Hc Hn].
    apply negb_true_iff in Hc. rewrite readlines_cons, Hc, (IH eq_refl Hn). reflexivity.
Qed.

Lemma readlines_concat_lines_ok (ls : list (list Z)) :
  lines_ok ls = true -> readlines (List.concat ls) = ls.
Proof.
  induction ls as [|l [|l2 ls] IH]; intros H; [reflexivity|..]; cbn [lines_ok] in H.
  - apply andb_true_iff in H as [Hl Hn]. apply negb_true_iff in Hl.
    cbn [List.concat]. rewrite app_nil_r. apply readlines_last_line; assumption.
  - apply andb_true_iff in H as [[He Hn]%andb_true_iff Hr].
    change (List.concat (l :: l2 :: ls)) with (l ++ List.concat (l2 :: ls)).
    rewrite readlines_line_app, IH by assumption. reflexivity.
Qed.

(** Every code point of the input is on one of its lines. *)
Lemma in_readlines (s : list Z) (c : Z) : In c s -> exists l, In l (readlines s) /\ In c l.
Proof. rewrite <- (readlines_concat_u s) at 1. intros H. apply in_concat in H. exact H. Qed.

Lemma in_cons_word (c : Z) (w : list Z) (ws : list (list Z)) :
  In c w -> exists tok, In tok (cons_word w ws) /\ In c tok.
Proof. intros H. unfold cons_word. destruct w as [|x w]; [destruct H|]. exists (x :: w). split; [left|]; auto. Qed.

Lemma in_split_aux (s : list Z) (c : Z) :
  In c s -> isspace c = false ->
  In c (fst (split_aux s)) \/ exists tok, In tok (snd (split_aux s)) /\ In c tok.
Proof.
  induction s as [|x s IH]; [intros []|]. intros Hin Hc. cbn [split_aux].
  destruct (split_aux s) as [w ws]. cbn [fst snd] in *.
  destruct (isspace x) eqn:Hx; destruct Hin as [<-|Hin]; try congruence.
  - right. destruct (IH Hin Hc) as [Hw | (tok & Ht & Hct)]; [apply in_cons_word; exact Hw|].
    exists tok. split; [unfold cons_word; destruct (is_nil w); [|right]|]; assumption.
  - left. left. reflexivity.
  - destruct (IH Hin Hc) as [Hw | H]; [left; right; exact Hw | right; exact H].
Qed.

(** A code point that is not whitespace is in one of the tokens. *)
Lemma in_split (s : list Z) (c : Z) :
  In c s -> isspace c = false -> exists tok, In tok (split s) /\ In c tok.
Proof.
  intros Hin Hc. unfold split. pose proof (in_split_aux s c Hin Hc) as H.
  destruct (split_aux s) as [w ws]. cbn [fst snd] in H.
  destruct H as [Hw | (tok & Ht & Hct)]; [apply in_cons_word; exact Hw|].
  exists tok. split; [unfold cons_word; destruct (is_nil w); [|right]|]; assumption.
Qed.

Lemma codes_readlines_aux (s : string) :
  readlines_aux (codes s) =
    (codes (fst (PyStr.readlines_aux s)), map codes (snd (PyStr.readlines_aux s))) /\
  (ascii7 s -> ascii7 (fst (PyStr.readlines_aux s)) /\ Forall ascii7 (snd (PyStr.readlines_aux s))).
Proof.
  induction s as [|a s IH]; [split; [reflexivity | repeat constructor]|].
  destruct IH as [IH1 IH2]. rewrite codes_cons. cbn [readlines_aux PyStr.readlines_aux].
  rewrite IH1. destruct (PyStr.readlines_aux s) as [l ls]. cbn [fst snd] in *.
  replace (Z.of_nat (nat_of_ascii a) =? 10) with (Ascii.eqb a PyStr.newline).
  2:{ apply eq_true_iff_eq. rewrite Ascii.eqb_eq, Z.eqb_eq. split; [intros ->; reflexivity|].
      intros H. assert (Ha : nat_of_ascii a = 10%nat) by lia.
      rewrite <- (ascii_nat_embedding a), Ha. reflexivity. }
  destruct (Ascii.eqb a PyStr.newline); cbn [fst snd]; rewrite ?codes_cons_word;
    (split; [reflexivity|]); rewrite ascii7_cons; intros [Ha Hs]; destruct (IH2 Hs) as [H1 H2].
  - split; [apply ascii7_cons; split; [exact Ha | reflexivity] | apply Forall_cons_word; assumption].
  - split; [apply ascii7_cons; split; assumption | exact H2].
Qed.

Lemma codes_readlines (s : string) :
  readlines (codes s) = map codes (PyStr.readlines s) /\
  (ascii7 s -> Forall ascii7 (PyStr.readlines s)).
Proof.
  destruct (codes_readlines_aux s) as [H1 H2]. unfold readlines, PyStr.readlines. rewrite H1.
  destruct (PyStr.readlines_aux s) as [l ls]. cbn [fst snd] in H2.
  split; [apply codes_cons_word | intros Hs; destruct (H2 Hs); apply Forall_cons_word; assumption].
Qed.

(** An escape of [surrogateescape] is neither whitespace nor a digit. *)
Lemma escape_bad (c : Z) :
  Utf8.is_escape c = true -> 128 <= c /\ isspace c = false /\ to_decimal c < 0.
Proof.
  unfold Utf8.is_escape. intros H. apply andb_true_iff in H as [H1 H2].
  apply Z.leb_le in H1. apply Z.leb_le in H2. split; [lia|]. split.
  - unfold isspace. rewrite (proj2 (Z.ltb_ge _ _)) by lia. unfold unicode_whitespace.
    apply not_true_iff_false. rewrite existsb_exists. intros [z [Hz Hcz]].
    apply Z.eqb_eq in Hcz. subst z. cbn in Hz.
    repeat (destruct Hz as [Hz|Hz]; [lia|]). destruct Hz.
  - unfold to_decimal. rewrite find_decimal_none; [lia|]. unfold decimal_zeros. repeat (apply Forall_cons; [lia|]). apply Forall_nil.
Qed.

(** A token with a character above U+007F that is neither whitespace nor
    a decimal digit (a byte order mark, a letter, an escaped byte) makes
    [int] raise [ValueError]. *)
Lemma py_int_bad_char (maxd : nat) (tok : list Z) (c : Z) :
  In c tok -> 128 <= c -> isspace c = false -> to_decimal c < 0 ->
  exists e, py_int maxd tok = Err e.
Proof.
  intros Hin Hc Hs Hd. unfold py_int.
  destruct (PyInt.py_int maxd (string_of_codes (transform_decimal_and_space tok))) as [z|e] eqn:H.
  - exfalso. apply PyInt.py_int_Ok_chars in H.
    apply (string_of_codes_question _ _ (transform_bad tok c Hin Hc Hs Hd)) in H. discriminate H.
  - destruct e; eexists; reflexivity.
Qed.

(** A token whose first code point is above U+007F, neither whitespace
    nor a decimal digit, is cut to ["?"] by the transformation, so [int]
    raises [ValueError] with the whole token. *)
Lemma py_int_lead_bad (maxd : nat) (c : Z) (w : list Z) :
  128 <= c -> isspace c = false -> to_decimal c < 0 ->
  py_int maxd (c :: w) = Err (ValueErrorLiteral (c :: w)).
Proof.
  intros Hc Hs Hd. unfold py_int, transform_decimal_and_space.
  replace (is_ascii (c :: w)) with false
    by (cbn [is_ascii forallb]; rewrite (proj2 (Z.ltb_ge c 128)) by lia; reflexivity).
  cbn [transform_loop]. rewrite (proj2 (Z.ltb_ge c 127)), Hs, (proj2 (Z.ltb_lt _ 0)) by lia.
  destruct maxd; reflexivity.
Qed.

(** A token starts at a code point that is not whitespace. *)
Lemma split_cons_nonspace (c : Z) (s : list Z) :
  isspace c = false -> exists w ws, split (c :: s) = (c :: w) :: ws.
Proof.
  intros H. unfold split. cbn [split_aux]. destruct (split_aux s) as [w ws].
  rewrite H. exists w, ws. reflexivity.
Qed.

(** ** Properties of [int] on code points *)

(** C14 (functional): [int] reads a token of decimal digits of any script
    ([Py_UNICODE_TODECIMAL]) as the number they write, digit limit
    included. *)
Theorem py_int_decimal (maxd : nat) (tok : list Z) :
  Forall decimal tok -> tok <> [] ->
  py_int maxd tok =
    if PyInt.exceeds maxd (List.length tok) then Err (ValueErrorIntDigits maxd (List.length tok))
    else Ok (PyInt.digits_value (map to_decimal tok)).
Proof.
  intros Hd Hne. unfold py_int. rewrite transform_decimal by exact Hd.
  rewrite PyInt.py_int_digit_string, length_map.
  - destruct (PyInt.exceeds maxd (List.length tok)); reflexivity.
  - apply Forall_map. apply (Forall_impl _ (fun c Hc => conj Hc (to_decimal_range c Hc)) Hd).
  - destruct tok; [congruence | discriminate].
Qed.

(** C17 (refinement): [readlines] is specified by its result alone: the
    lines of [s] are the only list of lines whose concatenation is [s],
    in which a line feed is only the last code point of a line, every
    line but the last ends with one, and no line is empty. *)
Theorem readlines_spec (s : list Z) (ls : list (list Z)) :
  readlines s = ls <-> List.concat ls = s /\ lines_ok ls = true.
Proof.
  split.
  - intros <-. split; [apply readlines_concat_u | apply readlines_lines_ok].
  - intros [<- H]. apply readlines_concat_lines_ok, H.
Qed.

(** ** Witnesses *)

(** [int("\u0661\u0662")] (ARABIC-INDIC DIGIT ONE, TWO) is [12]. *)
Lemma py_int_decimal_witness :
  Forall decimal [0x661; 0x662] /\ [0x661; 0x662] <> [] /\
  py_int 4300 [0x661; 0x662] = Ok 12.
Proof.
  assert (Hd : Forall decimal [0x661; 0x662]) by (repeat constructor; vm_compute; discriminate).
  split; [exact Hd | split; [discriminate|]].
  rewrite (py_int_decimal 4300 _ Hd ltac:(discriminate)). vm_compute. reflexivity.
Defined.

End UText.
