(* ===== verification/Stdin.v ===== *)
(** * Reading standard input by chunks: the incremental UTF-8 decoder

    [sys.stdin.readlines()] (src/solution.py, line 61) does not decode the
    input at once: the [TextIOWrapper] of [sys.stdin] reads chunks of bytes
    ([buffer.read1], at most [_CHUNK_SIZE] bytes, fewer from a pipe) and
    feeds each to the incremental decoder of the codec,
    [encodings.utf_8.IncrementalDecoder], a [BufferedIncrementalDecoder]:
    its state is the bytes [buffer] kept from the previous call, and
    [decode(input, final)] decodes [buffer + input] with
    [codecs.utf_8_decode(data, errors, final)] and keeps the bytes it did
    not consume.  With [final = False] the C decoder stops, without error,
    at a sequence that the end of the data cuts ([case 0] of
    [unicode_decode_utf8] with [consumed]), and at a cut [ED A0..BF] (its
    [case 2]); at the end of the input, [decode(b"", True)] decodes what is
    left.
    - [decode_partial] is [utf_8_decode] with [final = False]: the code
      points and the bytes left;
    - [reader] is the state of the [TextIOWrapper] between two reads (the
      decoder's buffer and the text decoded so far), [feed] one read,
      [read_chunks] the reads of a list of chunks up to the end of the
      input.
    The theorems show that the text does not depend on how the input is
    cut into chunks, and that the decoder never keeps more than 3 bytes. *)

From Stdlib Require Import List ZArith Lia Bool Strings.Byte.
From S2P Require Import Prelude Utf8.
Import ListNotations.
Local Open Scope Z_scope.
Local Open Scope py_scope.

Module Stdin.

Import Utf8.

(** [case 2] with [consumed]: [ED] and one byte of [A0..BF] at the end of
    the data may be the start of a surrogate; it is kept. *)
Definition truncated_surrogate (ch : Z) (rest : list Z) : bool :=
  (ch =? 0xED) &&
  match rest with
  | [ch2] => (0xA0 <=? ch2) && (ch2 <=? 0xBF)
  | _ => false
  end.

(** The error handler when decoding goes on after the range. *)
Definition on_error_partial (errors : errors_mode) (reason : decode_reason) (bad : list Z)
    (k : result (list Z * list Z)) : result (list Z * list Z) :=
  match errors with
  | Strict => Err (UnicodeDecodeError reason)
  | SurrogateEscape => (fun '(cps, tail) => (escape bad ++ cps, tail)) <$> k
  end.

(** [codecs.utf_8_decode(data, errors, False)]: the code points and the
    bytes not consumed. *)
Fixpoint decode_partial (errors : errors_mode) (fuel : nat) (bs : list Z)
    : result (list Z * list Z) :=
  match fuel, bs with
  | _, [] => Ok ([], [])
  | O, _ :: _ => Ok ([], bs)
  | S f, ch :: rest =>
      match decode_one ch rest with
      | DChar cp n =>
          (fun '(cps, tail) => (cp :: cps, tail)) <$> decode_partial errors f (skipn (pred n) rest)
      | DEnd => Ok ([], bs)
      | DInvalidStart => on_error_partial errors InvalidStartByte [ch] (decode_partial errors f rest)
      | DInvalidCont n =>
          if truncated_surrogate ch rest then Ok ([], bs)
          else
            on_error_partial errors InvalidContinuationByte (firstn n bs)
              (decode_partial errors f (skipn (pred n) rest))
      end
  end.

(** The state of the reader between two reads. *)
Record reader := Reader {
  pending : list Z;   (* [IncrementalDecoder.buffer] *)
  decoded : list Z    (* the text decoded so far *)
}.

(** One read: [decoder.decode(input_chunk, False)]. *)
Definition feed (errors : errors_mode) (st : reader) (chunk : list Z) : result reader :=
  let data := pending st ++ chunk in
  match decode_partial errors (length data) data with
  | Ok (cps, tail) => Ok (Reader tail (decoded st ++ cps))
  | Err e => Err e
  end.

(** The last read, at the end of the input: [decoder.decode(b"", True)]. *)
Definition finish_read (errors : errors_mode) (st : reader) : result (list Z) :=
  (fun cps => decoded st ++ cps) <$> decode_z errors (pending st).

(** The reads of the chunks of the input, in order, then the end. *)
Fixpoint read_chunks (errors : errors_mode) (st : reader) (chunks : list (list Z)) : result (list Z) :=
  match chunks with
  | [] => finish_read errors st
  | c :: cs =>
      match feed errors st c with
      | Ok st' => read_chunks errors st' cs
      | Err e => Err e
      end
  end.

(** ** Lemmas *)

(** A step of the decoder that is not cut by the end of the data does not
    change when more bytes follow. *)
Lemma decode_one_app (ch : Z) (rest more : list Z) :
  decode_one ch rest <> DEnd -> truncated_surrogate ch rest = false ->
  decode_one ch (rest ++ more) = decode_one ch rest.
Proof.
  unfold truncated_surrogate, decode_one.
  destruct rest as [|ch2 [|ch3 [|ch4 rest]]]; destruct more as [|m1 [|m2 [|m3 more]]];
    cbn [app]; unfold is_cont.
  all: split_goal_tests.
  all: intros Hd Ht; split_all_tests.
  all: first [reflexivity | congruence | exfalso; lia].
Qed.

(** The bytes a decoded character or an error range takes are there. *)
Lemma decode_one_len (ch : Z) (rest : list Z) :
  match decode_one ch rest with
  | DChar _ n | DInvalidCont n => (1 <= n <= length (ch :: rest))%nat
  | _ => True
  end.
Proof.
  unfold decode_one. destruct rest as [|ch2 [|ch3 [|ch4 rest]]]; cbn [length].
  all: split_goal_tests.
  all: cbn [length]; lia.
Qed.

Lemma fmap_nil_app (m : result (list Z)) : (fun r => [] ++ r) <$> m = m.
Proof. destruct m; reflexivity. Qed.

Lemma decode_z_cons (errors : errors_mode) (ch : Z) (rest : list Z) :
  decode_z errors (ch :: rest) =
    match decode_one ch rest with
    | DChar cp n => (fun cps => cp :: cps) <$> decode_z errors (skipn (pred n) rest)
    | DEnd => on_error errors UnexpectedEndOfData (ch :: rest) (Ok [])
    | DInvalidStart => on_error errors InvalidStartByte [ch] (decode_z errors rest)
    | DInvalidCont n =>
        on_error errors InvalidContinuationByte (firstn n (ch :: rest)) (decode_z errors (skipn (pred n) rest))
    end.
Proof.
  unfold decode_z at 1. cbn [length decode_fuel].
  destruct (decode_one ch rest); rewrite ?decode_fuel_enough; try reflexivity;
    rewrite ?length_skipn; lia.
Qed.

Lemma skipn_app_le {A : Type} (n : nat) (l m : list A) :
  (n <= length l)%nat -> skipn n (l ++ m) = skipn n l ++ m.
Proof. intros H. rewrite skipn_app. replace (n - length l)%nat with 0%nat by lia. reflexivity. Qed.

Lemma firstn_app_le {A : Type} (n : nat) (l m : list A) :
  (n <= length l)%nat -> firstn n (l ++ m) = firstn n l.
Proof. intros H. rewrite firstn_app. replace (n - length l)%nat with 0%nat by lia. apply app_nil_r. Qed.

(** What [decode_partial] leaves, decoded after more bytes, completes
    what it decoded. *)
Definition resume (errors : errors_mode) (more : list Z) (r : result (list Z * list Z)) : result (list Z) :=
  match r with
  | Ok (cps, tail) => (fun rs => cps ++ rs) <$> decode_z errors (tail ++ more)
  | Err e => Err e
  end.

Lemma resume_error (errors : errors_mode) (reason : decode_reason) (bad more : list Z)
    (m : result (list Z)) (k : result (list Z * list Z)) :
  m = resume errors more k ->
  on_error errors reason bad m = resume errors more (on_error_partial errors reason bad k).
Proof.
  destruct errors; [reflexivity|]. intros ->. destruct k as [[cps tail]|e]; [|reflexivity].
  cbn. destruct (decode_z _ _); cbn; rewrite ?app_assoc; reflexivity.
Qed.

Lemma resume_char (errors : errors_mode) (cp : Z) (more : list Z)
    (m : result (list Z)) (k : result (list Z * list Z)) :
  m = resume errors more k ->
  (fun cps => cp :: cps) <$> m = resume errors more ((fun '(cps, tail) => (cp :: cps, tail)) <$> k).
Proof.
  intros ->. destruct k as [[cps tail]|e]; [|reflexivity].
  cbn. destruct (decode_z _ _); reflexivity.
Qed.

Lemma truncated_surrogate_step (ch : Z) (rest : list Z) :
  truncated_surrogate ch rest = true -> decode_one ch rest = DInvalidCont 1.
Proof.
  unfold truncated_surrogate. destruct rest as [|ch2 [|ch3 rest]]; intros H; zbool; try discriminate.
  unfold decode_one, is_cont. decide_tests_with lia. reflexivity.
Qed.

(** Decoding a prefix without [final], then what it kept followed by the
    rest of the input, decodes the whole input. *)
Lemma decode_partial_app (errors : errors_mode) (fuel : nat) (bs more : list Z) :
  (length bs <= fuel)%nat ->
  decode_z errors (bs ++ more) = resume errors more (decode_partial errors fuel bs).
Proof.
  revert bs. induction fuel as [|fuel IH]; intros [|ch rest] Hl; cbn [length] in Hl; try lia;
    try (cbn; rewrite fmap_nil_app; reflexivity).
  cbn [decode_partial]. pose proof (decode_one_len ch rest) as Hlen.
  assert (Hnt : forall d, decode_one ch rest = d -> d <> DInvalidCont 1 -> truncated_surrogate ch rest = false).
  { intros d Hd Hn. apply not_true_iff_false. intros Ht. apply Hn. rewrite <- Hd. apply truncated_surrogate_step, Ht. }
  destruct (decode_one ch rest) as [cp n| | |n] eqn:Hd.
  - cbn [app]. rewrite decode_z_cons, decode_one_app, Hd by first [rewrite Hd; discriminate | apply (Hnt _ eq_refl); discriminate].
    rewrite skipn_app_le by (cbn [length] in *; lia). apply resume_char, IH. rewrite length_skipn. lia.
  - cbn. rewrite fmap_nil_app. reflexivity.
  - cbn [app]. rewrite decode_z_cons, decode_one_app, Hd by first [rewrite Hd; discriminate | apply (Hnt _ eq_refl); discriminate].
    apply resume_error, IH. lia.
  - destruct (truncated_surrogate ch rest) eqn:Ht; [cbn; rewrite fmap_nil_app; reflexivity|].
    cbn [app]. rewrite decode_z_cons, decode_one_app, Hd by first [rewrite Hd; discriminate | exact Ht].
    change (ch :: rest ++ more) with ((ch :: rest) ++ more).
    rewrite firstn_app_le, skipn_app_le by (cbn [length] in *; lia).
    apply resume_error, IH. rewrite length_skipn. lia.
Qed.

(** A step cut by the end of the data has at most 3 bytes. *)
Lemma decode_one_end_len (ch : Z) (rest : list Z) :
  decode_one ch rest = DEnd -> (length rest <= 2)%nat.
Proof.
  unfold decode_one. destruct rest as [|ch2 [|ch3 [|ch4 rest]]]; cbn [length].
  all: split_goal_tests.
  all: intros Hend; first [lia | discriminate].
Qed.

Lemma truncated_surrogate_len (ch : Z) (rest : list Z) :
  truncated_surrogate ch rest = true -> length rest = 1%nat.
Proof.
  unfold truncated_surrogate. destruct rest as [|ch2 [|ch3 rest]]; rewrite ?andb_false_r;
    intros H; first [discriminate | reflexivity].
Qed.

(** Take the result of a recursive call out of the continuation of a
    step. *)
Ltac inv_partial H :=
  match type of H with
  | context [decode_partial ?e ?f ?b] =>
      let c := fresh "c" in let t := fresh "t" in let E := fresh "E" in
      destruct (decode_partial e f b) as [[c t]|?] eqn:E; cbn in H;
      [injection H as <- <- | discriminate]
  end.

(** What [decode_partial] keeps is at most 3 bytes, and it decodes
    something unless it keeps all the data. *)
Lemma decode_partial_Ok (errors : errors_mode) (fuel : nat) (bs cps tail : list Z) :
  (length bs <= fuel)%nat -> decode_partial errors fuel bs = Ok (cps, tail) ->
  (length tail <= 3)%nat /\ (cps = [] -> tail = bs).
Proof.
  revert bs cps. induction fuel as [|fuel IH]; intros [|ch rest] cps Hl H; cbn [length] in Hl;
    try lia; cbn [decode_partial] in H; try (injection H as <- <-; cbn; split; [lia | reflexivity]).
  pose proof (decode_one_len ch rest) as Hlen.
  destruct (decode_one ch rest) as [cp n| | |n] eqn:Hd.
  - inv_partial H. split; [|discriminate]. eapply proj1, IH; [|exact E]. rewrite length_skipn. cbn [length] in *. lia.
  - injection H as <- <-. apply decode_one_end_len in Hd. cbn [length]. split; [lia | reflexivity].
  - destruct errors; [discriminate|]. cbn [on_error_partial] in H. inv_partial H.
    split; [|discriminate]. eapply proj1, IH; [|exact E]. lia.
  - destruct (truncated_surrogate ch rest) eqn:Ht.
    + injection H as <- <-. apply truncated_surrogate_len in Ht. cbn [length]. split; [lia | reflexivity].
    + destruct errors; [discriminate|]. cbn [on_error_partial] in H. inv_partial H.
      split; [eapply proj1, IH; [|exact E]; rewrite length_skipn; cbn [length] in *; lia|].
      cbn [length] in Hlen. destruct n as [|n]; [lia|]. discriminate.
Qed.

(** The reads of the chunks decode the bytes kept and the chunks at
    once, after the text decoded so far. *)
Lemma read_chunks_concat (errors : errors_mode) (p t : list Z) (cs : list (list Z)) :
  read_chunks errors (Reader p t) cs = (fun r => t ++ r) <$> decode_z errors (p ++ concat cs).
Proof.
  revert p t. induction cs as [|c cs IH]; intros p t; cbn [read_chunks concat].
  - rewrite app_nil_r. reflexivity.
  - unfold feed. cbn [pending decoded]. rewrite app_assoc, (decode_partial_app errors _ _ _ (le_n _)).
    destruct (decode_partial _ _ _) as [[cps tail]|e]; [|reflexivity].
    cbn [resume]. rewrite IH. destruct (decode_z _ _); cbn; rewrite ?app_assoc; reflexivity.
Qed.

(** ** Theorems *)

(** C16 (refinement): how the input is cut into chunks does not change what is read: the
    reads of the chunks from the initial state decode, error included,
    as [bytes.decode] does on the whole input. *)
Theorem read_chunks_decode (errors : errors_mode) (chunks : list (list byte)) :
  read_chunks errors (Reader [] []) (map (map byte_value) chunks) = decode errors (concat chunks).
Proof.
  rewrite read_chunks_concat. unfold decode. rewrite concat_map. apply fmap_nil_app.
Qed.

(** C18 (bounds): the decoder never keeps more than 3 bytes between two reads, however
    long the chunk is. *)
Theorem feed_pending_bound (errors : errors_mode) (st : reader) (chunk : list Z) (st' : reader) :
  feed errors st chunk = Ok st' -> (length (pending st') <= 3)%nat.
Proof.
  unfold feed. destruct (decode_partial _ _ _) as [[cps tail]|e] eqn:E; [|discriminate].
  intros [= <-]. exact (proj1 (decode_partial_Ok _ _ _ _ _ (le_n _) E)).
Qed.

Lemma feed_pending_bound_witness :
  feed Strict (Reader [] []) [0x31; 0xE2; 0x82] = Ok (Reader [0xE2; 0x82] [0x31]) /\
  (length (pending (Reader [0xE2; 0x82]%Z [0x31]%Z)) <= 3)%nat.
Proof.
  split; [vm_compute; reflexivity|].
  apply (feed_pending_bound Strict (Reader [] []) [0x31; 0xE2; 0x82]). vm_compute. reflexivity.
Defined.

(** C19 (liveness): a read that leaves the decoder 4 bytes or more always decodes at
    least one more character: the reader cannot stall. *)
Theorem feed_progress (errors : errors_mode) (st : reader) (chunk : list Z) (st' : reader) :
  feed errors st chunk = Ok st' -> (4 <= length (pending st ++ chunk))%nat ->
  (length (decoded st) < length (decoded st'))%nat.
Proof.
  unfold feed. destruct (decode_partial _ _ _) as [[cps tail]|e] eqn:E; [|discriminate].
  intros [= <-] H4. cbn [decoded]. rewrite length_app.
  destruct (decode_partial_Ok _ _ _ _ _ (le_n _) E) as [Ht Hc].
  destruct cps as [|c cps]; cbn [length]; [|lia].
  rewrite (Hc eq_refl) in Ht. lia.
Qed.

Lemma feed_progress_witness :
  feed Strict (Reader [] []) [0x31; 0x32; 0xE2; 0x82] = Ok (Reader [0xE2; 0x82] [0x31; 0x32]) /\
  (4 <= length (pending (Reader [] []) ++ [0x31; 0x32; 0xE2; 0x82]%Z))%nat /\
  (length (decoded (Reader [] [])) < length (decoded (Reader [0xE2; 0x82]%Z [0x31; 0x32]%Z)))%nat.
Proof.
  split; [vm_compute; reflexivity|]. split; [vm_compute; lia|].
  apply (feed_progress Strict (Reader [] []) [0x31; 0x32; 0xE2; 0x82]); vm_compute; [reflexivity | lia].
Defined.

End Stdin.
