(* ===== verification/Counter.v ===== *)
(** * The report counter: [count_safe_reports] (src/solution.py, lines 32-54)

    The Python function is a [for] loop over the lines with one piece of
    state, the accumulator [safe_count], and an exception that can end it:
    - [count_step] is one iteration: [line.strip()], [continue] on a blank
      line, [list(map(int, stripped.split()))] (which raises on the first
      bad token), and [safe_count += 1] when [is_safe] accepts the report;
    - [count_loop] threads the accumulator through the iterations in the
      [result] monad, so an exception stops the loop and is the result;
    - [count_safe_reports] starts the loop at 0 and returns its final
      accumulator.
    The loop is written once for any type of text with an instance of
    [Text.PyText]: [Text.strip], [Text.is_empty], [Text.split] and
    [Text.to_int maxd] are [line.strip()], [not stripped],
    [stripped.split()] and [int], where [maxd] is the interpreter's
    [int_max_str_digits]; the text type, its instance and [maxd] are the
    [Context] of the section.  The real program runs it on the code points
    of [UText]; the ASCII model of [AsciiText] is used for the concrete
    runs below.

    The specification [reports] is what the spec describes: the list of the
    reports of the non-blank lines, in order (or the first exception), and
    the refinement theorem says the loop returns the number of safe reports
    of that list, MathComp's [count Safety.is_safe].

    The loop is also given as a transition system on [loop_state] (the
    lines still to read and [safe_count]): [loop_step] consumes one line,
    [reachable] is its reflexive-transitive closure from a start state and
    [loop_run] a complete run; they agree with [count_loop].  Section
    [Laws] proves the refinement that needs the laws of [str], and section
    [Transport] moves the count along a [Text.text_morphism]. *)

From Stdlib Require Import String ZArith Permutation.
From mathcomp Require Import ssreflect ssrfun ssrbool eqtype ssrnat seq.
From S2P Require Import Prelude Text PyStr PyInt AsciiText Safety.
Local Open Scope py_scope.

#[local] Set Warnings "-rewrite-rw".

Module Counter.

Section Loop.

Context {text : Type} {text_ops : Text.PyText text} (maxd : nat).

(** [levels = list(map(int, stripped.split()))] *)
Definition parse_levels (stripped : text) : result (seq Z) :=
  list_map (Text.to_int maxd) (Text.split stripped).

(** One iteration of [for line in lines:] with the accumulator before it. *)
Definition count_step (safe_count : nat) (line : text) : result nat :=
  let stripped := Text.strip line in
  if Text.is_empty stripped then Ok safe_count
  else
    levels <- parse_levels stripped ;;
    Ok (if Safety.is_safe levels then safe_count + 1 else safe_count).

Fixpoint count_loop (safe_count : nat) (lines : seq text) : result nat :=
  match lines with
  | [::] => Ok safe_count
  | line :: rest =>
      safe_count' <- count_step safe_count line ;;
      count_loop safe_count' rest
  end.

Definition count_safe_reports (lines : seq text) : result nat :=
  count_loop 0 lines.

(** ** Specification: the reports of the non-blank lines *)

Definition blank (line : text) : bool := Text.is_empty (Text.strip line).

Fixpoint reports (lines : seq text) : result (seq (seq Z)) :=
  match lines with
  | [::] => Ok [::]
  | line :: rest =>
      if blank line then reports rest
      else
        levels <- parse_levels (Text.strip line) ;;
        rs <- reports rest ;;
        Ok (levels :: rs)
  end.

(** ** The loop as a state machine

    The state of the [for] loop between two iterations is the lines still
    to read and the accumulator [safe_count]; an iteration either moves to
    the next state or raises. *)

Record loop_state := LoopState { remaining : seq text; safe_count : nat }.

Inductive loop_step : loop_state -> result loop_state -> Prop :=
| LoopNext (line : text) (rest : seq text) (n n' : nat) :
    count_step n line = Ok n' ->
    loop_step (LoopState (line :: rest) n) (Ok (LoopState rest n'))
| LoopRaise (line : text) (rest : seq text) (n : nat) (e : py_exc) :
    count_step n line = Err e ->
    loop_step (LoopState (line :: rest) n) (Err e).

(** The states the loop reaches from [s0] without raising. *)
Inductive reachable (s0 : loop_state) : loop_state -> Prop :=
| reach_refl : reachable s0 s0
| reach_step (s s' : loop_state) : reachable s0 s -> loop_step s (Ok s') -> reachable s0 s'.

(** A complete run from a state: the final accumulator, or the exception. *)
Inductive loop_run : loop_state -> result nat -> Prop :=
| run_done (n : nat) : loop_run (LoopState [::] n) (Ok n)
| run_next (s s' : loop_state) (r : result nat) :
    loop_step s (Ok s') -> loop_run s' r -> loop_run s r
| run_raise (s : loop_state) (e : py_exc) : loop_step s (Err e) -> loop_run s (Err e).

(** ** Lemmas *)

Lemma size_length {A : Type} (s : seq A) : size s = List.length s.
Proof. by elim: s => //= x s ->. Qed.

Lemma count_loop_reports (acc : nat) (lines : seq text) :
  count_loop acc lines = (rs <- reports lines ;; Ok (acc + count Safety.is_safe rs)).
Proof.
  elim: lines acc => [|line rest IH] acc /=; first by rewrite addn0.
  rewrite /count_step /blank. case: (Text.is_empty _) => /=; first exact: IH.
  case: (parse_levels _) => [levels|e] //=. rewrite IH.
  case: (reports rest) => [rs|e] //=.
  by case: (Safety.is_safe levels); rewrite /= ?add0n ?addnA.
Qed.

Lemma reports_cat (l1 l2 : seq text) :
  reports (l1 ++ l2) = (r1 <- reports l1 ;; r2 <- reports l2 ;; Ok (r1 ++ r2)).
Proof.
  elim: l1 => [|line rest IH] /=; first by case: (reports l2).
  case: (blank line); first exact: IH.
  case: (parse_levels _) => [levels|e] //=. rewrite IH.
  case: (reports rest) => [r1|e] //=. by case: (reports l2).
Qed.

Lemma reports_filter (lines : seq text) :
  reports lines =
    list_map (fun line => parse_levels (Text.strip line)) (filter (fun l => ~~ blank l) lines).
Proof.
  elim: lines => [|line rest IH] //=.
  case: (blank line) => //=. by rewrite IH.
Qed.

Lemma count_Permutation {A : Type} (p : pred A) (s1 s2 : seq A) :
  Permutation s1 s2 -> count p s1 = count p s2.
Proof.
  elim=> [|x l l' _ IH|y x l|l l' l'' _ IH1 _ IH2] //=.
  - by rewrite IH.
  - by rewrite addnCA.
  - by rewrite IH1.
Qed.

(** The count is at most the number of lines (in Stdlib's order). *)
Lemma count_safe_reports_le_length (lines : seq text) (n : nat) :
  count_safe_reports lines = Ok n -> (n <= List.length lines)%coq_nat.
Proof.
  rewrite /count_safe_reports count_loop_reports reports_filter.
  case Hr: (list_map _ _) => [rs|e] //= [<-]. apply/leP.
  apply: leq_trans (count_size _ _) _.
  rewrite size_length (list_map_length _ _ _ Hr) -size_length size_filter -size_length.
  exact: count_size.
Qed.

(** A token on which [int] raises, on a non-blank line, makes the counter
    raise. *)
Lemma count_safe_reports_Err_of_token (lines : seq text) (line tok : text) (e0 : py_exc) :
  List.In line lines -> ~~ blank line ->
  List.In tok (Text.split (Text.strip line)) -> Text.to_int maxd tok = Err e0 ->
  exists e, count_safe_reports lines = Err e.
Proof.
  move=> Hl Hb Ht He0.
  have [e1 He1] : exists e, parse_levels (Text.strip line) = Err e
    by apply: list_map_In_Err Ht He0.
  have Hf : List.In line (filter (fun l => ~~ blank l) lines) by apply/List.filter_In.
  have [e He] := list_map_In_Err (fun l => parse_levels (Text.strip l)) _ _ _ Hf He1.
  exists e. by rewrite /count_safe_reports count_loop_reports reports_filter He.
Qed.

(** An iteration adds 0 or 1 to the accumulator. *)
Lemma count_step_incr (n n' : nat) (line : text) :
  count_step n line = Ok n' -> n <= n' <= n + 1.
Proof.
  rewrite /count_step. case: (Text.is_empty _) => [[<-]|]; first by rewrite leqnn leq_addr.
  case: (parse_levels _) => [levels|e] //= [<-].
  by case: (Safety.is_safe levels); rewrite ?leq_addr ?leqnn.
Qed.

(** ** Properties of the counter *)

(** C2 (refinement): [count_safe_reports] returns the number of safe
    reports among the reports of the non-blank lines, or the exception the
    first malformed line raises. *)
Theorem count_safe_reports_spec (lines : seq text) :
  count_safe_reports lines = (rs <- reports lines ;; Ok (count Safety.is_safe rs)).
Proof. rewrite /count_safe_reports count_loop_reports. by case: (reports lines). Qed.

(** C20 (functional): counting the concatenation of two inputs adds the
    counts, and an exception in the first input wins. *)
Theorem count_safe_reports_cat (l1 l2 : seq text) :
  count_safe_reports (l1 ++ l2) =
    (n1 <- count_safe_reports l1 ;; n2 <- count_safe_reports l2 ;; Ok (n1 + n2)).
Proof.
  rewrite /count_safe_reports !count_loop_reports reports_cat.
  case: (reports l1) => [r1|e] //=. case: (reports l2) => [r2|e] //=.
  by rewrite count_cat.
Qed.

(** C8 (invariant): inserting a blank (empty or whitespace-only) line
    anywhere in the input changes nothing. *)
Theorem count_safe_reports_blank (l1 l2 : seq text) (line : text) :
  blank line -> count_safe_reports (l1 ++ line :: l2) = count_safe_reports (l1 ++ l2).
Proof.
  move=> Hb. rewrite /count_safe_reports !count_loop_reports !reports_cat /=.
  by rewrite Hb.
Qed.

(** C21 (bounds): the count never exceeds the number of non-blank lines,
    hence the number of lines. *)
Theorem count_safe_reports_bound (lines : seq text) (n : nat) :
  count_safe_reports lines = Ok n -> n <= count (fun l => ~~ blank l) lines <= size lines.
Proof.
  rewrite count_safe_reports_spec reports_filter.
  case Hr: (list_map _ _) => [rs|e] //= [<-].
  rewrite count_size andbT. apply: leq_trans (count_size _ _) _.
  by rewrite -size_filter size_length (list_map_length _ _ _ Hr) -size_length.
Qed.

(** C3 (error): the counter raises exactly when some non-blank line fails
    to parse, and the exception is the one of the first such line: the
    lines before it parse. *)
Theorem count_safe_reports_error (lines : seq text) (e : py_exc) :
  count_safe_reports lines = Err e <->
  exists pre line post, lines = pre ++ line :: post /\
    (exists rs, reports pre = Ok rs) /\ ~~ blank line /\
    parse_levels (Text.strip line) = Err e.
Proof.
  rewrite count_safe_reports_spec. split.
  - elim: lines => [|l rest IH] //=. case Hb: (blank l).
    + move/IH => [pre [line [post [-> [Hpre Hl]]]]].
      exists (l :: pre), line, post. by rewrite /= Hb.
    + case Hp: (parse_levels _) => [levels|e'] /=.
      * case Hr: (reports rest) => [rs|e'] //= [He']. subst e'.
        have [pre [line [post [-> [Hpre Hl]]]]] : exists pre line post,
            rest = pre ++ line :: post /\ (exists rs, reports pre = Ok rs) /\
            ~~ blank line /\ parse_levels (Text.strip line) = Err e
          by apply: IH; rewrite Hr.
        exists (l :: pre), line, post. split=> //. split=> //.
        case: Hpre => rs' Hrs'. exists (levels :: rs'). by rewrite /= Hb Hp Hrs'.
      * move=> [<-]. exists [::], l, rest. split=> //. split; first by exists [::].
        by rewrite Hb.
  - move=> [pre [line [post [-> [[rs Hpre] [Hb Hl]]]]]].
    rewrite reports_cat Hpre /=. move: Hb; rewrite /=. by case: (blank line) => //= _; rewrite Hl.
Qed.

(** C23 (error): an exception of the counter is the [ValueError] of [int]
    on one token of one non-blank line of the input. *)
Theorem count_safe_reports_error_token (lines : seq text) (e : py_exc) :
  count_safe_reports lines = Err e ->
  exists line tok, List.In line lines /\ List.In tok (Text.split (Text.strip line)) /\
    Text.to_int maxd tok = Err e.
Proof.
  rewrite count_safe_reports_spec reports_filter.
  case Hr: (list_map _ _) => [rs|e'] //= [<-].
  move/list_map_Err_iff: Hr => [pre [line [post [Heq [_ Hl]]]]].
  move/list_map_Err_iff: Hl => [tp [tok [ts [Htoks [_ Htok]]]]].
  exists line, tok. split; last split; last exact: Htok.
  - have : List.In line (filter (fun l => ~~ blank l) lines)
      by rewrite Heq; apply: List.in_or_app; right; left.
    by move/List.filter_In => [].
  - rewrite Htoks. apply: List.in_or_app. right. by left.
Qed.

(** C22 (invariant): the lines of an input that is counted without an
    exception can be given in any order: the count is the same. *)
Theorem count_safe_reports_perm (l1 l2 : seq text) (n : nat) :
  Permutation l1 l2 -> count_safe_reports l1 = Ok n -> count_safe_reports l2 = Ok n.
Proof.
  move=> Hp. rewrite /count_safe_reports !count_loop_reports !reports_filter.
  case H1: (list_map _ _) => [rs|e] //= [<-].
  have [rs' [H2 Hrs]] := list_map_Permutation _ _ _ _ (Permutation_filter_bool _ _ _ Hp) H1.
  have H2' : list_map (fun line => parse_levels (Text.strip line))
               (filter (fun l => ~~ blank l) l2) = Ok rs' by exact: H2.
  by rewrite H2' /= (count_Permutation _ _ _ Hrs).
Qed.

(** C24 (invariant): in every state the loop reaches from the start, the
    accumulator is at most the number of lines already read. *)
Theorem loop_reachable_bound (lines : seq text) (s : loop_state) :
  reachable (LoopState lines 0) s -> safe_count s + size (remaining s) <= size lines.
Proof.
  elim=> [|s1 s2 _ IH Hstep] /=; first by rewrite add0n.
  inversion Hstep as [line rest n n' Hn E1 E2|]; subst; move: IH => /= IH.
  apply: leq_trans IH. move/count_step_incr: Hn => /andP [_ Hn'].
  rewrite addnS -addn1 addnAC. exact: leq_add.
Qed.

(** The step relation and [count_loop] agree: a run
    from a state ends in [r] exactly when [count_loop] returns [r]. *)
Theorem loop_run_iff (lines : seq text) (n : nat) (r : result nat) :
  loop_run (LoopState lines n) r <-> count_loop n lines = r.
Proof.
  split.
  - move Hs: (LoopState lines n) => s H. elim: H lines n Hs => [m|s1 s2 r' Hstep _ IH|s1 e Hstep] lines n Hs.
    + case: Hs => Hl Hm. by subst.
    + subst s1. inversion Hstep as [line rest m m' Hm|]; subst.
      rewrite /= Hm /=. exact: (IH _ _ erefl).
    + subst s1. inversion Hstep as [|line rest m e' Hm]; subst.
      by rewrite /= Hm.
  - elim: lines n => [|line rest IH] n /=; first by move=> <-; exact: run_done.
    case Hn: (count_step n line) => [n'|e] /=.
    + move=> Hr. apply: run_next; first exact: (LoopNext _ _ _ _ Hn).
      exact: IH.
    + move=> <-. apply: run_raise. exact: LoopRaise.
Qed.

(** ** The counter on an instance that satisfies the laws of [str] *)

Section Laws.
Context {laws : Text.PyTextLaws text}.

Lemma blank_iff_no_tokens (line : text) : blank line = nilp (Text.split line).
Proof.
  rewrite /blank. case Hs: (Text.split line) => [|t ts] /=.
  - by apply/Text.empty_strip_iff.
  - by apply/negbTE/negP => /Text.empty_strip_iff; rewrite Hs.
Qed.

(** C13 (refinement): with the laws of [str], the counter returns the
    number of safe reports among the lines that have a token, each report
    being [int] of the tokens of the raw line: the [strip] and the blank
    test only skip the lines without tokens. *)
Theorem count_safe_reports_tokens (lines : seq text) :
  count_safe_reports lines =
    (rs <- list_map (fun l => list_map (Text.to_int maxd) (Text.split l))
                    (filter (fun l => ~~ nilp (Text.split l)) lines) ;;
     Ok (count Safety.is_safe rs)).
Proof.
  rewrite /count_safe_reports count_loop_reports reports_filter.
  have -> : filter (fun l => ~~ blank l) lines = filter (fun l => ~~ nilp (Text.split l)) lines.
    by apply: eq_filter => l; rewrite blank_iff_no_tokens.
  rewrite (list_map_ext_in (fun line => parse_levels (Text.strip line))
             (fun l => list_map (Text.to_int maxd) (Text.split l))).
  - by move=> l _; rewrite /parse_levels Text.split_strip.
  - by case: (list_map (fun l => list_map (Text.to_int maxd) (Text.split l)) _).
Qed.

End Laws.

End Loop.

(** ** Transport along a morphism of text instances *)

Section Transport.
Context {A B : Type} {TA : Text.PyText A} {TB : Text.PyText B}.
Context (P : A -> Prop) (f : A -> B) (Hf : Text.text_morphism P f).

Lemma count_step_morph (maxd n : nat) (line : A) :
  P line -> count_step maxd n (f line) = count_step maxd n line.
Proof.
  move=> Hl. have Hs := Text.morph_strip_dom _ _ Hf _ Hl.
  rewrite /count_step /parse_levels -(Text.morph_strip _ _ Hf _ Hl) (Text.morph_empty _ _ Hf _ Hs).
  rewrite (Text.morph_split _ _ Hf _ Hs) list_map_map.
  congr (if _ then _ else bind _ _). apply: list_map_ext_in => x Hx.
  apply: (Text.morph_int _ _ Hf).
  exact: (proj1 (List.Forall_forall _ _) (Text.morph_split_dom _ _ Hf _ Hs)).
Qed.

(** The counter gives the same result on the image of lines in the
    domain of a morphism of text instances. *)
Lemma count_safe_reports_morph (maxd : nat) (lines : seq A) :
  List.Forall P lines -> count_safe_reports maxd (map f lines) = count_safe_reports maxd lines.
Proof.
  rewrite /count_safe_reports. elim: lines 0 => [|l ls IH] n //= /List.Forall_cons_iff [Hl Hls].
  rewrite count_step_morph //. case: (count_step maxd n l) => //= n'. exact: IH.
Qed.

End Transport.

(** ** Concrete runs and witnesses *)

Example count_safe_reports_runs :
  count_safe_reports 4300 [:: "1 2 3 4"%string; "1 2 7 8"%string; "9 7 6 2"%string] = Ok 1 /\
  count_safe_reports 4300 [:: ""%string; "1 2 3"%string; " "%string; "3 2 1"%string; ""%string] = Ok 2 /\
  count_safe_reports 4300 [::] = Ok 0.
Proof. vm_compute. repeat split. Qed.

Lemma count_safe_reports_blank_witness :
  blank " 	"%string /\
  count_safe_reports 4300 ([:: "1 2 3"%string] ++ " 	"%string :: [:: "3 2 1"%string]) =
  count_safe_reports 4300 ([:: "1 2 3"%string] ++ [:: "3 2 1"%string]).
Proof.
  split; [vm_compute; reflexivity | apply (count_safe_reports_blank 4300); vm_compute; reflexivity].
Defined.

Lemma count_safe_reports_bound_witness :
  count_safe_reports 4300 [:: "1 2 3 4"%string; "1 2 7 8"%string; ""%string] = Ok 1 /\
  1 <= count (fun l => ~~ blank l) [:: "1 2 3 4"%string; "1 2 7 8"%string; ""%string] <= size [:: "1 2 3 4"%string; "1 2 7 8"%string; ""%string].
Proof.
  split; [vm_compute; reflexivity | apply (count_safe_reports_bound 4300); vm_compute; reflexivity].
Defined.

Lemma count_safe_reports_error_witness :
  count_safe_reports 4300 [:: "1 2 3"%string; "4 x 5"%string; "6 y"%string] = Err (ValueErrorLiteral (codes "x"%string)) /\
  exists pre line post, [:: "1 2 3"%string; "4 x 5"%string; "6 y"%string] = pre ++ line :: post /\
    (exists rs, reports 4300 pre = Ok rs) /\ ~~ blank line /\
    parse_levels 4300 (Text.strip line) = Err (ValueErrorLiteral (codes "x"%string)).
Proof.
  split; [vm_compute; reflexivity|].
  apply (count_safe_reports_error 4300). vm_compute. reflexivity.
Defined.

Lemma count_safe_reports_error_token_witness :
  count_safe_reports 4300 [:: "1 2 3"%string; "4 x 5"%string] = Err (ValueErrorLiteral (codes "x"%string)) /\
  exists line tok, List.In line [:: "1 2 3"%string; "4 x 5"%string] /\
    List.In tok (Text.split (Text.strip line)) /\
    Text.to_int 4300 tok = Err (ValueErrorLiteral (codes "x"%string)).
Proof.
  split; [vm_compute; reflexivity|].
  apply (count_safe_reports_error_token 4300 _ (ValueErrorLiteral (codes "x"%string))). vm_compute. reflexivity.
Defined.

Lemma count_safe_reports_perm_witness :
  Permutation [:: "1 2 3"%string; "9 9"%string] [:: "9 9"%string; "1 2 3"%string] /\
  count_safe_reports 4300 [:: "1 2 3"%string; "9 9"%string] = Ok 1 /\
  count_safe_reports 4300 [:: "9 9"%string; "1 2 3"%string] = Ok 1.
Proof.
  have Hp : Permutation [:: "1 2 3"%string; "9 9"%string] [:: "9 9"%string; "1 2 3"%string]
    by apply: perm_swap.
  have Hc : count_safe_reports 4300 [:: "1 2 3"%string; "9 9"%string] = Ok 1
    by vm_compute.
  split; [exact: Hp | split; [exact: Hc | exact: (count_safe_reports_perm 4300 _ _ 1 Hp Hc)]].
Defined.

Lemma loop_reachable_bound_witness :
  reachable 4300 (LoopState [:: "1 2 3"%string; "x"%string] 0) (LoopState [:: "x"%string] 1) /\
  safe_count (LoopState [:: "x"%string] 1) + size (remaining (LoopState [:: "x"%string] 1)) <=
    size [:: "1 2 3"%string; "x"%string].
Proof.
  have Hr : reachable 4300 (LoopState [:: "1 2 3"%string; "x"%string] 0) (LoopState [:: "x"%string] 1).
    apply: reach_step; first exact: reach_refl.
    by apply: LoopNext; vm_compute.
  split; [exact: Hr | exact: (loop_reachable_bound 4300 _ _ Hr)].
Defined.

Lemma count_safe_reports_tokens_witness :
  count_safe_reports 4300 [:: "1 2 3"%string; " "%string; "7 7"%string] =
    (rs <- list_map (fun l => list_map (Text.to_int 4300) (Text.split l))
                    (filter (fun l => ~~ nilp (Text.split l)) [:: "1 2 3"%string; " "%string; "7 7"%string]) ;;
     Ok (count Safety.is_safe rs)).
Proof. exact (count_safe_reports_tokens 4300 [:: "1 2 3"%string; " "%string; "7 7"%string]). Defined.

End Counter.
