(* ===== verification/Main.v ===== *)
(** * The program: [main] (src/solution.py, lines 57-67)

    [main] reads all of standard input with [sys.stdin.readlines()],
    counts the safe reports with [count_safe_reports] and prints the count
    with [print(result)], that is [str(result)] and a line feed.  The only
    write to standard output is this last one, so a run either prints one
    line or ends with an uncaught exception and prints nothing: [outcome]
    has the two cases.  [main_bytes] is the program on the bytes of
    standard input: [Utf8.decode] with the error handler of [sys.stdin]
    (which raises before any line is counted), [UText.readlines], then
    [finish], the counter on code points and [print]; [main_chunks] reads
    the same bytes by chunks through [Stdin.read_chunks], and
    [main_chunks_bytes] says the chunks change nothing.  [main] is the same
    on a text of the ASCII model, and [main_bytes_ascii] says they agree
    on 7-bit input.  [maxd] is the interpreter's [int_max_str_digits] (4300
    by default), used by both [int] and [str]. *)

From Stdlib Require Import String Ascii List Bool ZArith Lia Strings.Byte.
From S2P Require Import Prelude Text PyStr PyInt AsciiText Utf8 UText Stdin Safety Counter.
Import ListNotations.
Local Open Scope py_scope.
Local Open Scope string_scope.

Module Main.

(** A run ends normally, after writing [stdout], or with an uncaught
    exception (its traceback goes to stderr, the exit status is 1). *)
Inductive outcome : Type :=
| Exit (stdout : string)
| Raised (e : py_exc).

(** [print(result)] *)
Definition print (maxd : nat) (value : nat) : result string :=
  s <- PyInt.py_str maxd (Z.of_nat value) ;;
  Ok (s ++ String PyStr.newline EmptyString)%string.

(** [result = count_safe_reports(lines); print(result)] once the lines are
    read, on any instance of the text interface. *)
Definition finish {text : Type} {T : Text.PyText text} (maxd : nat) (lines : list text) : outcome :=
  match (value <- Counter.count_safe_reports maxd lines ;; print maxd value) with
  | Ok out => Exit out
  | Err e => Raised e
  end.

(** [main()] on a text of the ASCII model. *)
Definition main (maxd : nat) (stdin : string) : outcome :=
  finish maxd (PyStr.readlines stdin).

(** [main()] on the bytes of standard input: [sys.stdin.readlines()]
    decodes them with the error handler [errors] of [sys.stdin], which
    raises before any line is counted, and cuts the text into lines. *)
Definition main_bytes (errors : Utf8.errors_mode) (maxd : nat) (stdin : list byte) : outcome :=
  match Utf8.decode errors stdin with
  | Err e => Raised e
  | Ok text => finish maxd (UText.readlines text)
  end.

(** [main()] when [sys.stdin.readlines()] gets the input by [chunks]
    ([buffer.read1] calls) and decodes them one by one with the
    incremental decoder, as the [TextIOWrapper] does. *)
Definition main_chunks (errors : Utf8.errors_mode) (maxd : nat) (chunks : list (list byte)) : outcome :=
  match Stdin.read_chunks errors (Stdin.Reader [] []) (map (map Utf8.byte_value) chunks) with
  | Err e => Raised e
  | Ok text => finish maxd (UText.readlines text)
  end.

(** ** Lemmas *)

Lemma main_Ok (maxd : nat) (stdin : string) (n : nat) :
  Counter.count_safe_reports maxd (PyStr.readlines stdin) = Ok n ->
  main maxd stdin =
    match print maxd n with Ok out => Exit out | Err e => Raised e end.
Proof. intros H. unfold main, finish. rewrite H. reflexivity. Qed.

Lemma newline_space : PyStr.all_chars PyInt.c_isspace (String PyStr.newline EmptyString) = true.
Proof. reflexivity. Qed.

(** Input texts for the concrete runs: each line followed by a line feed. *)
Definition nl : string := String PyStr.newline EmptyString.
Definition unlines (ls : list string) : string :=
  String.concat EmptyString (map (fun l => (l ++ nl)%string) ls).

(** The bytes of a 7-bit text are its code points, and decode to them. *)
Lemma byte_value_of_ascii (a : ascii) : Utf8.byte_value (byte_of_ascii a) = Z.of_nat (nat_of_ascii a).
Proof. destruct a as [[] [] [] [] [] [] [] []]; reflexivity. Qed.

Lemma bytes_codes (s : string) : map Utf8.byte_value (list_byte_of_string s) = codes s.
Proof.
  unfold list_byte_of_string, codes. rewrite map_map. apply map_ext. apply byte_value_of_ascii.
Qed.

Lemma encode_ascii (s : string) :
  UText.ascii7 s -> Forall Utf8.scalar (codes s) /\ Utf8.encode (codes s) = codes s.
Proof.
  induction s as [|a s IH]; [split; [constructor | reflexivity]|].
  rewrite UText.ascii7_cons, UText.codes_cons. intros [Ha Hs]. destruct (IH Hs) as [H1 H2].
  split; [constructor; [unfold Utf8.scalar; lia | exact H1]|].
  unfold Utf8.encode in *. cbn [flat_map]. rewrite H2. unfold Utf8.encode_cp.
  rewrite (proj2 (Z.ltb_lt _ _)) by lia. reflexivity.
Qed.

Lemma decode_ascii (errors : Utf8.errors_mode) (s : string) :
  UText.ascii7 s -> Utf8.decode errors (list_byte_of_string s) = Ok (codes s).
Proof.
  intros Hs. destruct (encode_ascii s Hs) as [H1 H2].
  unfold Utf8.decode, Utf8.decode_z. rewrite bytes_codes.
  transitivity (Utf8.decode_fuel errors (length (codes s)) (Utf8.encode (codes s)));
    [rewrite H2; reflexivity|].
  apply Utf8.decode_fuel_encode; [exact H1 | rewrite H2; lia].
Qed.

(** A line with an escaped byte makes the counter raise. *)
Lemma count_escape_raises (maxd : nat) (cps : list Z) (c : Z) :
  In c cps -> Utf8.is_escape c = true ->
  exists e, Counter.count_safe_reports maxd (UText.readlines cps) = Err e.
Proof.
  intros Hin Hc. destruct (UText.escape_bad c Hc) as (Hc1 & Hc2 & Hc3).
  destruct (UText.in_readlines cps c Hin) as (line & Hl & Hcl).
  destruct (UText.in_split line c Hcl Hc2) as (tok & Ht & Hct).
  destruct (UText.py_int_bad_char maxd tok c Hct Hc1 Hc2 Hc3) as [e0 He0].
  apply (Counter.count_safe_reports_Err_of_token maxd _ line tok e0 Hl).
  - rewrite Counter.blank_iff_no_tokens. cbn. destruct (UText.split line); [destruct Ht | reflexivity].
  - cbn. rewrite UText.split_strip. exact Ht.
  - exact He0.
Qed.

(** A UTF-8 byte order mark decodes to U+FEFF in front of the rest. *)
Lemma decode_bom (errors : Utf8.errors_mode) (bs : list byte) :
  Utf8.decode errors ([xef; xbb; xbf] ++ bs) = (fun cps => 0xFEFF%Z :: cps) <$> Utf8.decode errors bs.
Proof. unfold Utf8.decode. cbn [map app]. rewrite Stdin.decode_z_cons. reflexivity. Qed.

(** A first line that starts with U+FEFF makes the counter raise on its
    first token. *)
Lemma count_bom (maxd : nat) (l : list Z) (ls : list (list Z)) :
  exists tok, Counter.count_safe_reports maxd ((0xFEFF%Z :: l) :: ls) = Err (ValueErrorLiteral (0xFEFF%Z :: tok)).
Proof.
  destruct (UText.split_cons_nonspace 0xFEFF l) as (w & ws & Hs); [reflexivity|].
  exists w. unfold Counter.count_safe_reports. cbn [Counter.count_loop]. unfold Counter.count_step.
  replace (Text.is_empty (Text.strip (0xFEFF%Z :: l))) with false.
  2:{ symmetry. apply not_true_iff_false. rewrite Text.empty_strip_iff. cbn. rewrite Hs. discriminate. }
  unfold Counter.parse_levels. rewrite Text.split_strip. cbn [Text.split UText.unicode_text].
  rewrite Hs. cbn [list_map Text.to_int UText.unicode_text].
  rewrite UText.py_int_lead_bad by (vm_compute; first [reflexivity | discriminate]). reflexivity.
Qed.

(** ** Properties of the program *)

(** On empty input the program prints [0] and a line
    feed, whatever the digit limit. *)
Theorem main_empty (maxd : nat) : main maxd EmptyString = Exit ("0" ++ nl)%string.
Proof. unfold main. destruct maxd as [|[|m]]; vm_compute; reflexivity. Qed.

(** The scenarios of the specification, end to end: of
    [1 2 3 4], [1 2 7 8] and [9 7 6 2] only the first is safe; blank lines
    between [1 2 3] and [3 2 1] are ignored and both count; a token that
    is not an integer ends the run with [ValueError]. *)
Theorem main_scenarios :
  main 4300 (unlines ["1 2 3 4"; "1 2 7 8"; "9 7 6 2"]) = Exit ("1" ++ nl) /\
  main 4300 (unlines [""; "1 2 3"; ""; "   "; "3 2 1"]) = Exit ("2" ++ nl) /\
  main 4300 (unlines ["1 2 3"; "4 five 6"]) = Raised (ValueErrorLiteral (codes "five")).
Proof. vm_compute. repeat split. Qed.

(** C26 (roundtrip): what the program prints is read back by [int] as the
    number of safe reports it counted. *)
Theorem main_output_reads_back (maxd : nat) (stdin out : string) :
  main maxd stdin = Exit out ->
  exists n, Counter.count_safe_reports maxd (PyStr.readlines stdin) = Ok n /\
    PyInt.py_int maxd out = Ok (Z.of_nat n).
Proof.
  unfold main, finish, print.
  destruct (Counter.count_safe_reports maxd (PyStr.readlines stdin)) as [n|e];
    simpl; [|discriminate].
  destruct (PyInt.py_str maxd (Z.of_nat n)) as [s|e] eqn:Hs; simpl; [|discriminate].
  intros [= <-]. exists n. split; [reflexivity|].
  apply PyInt.py_str_roundtrip; [exact Hs | exact newline_space].
Qed.

(** C27 (bounds): once the reports are counted, printing the count cannot
    hit the digit limit of [str] unless the input has at least
    [10 ^ maxd] lines: the program then prints. *)
Theorem main_prints (maxd : nat) (stdin : string) (n : nat) :
  Counter.count_safe_reports maxd (PyStr.readlines stdin) = Ok n ->
  (maxd = 0%nat \/ (Z.of_nat (length (PyStr.readlines stdin)) < 10 ^ Z.of_nat maxd)%Z) ->
  exists out, main maxd stdin = Exit out.
Proof.
  intros Hc Hbound. rewrite (main_Ok maxd stdin n Hc). unfold print, PyInt.py_str.
  replace (PyInt.exceeds maxd (length (PyInt.decimal_digits (Z.abs (Z.of_nat n))))) with false;
    [simpl; eauto|].
  symmetry. unfold PyInt.exceeds. apply andb_false_iff.
  destruct maxd as [|m]; [left; reflexivity|].
  destruct Hbound as [Hm | Hb]; [discriminate Hm|]. right. apply Nat.ltb_ge.
  apply PyInt.decimal_digits_length; [lia|].
  pose proof (Counter.count_safe_reports_le_length (S m) _ _ Hc). lia.
Qed.

(** C25 (error): a token that [int] rejects on a non-blank line of the
    input ends the run with an exception, so nothing is printed. *)
Theorem main_raises (maxd : nat) (stdin line tok : string) (e0 : py_exc) :
  In line (PyStr.readlines stdin) -> Counter.blank line = false ->
  In tok (PyStr.py_split (PyStr.py_strip line)) -> PyInt.py_int maxd tok = Err e0 ->
  exists e, main maxd stdin = Raised e.
Proof.
  intros Hl Hb Ht He0.
  destruct (Counter.count_safe_reports_Err_of_token maxd _ _ tok e0 Hl) as [e He];
    [rewrite Hb; reflexivity | exact Ht | exact He0 |].
  exists e. unfold main, finish. rewrite He. reflexivity.
Qed.

(** On the bytes of a 7-bit ASCII text the program
    behaves as the ASCII model, whatever the error handler of [stdin]. *)
Theorem main_bytes_ascii (errors : Utf8.errors_mode) (maxd : nat) (s : string) :
  UText.ascii7 s -> main_bytes errors maxd (list_byte_of_string s) = main maxd s.
Proof.
  intros Hs. unfold main_bytes, main, finish. rewrite decode_ascii by exact Hs.
  destruct (UText.codes_readlines s) as [H1 H2]. rewrite H1.
  rewrite (Counter.count_safe_reports_morph UText.ascii7 codes UText.codes_morphism) by exact (H2 Hs).
  reflexivity.
Qed.

(** C9 (safety): on input that is not UTF-8 the program never prints a
    count: with [strict] it raises [UnicodeDecodeError] while reading;
    with [surrogateescape] the escaped bytes sit in a token on which
    [int] raises, so the counter raises. *)
Theorem main_bytes_not_utf8 (maxd : nat) (bs : list byte) :
  ~ (exists cps, Forall Utf8.scalar cps /\ Utf8.encode cps = map Utf8.byte_value bs) ->
  (exists r, main_bytes Utf8.Strict maxd bs = Raised (UnicodeDecodeError r)) /\
  (exists e, main_bytes Utf8.SurrogateEscape maxd bs = Raised e).
Proof.
  intros Hn. unfold main_bytes, Utf8.decode, Utf8.decode_z. split.
  - destruct (Utf8.decode_fuel Utf8.Strict _ _) as [cps|e] eqn:Hd.
    + exfalso. apply Hn. exists cps.
      apply (Utf8.decode_fuel_strict_sound _ _ _ (Utf8.bytes_in_range bs) (le_n _) Hd).
    + destruct (Utf8.decode_fuel_Err _ _ _ _ Hd) as [r ->]. exists r. reflexivity.
  - destruct (Utf8.decode_fuel_se (length (map Utf8.byte_value bs)) (map Utf8.byte_value bs))
      as (cps & Hd & He & Hs); [apply Utf8.bytes_in_range | lia |]. rewrite Hd.
    destruct (forallb (fun c => negb (Utf8.is_escape c)) cps) eqn:Hf.
    + exfalso. apply Hn. exists cps. destruct (Utf8.se_no_escape cps Hs Hf) as [H1 H2].
      split; [exact H1 | rewrite <- H2; exact He].
    + destruct (forallb_false_exists _ _ Hf) as (c & Hin & Hc). apply negb_false_iff in Hc.
      destruct (count_escape_raises maxd cps c Hin Hc) as [e He'].
      exists e. unfold finish. rewrite He'. reflexivity.
Qed.

(** C10 (error): an input that starts with a UTF-8 byte order mark (as
    some editors write) never prints a count: the mark is read as U+FEFF,
    which is not whitespace, so it begins the first token and [int]
    raises [ValueError] on it; with [strict], an input whose rest is not
    UTF-8 raises [UnicodeDecodeError] first. *)
Theorem main_bytes_bom (errors : Utf8.errors_mode) (maxd : nat) (bs : list byte) :
  (exists r, main_bytes errors maxd ([xef; xbb; xbf] ++ bs) = Raised (UnicodeDecodeError r)) \/
  (exists tok, main_bytes errors maxd ([xef; xbb; xbf] ++ bs) = Raised (ValueErrorLiteral (0xFEFF%Z :: tok))).
Proof.
  unfold main_bytes. rewrite decode_bom.
  destruct (Utf8.decode errors bs) as [text|e] eqn:Hd; unfold fmap_result; cbn [bind].
  - right. rewrite UText.readlines_cons. replace (0xFEFF =? 10)%Z with false by reflexivity.
    destruct (UText.readlines text) as [|l ls];
      [destruct (count_bom maxd [] []) as [tok Ht] | destruct (count_bom maxd l ls) as [tok Ht]];
      exists tok; unfold finish; rewrite Ht; reflexivity.
  - left. destruct (Utf8.decode_fuel_Err _ _ _ _ Hd) as [r ->]. exists r. reflexivity.
Qed.

(** The program on the bytes of concrete inputs, as
    CPython 3.11 runs it: digits of other scripts and Unicode spaces are
    read, a byte order mark makes the first token invalid, a byte that is
    not UTF-8 raises [UnicodeDecodeError] with [strict] and the
    [ValueError] of its escaped token with [surrogateescape]. *)
Theorem main_bytes_scenarios :
  main_bytes Utf8.Strict 4300 [xd9; xa1; x20; xd9; xa2; x20; xd9; xa3; x0a] = Exit ("1" ++ nl) /\
  main_bytes Utf8.Strict 4300 [x31; xe3; x80; x80; x32; xe3; x80; x80; x33; x0a] = Exit ("1" ++ nl) /\
  main_bytes Utf8.Strict 4300 [xc2; xa0; x0a; x31; x20; x32; x0a] = Exit ("1" ++ nl) /\
  main_bytes Utf8.Strict 4300 [xef; xbb; xbf; x31; x20; x32; x20; x33; x0a] =
    Raised (ValueErrorLiteral [0xFEFF; 0x31]%Z) /\
  main_bytes Utf8.Strict 4300 [x31; x20; x32; x20; x33; x0a; x34; x20; xff; x20; x35; x0a] =
    Raised (UnicodeDecodeError InvalidStartByte) /\
  main_bytes Utf8.SurrogateEscape 4300 [x31; x20; x32; x20; x33; x0a; x34; x20; xff; x20; x35; x0a] =
    Raised (ValueErrorLiteral [0xDCFF]%Z).
Proof. vm_compute. repeat split. Qed.

(** ** Witnesses *)

(** The program reading its input by chunks of any
    sizes prints, or raises, as on the whole input at once. *)
Theorem main_chunks_bytes (errors : Utf8.errors_mode) (maxd : nat) (chunks : list (list byte)) :
  main_chunks errors maxd chunks = main_bytes errors maxd (concat chunks).
Proof.
  unfold main_chunks, main_bytes, Utf8.decode.
  rewrite Stdin.read_chunks_concat, concat_map, Stdin.fmap_nil_app. reflexivity.
Qed.

Lemma main_output_reads_back_witness :
  main 4300 (unlines ["1 2 3 4"; "5 5"]) = Exit ("1" ++ nl) /\
  exists n, Counter.count_safe_reports 4300 (PyStr.readlines (unlines ["1 2 3 4"; "5 5"])) = Ok n /\
    PyInt.py_int 4300 ("1" ++ nl) = Ok (Z.of_nat n).
Proof.
  split; [vm_compute; reflexivity|].
  apply main_output_reads_back. vm_compute. reflexivity.
Defined.

Lemma main_prints_witness :
  Counter.count_safe_reports 1 (PyStr.readlines (unlines ["1 2 3"; "7 7"])) = Ok 1%nat /\
  (Z.of_nat (length (PyStr.readlines (unlines ["1 2 3"; "7 7"]))) < 10 ^ Z.of_nat 1)%Z /\
  exists out, main 1 (unlines ["1 2 3"; "7 7"]) = Exit out.
Proof.
  split; [vm_compute; reflexivity|]. split; [vm_compute; reflexivity|].
  apply (main_prints 1 _ 1); [vm_compute; reflexivity | right; vm_compute; reflexivity].
Defined.

Lemma main_raises_witness :
  In ("3 x" ++ nl) (PyStr.readlines (unlines ["1 2"; "3 x"])) /\
  Counter.blank ("3 x" ++ nl) = false /\
  In "x" (PyStr.py_split (PyStr.py_strip ("3 x" ++ nl))) /\
  PyInt.py_int 4300 "x" = Err (ValueErrorLiteral (codes "x")) /\
  exists e, main 4300 (unlines ["1 2"; "3 x"]) = Raised e.
Proof.
  split; [vm_compute; auto|]. split; [vm_compute; reflexivity|].
  split; [vm_compute; auto|]. split; [vm_compute; reflexivity|].
  apply (main_raises 4300 _ ("3 x" ++ nl) "x" (ValueErrorLiteral (codes "x"))); vm_compute; auto.
Defined.

Lemma main_bytes_ascii_witness :
  UText.ascii7 (unlines ["1 2 3"; "9 9"]) /\
  main_bytes Utf8.SurrogateEscape 4300 (list_byte_of_string (unlines ["1 2 3"; "9 9"])) =
    main 4300 (unlines ["1 2 3"; "9 9"]).
Proof.
  assert (H : UText.ascii7 (unlines ["1 2 3"; "9 9"])) by (vm_compute; reflexivity).
  split; [exact H | apply main_bytes_ascii; exact H].
Defined.

Lemma main_bytes_not_utf8_witness :
  ~ (exists cps, Forall Utf8.scalar cps /\ Utf8.encode cps = map Utf8.byte_value [x31; xc0; x0a]) /\
  (exists r, main_bytes Utf8.Strict 4300 [x31; xc0; x0a] = Raised (UnicodeDecodeError r)) /\
  (exists e, main_bytes Utf8.SurrogateEscape 4300 [x31; xc0; x0a] = Raised e).
Proof.
  assert (H : ~ (exists cps, Forall Utf8.scalar cps /\ Utf8.encode cps = map Utf8.byte_value [x31; xc0; x0a])).
  { intros [cps [H1 H2]].
    pose proof (Utf8.decode_fuel_encode Utf8.Strict cps _ H1 (le_n _)) as H3.
    rewrite H2 in H3. vm_compute in H3. discriminate H3. }
  split; [exact H | apply main_bytes_not_utf8; exact H].
Defined.

End Main.
